(** * COFFObjectFile: the PE/COFF reader with CLI metadata support

    A shallow embedding of [lib/Object/COFFObjectFile.cpp] and of the
    record layouts of [include/llvm/Object/COFF.h], followed by the
    properties of the reader that the specification states.

    Conventions of the embedding.
    - The host is an LP64 little-endian machine: [uintptr_t], [size_t]
      and [uint64_t] are 64-bit, [unsigned int] and [uint32_t] are
      32-bit.  Every fixed-width integer is a [Z] in its range and each
      operation is followed by the wrap-around of its C type.
    - The image is a [MemoryBuffer]: a start address and the bytes
      mapped there.  A read through a raw pointer that leaves the mapped
      bytes is undefined behaviour in the source; the embedding gives it
      the outcome [Fault].
    - [assert] is compiled away when [NDEBUG] is defined.  Functions
      that contain an [assert] take the build mode as their first
      argument ([ndebug = true] is the release build); a failing
      [assert] has the outcome [Abort].
    - A function returning [error_code] and writing its result through a
      reference parameter returns [Ok v] for [object_error::success]
      with [v] stored, and [Err e] for the error [e]; none of the
      functions embedded here writes through its reference parameter
      on an error path. *)

From Stdlib Require Import ZArith List Bool Lia String Ascii.
From Stdlib Require Import Strings.Byte.
Import ListNotations.
Open Scope Z_scope.

(* ================================================================= *)
(** ** Fixed-width arithmetic *)

Definition wrap (bits : Z) (z : Z) : Z := z mod 2 ^ bits.

Definition wrap32 : Z -> Z := wrap 32.
Definition wrap64 : Z -> Z := wrap 64.

(** [uintptr_t] and [size_t] of the host. *)
Definition wrap_ptr : Z -> Z := wrap64.

Definition UINT32_MAX : Z := 4294967295.

(* ================================================================= *)
(** ** Outcomes *)

(** The two members of [object_error] other than [success] that the
    reader produces. *)
Inductive object_error : Type :=
| parse_failed
| unexpected_eof.

Inductive outcome (A : Type) : Type :=
| Ok (a : A)
| Err (e : object_error)
| Fault
| Abort (msg : string).

Arguments Ok {A} a.
Arguments Err {A} e.
Arguments Fault {A}.
Arguments Abort {A} msg.

Definition bind {A B : Type} (m : outcome A) (k : A -> outcome B) : outcome B :=
  match m with
  | Ok a => k a
  | Err e => Err e
  | Fault => Fault
  | Abort msg => Abort msg
  end.

Declare Scope outcome_scope.
Delimit Scope outcome_scope with outcome.
Notation "x <- m ;; k" := (bind m (fun x => k))
  (at level 61, m at next level, right associativity) : outcome_scope.
Notation "' p <- m ;; k" := (bind m (fun p => k))
  (at level 61, p pattern, m at next level, right associativity) : outcome_scope.
Open Scope outcome_scope.

(** [assert(cond && msg)]. *)
Definition assert_ (ndebug : bool) (cond : bool) (msg : string) : outcome unit :=
  if ndebug then Ok tt else if cond then Ok tt else Abort msg.

Definition is_ok {A : Type} (o : outcome A) : bool :=
  match o with Ok _ => true | _ => false end.

Definition is_abort {A : Type} (o : outcome A) : bool :=
  match o with Abort _ => true | _ => false end.

(* ================================================================= *)
(** ** The memory buffer *)

Record MemoryBuffer : Type := mkBuffer {
  BufferStart : Z;
  BufferBytes : list byte
}.

Definition getBufferSize (M : MemoryBuffer) : Z :=
  Z.of_nat (List.length (BufferBytes M)).

Definition getBufferEnd (M : MemoryBuffer) : Z :=
  BufferStart M + getBufferSize M.

(** The buffer lies in the 64-bit address space. *)
Definition buffer_wf (M : MemoryBuffer) : Prop :=
  0 <= BufferStart M /\ getBufferEnd M < 2 ^ 64.

Definition byte_val (b : byte) : Z := Z.of_N (Byte.to_N b).

(** [*(const uint8_t * )Addr]. *)
Definition load8 (M : MemoryBuffer) (Addr : Z) : outcome Z :=
  if (BufferStart M <=? Addr) && (Addr <? getBufferEnd M)
  then match nth_error (BufferBytes M) (Z.to_nat (Addr - BufferStart M)) with
       | Some b => Ok (byte_val b)
       | None => Fault
       end
  else Fault.

(** [ulittle16_t], [ulittle32_t] and [ulittle64_t] are packed
    little-endian fields read byte by byte. *)
Definition load16 (M : MemoryBuffer) (Addr : Z) : outcome Z :=
  b0 <- load8 M Addr ;;
  b1 <- load8 M (Addr + 1) ;;
  Ok (b0 + 256 * b1).

Definition load32 (M : MemoryBuffer) (Addr : Z) : outcome Z :=
  lo <- load16 M Addr ;;
  hi <- load16 M (Addr + 2) ;;
  Ok (lo + 65536 * hi).

Definition load64 (M : MemoryBuffer) (Addr : Z) : outcome Z :=
  lo <- load32 M Addr ;;
  hi <- load32 M (Addr + 4) ;;
  Ok (lo + 4294967296 * hi).

(** The bytes of the NUL-terminated string that starts at the head of
    [bs]; running off the mapped bytes before a NUL is a [Fault]. *)
Fixpoint cstring_of (bs : list byte) : outcome (list byte) :=
  match bs with
  | [] => Fault
  | b :: rest =>
      if byte_val b =? 0 then Ok []
      else s <- cstring_of rest ;; Ok (b :: s)
  end.

(** [StringRef(const char * )]: the string at [Addr], without its NUL. *)
Definition cstring (M : MemoryBuffer) (Addr : Z) : outcome (list byte) :=
  if (BufferStart M <=? Addr) && (Addr <? getBufferEnd M)
  then cstring_of (skipn (Z.to_nat (Addr - BufferStart M)) (BufferBytes M))
  else Fault.

(** [strlen]. *)
Definition strlen (M : MemoryBuffer) (Addr : Z) : outcome Z :=
  s <- cstring M Addr ;; Ok (Z.of_nat (List.length s)).

(* ================================================================= *)
(** ** The bounds-checked reader *)

(** [getObject(Obj, M, Ptr, Size)]: the address is returned as the typed
    view. *)
Definition getObject (M : MemoryBuffer) (Ptr : Z) (Size : Z) : outcome Z :=
  let Addr := Ptr in
  if (wrap_ptr (Addr + Size) <? Addr)
     || (wrap_ptr (Addr + Size) <? Size)
     || (wrap_ptr (Addr + Size) >? getBufferEnd M)
  then Err unexpected_eof
  else Ok Addr.

(* ================================================================= *)
(** ** Record layouts of COFF.h *)

(** The structures are views of packed little-endian bytes of the
    image; the embedding keeps them decoded.  Of the two optional
    headers only the fields the reader consults are kept. *)

Module coff_file_header.
Record t : Type := mk {
  Machine : Z;
  NumberOfSections : Z;
  TimeDateStamp : Z;
  PointerToSymbolTable : Z;
  NumberOfSymbols : Z;
  SizeOfOptionalHeader : Z;
  Characteristics : Z
}.
Definition isImportLibrary (h : t) : bool := NumberOfSections h =? 65535.
End coff_file_header.

Module pe32_header.
Record t : Type := mk {
  Magic : Z;
  ImageBase : Z;
  NumberOfRvaAndSize : Z
}.
End pe32_header.

Module pe32plus_header.
Record t : Type := mk {
  Magic : Z;
  ImageBase : Z;
  NumberOfRvaAndSize : Z
}.
End pe32plus_header.

Module coff_section.
Record t : Type := mk {
  Name : list byte;            (* char Name[8] *)
  VirtualSize : Z;
  VirtualAddress : Z;
  SizeOfRawData : Z;
  PointerToRawData : Z;
  PointerToRelocations : Z;
  PointerToLinenumbers : Z;
  NumberOfRelocations : Z;
  NumberOfLinenumbers : Z;
  Characteristics : Z
}.
End coff_section.

Module export_directory_table_entry.
Record t : Type := mk {
  ExportFlags : Z;
  TimeDateStamp : Z;
  MajorVersion : Z;
  MinorVersion : Z;
  NameRVA : Z;
  OrdinalBase : Z;
  AddressTableEntries : Z;
  NumberOfNamePointers : Z;
  ExportAddressTableRVA : Z;
  NamePointerRVA : Z;
  OrdinalTableRVA : Z
}.
End export_directory_table_entry.

Definition sizeof_coff_file_header : Z := 20.
Definition sizeof_coff_symbol : Z := 18.
Definition sizeof_coff_section : Z := 40.
Definition sizeof_data_directory : Z := 8.

(** The cached state of a [COFFObjectFile].  Pointers are addresses,
    [0] is the null pointer. *)
Record COFFObjectFile : Type := mkCOFF {
  Data : MemoryBuffer;
  COFFHeader : coff_file_header.t;
  PE32Header : option pe32_header.t;
  PE32PlusHeader : option pe32plus_header.t;
  DataDirectory : Z;
  SectionTable : list coff_section.t;
  SymbolTable : Z;
  StringTable : Z;
  StringTableSize : Z
}.

Definition base (O : COFFObjectFile) : Z := BufferStart (Data O).

(* ================================================================= *)
(** ** Base-64 section names *)

(** The value of a [char] of the host (signed). *)
Definition char_val (b : byte) : Z :=
  if byte_val b <? 128 then byte_val b else byte_val b - 256.

Definition chr_A : Z := 65.
Definition chr_Z : Z := 90.
Definition chr_a : Z := 97.
Definition chr_z : Z := 122.
Definition chr_0 : Z := 48.
Definition chr_9 : Z := 57.
Definition chr_plus : Z := 43.
Definition chr_slash : Z := 47.

(** The [if]/[else if] chain of the loop body; [None] is the final
    [else return true]. *)
Definition CharVal (c : byte) : option Z :=
  let ch := char_val c in
  if (chr_A <=? ch) && (ch <=? chr_Z) then Some (ch - chr_A)
  else if (chr_a <=? ch) && (ch <=? chr_z) then Some (ch - chr_a + 26)
  else if (chr_0 <=? ch) && (ch <=? chr_9) then Some (ch - chr_0 + 52)
  else if ch =? chr_plus then Some 62
  else if ch =? chr_slash then Some 63
  else None.

(** [while (!Str.empty())] with its accumulator [uint64_t Value]. *)
Fixpoint decodeBase64_loop (Str : list byte) (Value : Z) : option Z :=
  match Str with
  | [] => Some Value
  | c :: rest =>
      match CharVal c with
      | Some v => decodeBase64_loop rest (wrap64 (Value * 64 + v))
      | None => None
      end
  end.

(** [decodeBase64StringEntry(Str, Result)].  The function returns
    [true] on failure: that is [Ok None]; [Ok (Some r)] is a return of
    [false] with [Result = r]. *)
Definition decodeBase64StringEntry (ndebug : bool) (Str : list byte)
  : outcome (option Z) :=
  _ <- assert_ ndebug (Z.of_nat (List.length Str) <=? 6)
         "String too long, possible overflow." ;;
  if Z.of_nat (List.length Str) >? 6 then Ok None
  else
    match decodeBase64_loop Str 0 with
    | None => Ok None
    | Some Value =>
        if Value >? UINT32_MAX then Ok None
        else Ok (Some (wrap32 Value))
    end.

(* ================================================================= *)
(** ** String table *)

(** [COFFObjectFile::getString]. *)
Definition getString (O : COFFObjectFile) (Offset : Z) : outcome (list byte) :=
  if StringTableSize O <=? 4 then Err parse_failed
  else if Offset >=? StringTableSize O then Err unexpected_eof
  else cstring (Data O) (wrap_ptr (StringTable O + Offset)).

(** [COFFObjectFile::initSymbolTablePtr]: the object with its symbol
    table and string table fields set. *)
Definition initSymbolTablePtr (O : COFFObjectFile) : outcome COFFObjectFile :=
  let H := COFFHeader O in
  let SymbolsSize :=
    wrap64 (coff_file_header.NumberOfSymbols H * sizeof_coff_symbol) in
  SymbolTable' <-
    getObject (Data O)
      (wrap_ptr (base O + coff_file_header.PointerToSymbolTable H))
      SymbolsSize ;;
  let StringTableAddr :=
    wrap_ptr (wrap_ptr (base O + coff_file_header.PointerToSymbolTable H)
              + SymbolsSize) in
  StringTableSizePtr <- getObject (Data O) StringTableAddr 4 ;;
  StringTableSize0 <- load32 (Data O) StringTableSizePtr ;;
  StringTable' <- getObject (Data O) StringTableAddr StringTableSize0 ;;
  let StringTableSize' :=
    if StringTableSize0 <? 4 then 4 else StringTableSize0 in
  let O' := mkCOFF (Data O) (COFFHeader O) (PE32Header O) (PE32PlusHeader O)
                   (DataDirectory O) (SectionTable O)
                   SymbolTable' StringTable' StringTableSize' in
  if StringTableSize' >? 4 then
    last <- load8 (Data O) (wrap_ptr (StringTable' + (StringTableSize' - 1))) ;;
    if negb (last =? 0) then Err parse_failed else Ok O'
  else Ok O'.

(* ================================================================= *)
(** ** Section names *)

(** The characters of [l] before its first NUL. *)
Fixpoint until_nul (l : list byte) : list byte :=
  match l with
  | [] => []
  | b :: rest => if byte_val b =? 0 then [] else b :: until_nul rest
  end.

(** [StringRef::operator[]] of llvm/ADT on a view over [char Name[8]]:
    the character stored at the index, which is the terminating NUL
    just past a shorter name.  (The operator's own [assert] on the
    index belongs to llvm/ADT and is not part of this file.) *)
Definition char_at (s : list byte) (i : nat) : Z := char_val (nth i s x00).

Section SectionNames.

(** [StringRef::getAsInteger(10, uint32_t&)] of llvm/ADT, not part of
    this file: [None] when it reports failure. *)
Variable getAsInteger10 : list byte -> option Z.

(** [COFFObjectFile::getSectionName]. *)
Definition getSectionName (ndebug : bool) (O : COFFObjectFile)
    (Sec : coff_section.t) : outcome (list byte) :=
  let Name :=
    if byte_val (nth 7 (coff_section.Name Sec) x00) =? 0
    then until_nul (coff_section.Name Sec)
    else firstn 8 (coff_section.Name Sec) in
  if char_at Name 0 =? chr_slash then
    Offset <-
      (if char_at Name 1 =? chr_slash then
         r <- decodeBase64StringEntry ndebug (skipn 2 Name) ;;
         match r with
         | None => Err parse_failed
         | Some v => Ok v
         end
       else
         match getAsInteger10 (skipn 1 Name) with
         | None => Err parse_failed
         | Some v => Ok v
         end) ;;
    getString O Offset
  else Ok Name.

End SectionNames.

(* ================================================================= *)
(** ** Method bodies and RVA resolution *)

(** [COFFObjectFile::getMethodSize].  [size] is an [unsigned int]. *)
Definition getMethodSize (M : MemoryBuffer) (method : Z) : outcome Z :=
  buff <- load8 M method ;;
  if Z.land buff 3 =? 2 then
    Ok (wrap32 (Z.shiftr buff 2 + 1))
  else if Z.land buff 3 =? 3 then
    buffer <- load32 M (wrap_ptr (method + 4)) ;;
    Ok (wrap32 (buffer + 12))
  else Err parse_failed.

(** The sections between [section_begin()] and [section_end()]. *)
Definition sections (O : COFFObjectFile) : list coff_section.t :=
  let NumSections :=
    if coff_file_header.isImportLibrary (COFFHeader O) then 0
    else coff_file_header.NumberOfSections (COFFHeader O) in
  firstn (Z.to_nat NumSections) (SectionTable O).

(** The body of the loop of [getRvaPtr] over the remaining sections. *)
Fixpoint getRvaPtr_loop (base_addr : Z) (secs : list coff_section.t) (Addr : Z)
  : outcome Z :=
  match secs with
  | [] => Err parse_failed
  | Section :: rest =>
      let SectionStart := coff_section.VirtualAddress Section in
      let SectionEnd :=
        wrap32 (coff_section.VirtualAddress Section
                + coff_section.VirtualSize Section) in
      if (SectionStart <=? Addr) && (Addr <? SectionEnd) then
        let Offset := wrap32 (Addr - SectionStart) in
        Ok (wrap_ptr (base_addr + coff_section.PointerToRawData Section + Offset))
      else getRvaPtr_loop base_addr rest Addr
  end.

(** [COFFObjectFile::getRvaPtr]. *)
Definition getRvaPtr (O : COFFObjectFile) (Addr : Z) : outcome Z :=
  getRvaPtr_loop (base O) (sections O) Addr.

(* ================================================================= *)
(** ** Data directories *)

(** [COFFObjectFile::getDataDirectory]: the address of
    [DataDirectory[Index]]. *)
Definition getDataDirectory (ndebug : bool) (O : COFFObjectFile) (Index : Z)
  : outcome Z :=
  if DataDirectory O =? 0 then Err parse_failed
  else
    _ <- assert_ ndebug
           (match PE32Header O, PE32PlusHeader O with
            | None, None => false
            | _, _ => true
            end) "PE32Header || PE32PlusHeader" ;;
    NumEnt <-
      match PE32Header O with
      | Some h => Ok (pe32_header.NumberOfRvaAndSize h)
      | None =>
          match PE32PlusHeader O with
          | Some h => Ok (pe32plus_header.NumberOfRvaAndSize h)
          | None => Fault
          end
      end ;;
    if Index >? NumEnt then Err parse_failed
    else Ok (wrap_ptr (DataDirectory O + sizeof_data_directory * Index)).

(* ================================================================= *)
(** ** Export directory entries *)

Module ExportDirectoryEntryRef.

Record t : Type := mk {
  ExportTable : export_directory_table_entry.t;
  Index : Z;
  OwningObject : COFFObjectFile
}.

(** The [for] loop of [getSymbolName]: [I] walks the ordinal table up
    to [E], [Offset] counts the entries passed.  [fuel] bounds the
    number of iterations; it is never exhausted when it starts at
    [NumEntries]. *)
Fixpoint getSymbolName_loop (R : t) (fuel : nat) (I E : Z) (Offset : Z)
  : outcome (list byte) :=
  if I <? E then
    match fuel with
    | O => Fault
    | S fuel' =>
        let Obj := OwningObject R in
        ordinal <- load16 (Data Obj) I ;;
        if negb (ordinal =? Index R) then
          getSymbolName_loop R fuel' (wrap_ptr (I + 2)) E (Offset + 1)
        else
          IntPtr <- getRvaPtr Obj
                      (export_directory_table_entry.NamePointerRVA
                         (ExportTable R)) ;;
          NameRva <- load32 (Data Obj) (wrap_ptr (IntPtr + 4 * Offset)) ;;
          IntPtr' <- getRvaPtr Obj NameRva ;;
          cstring (Data Obj) IntPtr'
    end
  else Ok [].

(** [ExportDirectoryEntryRef::getSymbolName]. *)
Definition getSymbolName (R : t) : outcome (list byte) :=
  Start <- getRvaPtr (OwningObject R)
             (export_directory_table_entry.OrdinalTableRVA (ExportTable R)) ;;
  let NumEntries :=
    export_directory_table_entry.NumberOfNamePointers (ExportTable R) in
  getSymbolName_loop R (Z.to_nat NumEntries)
    Start (wrap_ptr (Start + 2 * NumEntries)) 0.

End ExportDirectoryEntryRef.

(* ================================================================= *)
(** ** CLI metadata: record layouts *)

Inductive table_kind : Type :=
| tModule          (* 0x00 *)
| tTypeRef         (* 0x01 *)
| tTypeDef         (* 0x02 *)
| tMethodDef       (* 0x06 *)
| tMemberRef       (* 0x0a *)
| tStandAloneSig   (* 0x11 *)
| tAssemblyRef.    (* 0x23 *)

(** [sizeof] of the packed records of [namespace clrtables]. *)
Definition sizeof_table (k : table_kind) : Z :=
  match k with
  | tModule => 10
  | tTypeRef => 6
  | tTypeDef => 14
  | tMethodDef => 14
  | tMemberRef => 6
  | tStandAloneSig => 2
  | tAssemblyRef => 20
  end.

Module clrTablePtr.
Record t : Type := mk {
  Module_ : Z;        ModuleSize : Z;
  TypeRef : Z;        TypeRefSize : Z;
  TypeDef : Z;        TypeDefSize : Z;
  MethodDef : Z;      MethodDefSize : Z;
  MemberRef : Z;      MemberRefSize : Z;
  StandAloneSig : Z;  StandAloneSigSize : Z;
  AssemblyRef : Z;    AssemblyRefSize : Z
}.

Definition zero : t := mk 0 0 0 0 0 0 0 0 0 0 0 0 0 0.

(** [ptr->T = MetadataIntPtr; ptr->TSize = rows[table]]. *)
Definition set (p : t) (k : table_kind) (addr n : Z) : t :=
  match p with
  | mk a0 n0 a1 n1 a2 n2 a3 n3 a4 n4 a5 n5 a6 n6 =>
      match k with
      | tModule        => mk addr n a1 n1 a2 n2 a3 n3 a4 n4 a5 n5 a6 n6
      | tTypeRef       => mk a0 n0 addr n a2 n2 a3 n3 a4 n4 a5 n5 a6 n6
      | tTypeDef       => mk a0 n0 a1 n1 addr n a3 n3 a4 n4 a5 n5 a6 n6
      | tMethodDef     => mk a0 n0 a1 n1 a2 n2 addr n a4 n4 a5 n5 a6 n6
      | tMemberRef     => mk a0 n0 a1 n1 a2 n2 a3 n3 addr n a5 n5 a6 n6
      | tStandAloneSig => mk a0 n0 a1 n1 a2 n2 a3 n3 a4 n4 addr n a6 n6
      | tAssemblyRef   => mk a0 n0 a1 n1 a2 n2 a3 n3 a4 n4 a5 n5 addr n
      end
  end.

(** The recorded row count of a table. *)
Definition size_of (p : t) (k : table_kind) : Z :=
  match k with
  | tModule => ModuleSize p
  | tTypeRef => TypeRefSize p
  | tTypeDef => TypeDefSize p
  | tMethodDef => MethodDefSize p
  | tMemberRef => MemberRefSize p
  | tStandAloneSig => StandAloneSigSize p
  | tAssemblyRef => AssemblyRefSize p
  end.
End clrTablePtr.

Module clrstream_header.
Record t : Type := mk {
  offset : Z;
  size : Z;
  name : Z            (* char * into the image *)
}.
End clrstream_header.

Module clrmeta_tables_head.
Record t : Type := mk {
  Reserved : Z;
  MajorVersion : Z;
  MinorVersion : Z;
  heapsizes : Z;
  Reservedbyte : Z;
  Valid : Z;
  Sorted : Z;
  rowsize : Z;
  Rows : list Z;      (* the malloc'ed array; the null pointer is [] *)
  tablePtr : clrTablePtr.t
}.

(** The block returned by [calloc]. *)
Definition zero : t := mk 0 0 0 0 0 0 0 0 [] clrTablePtr.zero.
End clrmeta_tables_head.

Module clrmeta_header.
Record t : Type := mk {
  MetadataInitPtr : Z;
  Signature : Z;
  MajorRuntimeVersion : Z;
  MinorRuntimeVersion : Z;
  Reserved : Z;
  Length : Z;
  Version : Z;        (* char * into the image *)
  Flags : Z;
  Streams : Z;
  StreamHeaders : list clrstream_header.t;
  MetaTables : option clrmeta_tables_head.t
}.

Definition with_MetaTables (h : t) (tabs : clrmeta_tables_head.t) : t :=
  mk (MetadataInitPtr h) (Signature h) (MajorRuntimeVersion h)
     (MinorRuntimeVersion h) (Reserved h) (Length h) (Version h)
     (Flags h) (Streams h) (StreamHeaders h) (Some tabs).
End clrmeta_header.

(* ================================================================= *)
(** ** CLI metadata: helpers *)

(** [fixsize]: the [for(;;)] loop leaves after at most three
    increments of its [unsigned int]. *)
Fixpoint fixsize_loop (fuel : nat) (versionsize : Z) : Z :=
  if versionsize mod 4 =? 0 then versionsize
  else match fuel with
       | O => versionsize
       | S fuel' => fixsize_loop fuel' (wrap32 (versionsize + 1))
       end.

Definition fixsize (versionsize : Z) : Z := fixsize_loop 3 versionsize.

(** [countbits]: [n] iterations remain, [i] is the loop counter. *)
Fixpoint countbits_loop (n : nat) (i : Z) (bitvector : Z) (count : Z) : Z :=
  match n with
  | O => count
  | S n' =>
      let tracker := 1 in
      countbits_loop n' (i + 1) bitvector
        (if negb (Z.land bitvector (wrap64 (Z.shiftl tracker i)) =? 0)
         then wrap32 (count + 1) else count)
  end.

Definition countbits (bitvector : Z) : Z := countbits_loop 64 0 bitvector 0.

(** [strcmp(p, lit) == 0] for a literal without NUL. *)
Fixpoint strcmp_eq (M : MemoryBuffer) (p : Z) (lit : list byte) : outcome bool :=
  match lit with
  | [] => c <- load8 M p ;; Ok (c =? 0)
  | l :: rest =>
      c <- load8 M p ;;
      if c =? byte_val l then strcmp_eq M (wrap_ptr (p + 1)) rest
      else Ok false
  end.

(** The literal ["#~"]. *)
Definition tilde_stream : list byte := [x23; x7e].

(* ================================================================= *)
(** ** CLI metadata: per-table layout *)

(** What the body of one [if(Valid&(mark<<bit))] of
    [setupTablePointers] does. *)
Inductive table_action : Type :=
| Supported (k : table_kind)
| Unsupported (msg : string).   (* assert(1==0 && msg) *)

(** The [if] statements of [setupTablePointers], in source order. *)
Definition table_layout : list (Z * table_action) :=
  [ (0x00, Supported tModule);
    (0x01, Supported tTypeRef);
    (0x02, Supported tTypeDef);
    (0x04, Unsupported "Field -- 0x04");
    (0x06, Supported tMethodDef);
    (0x08, Unsupported "Param -- 0x08");
    (0x09, Unsupported "InterfaceImpl -- 0x09");
    (0x0a, Supported tMemberRef);
    (0x0b, Unsupported "Constant -- 0x0b");
    (0x0c, Unsupported "CustomAttribute -- 0x0c");
    (0x0d, Unsupported "FieldMarshal -- 0x0d");
    (0x0e, Unsupported "DeclSecurity -- 0x0e");
    (0x0f, Unsupported " ClassLayout -- 0x0f");
    (0x10, Unsupported "FieldLayout -- 0x10");
    (0x11, Supported tStandAloneSig);
    (0x12, Unsupported "EventMap -- 0x12");
    (0x14, Unsupported "Event -- 0x14");
    (0x15, Unsupported "PropertyMap -- 0x15");
    (0x17, Unsupported "Property -- 0x17");
    (0x18, Unsupported "MethodSemantics -- 0x18");
    (0x19, Unsupported " MethodImpl -- 0x19");
    (0x1a, Unsupported "ModuleRef -- 0x1a");
    (0x1b, Unsupported "TypeSpec -- 0x1b");
    (0x1c, Unsupported "ImplMap -- 0x1c");
    (0x1d, Unsupported " FieldRVA -- 0x1d");
    (0x20, Unsupported "Assembly -- 0x20");
    (0x21, Unsupported "AssemblyProcessor -- 0x21");
    (0x22, Unsupported "AssemblyOS -- 0x22");
    (0x23, Supported tAssemblyRef);
    (0x24, Unsupported "AssemblyRefProcessor -- 0x24");
    (0x25, Unsupported "AssemblyRefOS -- 0x25");
    (0x26, Unsupported "File -- 0x26");
    (0x27, Unsupported "ExportedType -- 0x27");
    (0x28, Unsupported "ManifestResource -- 0x28");
    (0x29, Unsupported "NestedClass -- 0x29");
    (0x2a, Unsupported "GenericParam -- 0x2a");
    (0x2b, Unsupported "MethodSpec -- 0x2b");
    (0x2c, Unsupported " GenericParamConstraint -- 0x2c") ].

(** [Valid&(mark<<bit)] with [uint64_t mark = 1]. *)
Definition valid_bit (Valid : Z) (bit : Z) : bool :=
  let mark := 1 in
  negb (Z.land Valid (wrap64 (Z.shiftl mark bit)) =? 0).

(** [rows[table]]; the array holds as many entries as were allocated. *)
Definition rows_at (rows : list Z) (table : nat) : outcome Z :=
  match nth_error rows table with
  | Some r => Ok r
  | None => Fault
  end.

(** The locals of [setupTablePointers] that change: the table pointers,
    the cursor [MetadataIntPtr] and the index [table] into [rows]. *)
Definition setup_state : Type := (clrTablePtr.t * Z * nat)%type.

Definition setup_entry (ndebug : bool) (Valid : Z) (rows : list Z)
    (st : setup_state) (e : Z * table_action) : outcome setup_state :=
  let '(ptr, MetadataIntPtr, table) := st in
  let '(bit, act) := e in
  if valid_bit Valid bit then
    match act with
    | Supported k =>
        r <- rows_at rows table ;;
        Ok (clrTablePtr.set ptr k MetadataIntPtr r,
            wrap_ptr (MetadataIntPtr + wrap64 (sizeof_table k * r)),
            S table)
    | Unsupported msg =>
        _ <- assert_ ndebug false msg ;;
        Ok st
    end
  else Ok st.

Fixpoint setup_entries (ndebug : bool) (Valid : Z) (rows : list Z)
    (es : list (Z * table_action)) (st : setup_state) : outcome setup_state :=
  match es with
  | [] => Ok st
  | e :: rest =>
      st' <- setup_entry ndebug Valid rows st e ;;
      setup_entries ndebug Valid rows rest st'
  end.

(** [setupTablePointers(MetadataIntPtr, MHeader)], on the tables head
    [MHeader->MetaTables].  Beside the updated head the embedding
    returns the final value of the by-value cursor [MetadataIntPtr],
    which the source drops on return. *)
Definition setupTablePointers (ndebug : bool) (MetadataIntPtr : Z)
    (tabs : clrmeta_tables_head.t) : outcome (clrmeta_tables_head.t * Z) :=
  let Valid := clrmeta_tables_head.Valid tabs in
  let rows := clrmeta_tables_head.Rows tabs in
  ' (ptr, cursor, _) <-
     setup_entries ndebug Valid rows table_layout
       (clrmeta_tables_head.tablePtr tabs, MetadataIntPtr, O) ;;
  Ok (clrmeta_tables_head.mk
        (clrmeta_tables_head.Reserved tabs)
        (clrmeta_tables_head.MajorVersion tabs)
        (clrmeta_tables_head.MinorVersion tabs)
        (clrmeta_tables_head.heapsizes tabs)
        (clrmeta_tables_head.Reservedbyte tabs)
        Valid
        (clrmeta_tables_head.Sorted tabs)
        (clrmeta_tables_head.rowsize tabs)
        rows ptr,
      cursor).

(* ================================================================= *)
(** ** CLI metadata: the [#~] stream and the metadata root *)

(** The first loop of [initMetadataTablesSetup]: [n] iterations remain,
    [i] indexes [StreamHeaders]. *)
Fixpoint find_tables_stream (M : MemoryBuffer)
    (hs : list clrstream_header.t) (n : nat) (i : nat) (MetadataIntPtr : Z)
  : outcome Z :=
  match n with
  | O => Ok MetadataIntPtr
  | S n' =>
      match nth_error hs i with
      | None => Fault
      | Some h =>
          same <- strcmp_eq M (clrstream_header.name h) tilde_stream ;;
          if same then Ok (wrap_ptr (MetadataIntPtr + clrstream_header.offset h))
          else find_tables_stream M hs n' (S i) MetadataIntPtr
      end
  end.

(** The loop that fills [tabs->Rows]: the rows read and the cursor. *)
Fixpoint read_rows (M : MemoryBuffer) (n : nat) (MetadataIntPtr : Z)
  : outcome (list Z * Z) :=
  match n with
  | O => Ok ([], MetadataIntPtr)
  | S n' =>
      r <- load32 M MetadataIntPtr ;;
      ' (rest, p) <- read_rows M n' (wrap_ptr (MetadataIntPtr + 4)) ;;
      Ok (r :: rest, p)
  end.

(** [initMetadataTablesSetup(MHeader)], instrumented: beside the header
    it returns the cursor at the start of the packed records and the
    cursor after them (both are locals of the source); they are [None]
    when there is no [#~] stream. *)
Definition initMetadataTablesSetup_cursors (ndebug : bool) (M : MemoryBuffer)
    (MHeader : clrmeta_header.t)
  : outcome (clrmeta_header.t * option (Z * Z)) :=
  let tabs := clrmeta_tables_head.zero in
  p <- find_tables_stream M (clrmeta_header.StreamHeaders MHeader)
         (Z.to_nat (clrmeta_header.Streams MHeader)) O
         (clrmeta_header.MetadataInitPtr MHeader) ;;
  if p =? clrmeta_header.MetadataInitPtr MHeader then
    Ok (clrmeta_header.with_MetaTables MHeader tabs, None)
  else
    let p := wrap_ptr (p + 4) in
    MajorVersion <- load8 M p ;;
    let p := wrap_ptr (p + 1) in
    MinorVersion <- load8 M p ;;
    let p := wrap_ptr (p + 1) in
    heapsizes <- load8 M p ;;
    let p := wrap_ptr (p + 1) in
    let p := wrap_ptr (p + 1) in
    Valid <- load64 M p ;;
    let p := wrap_ptr (p + 8) in
    Sorted <- load64 M p ;;
    let p := wrap_ptr (p + 8) in
    let tables := countbits Valid in
    ' (rows, p) <- read_rows M (Z.to_nat tables) p ;;
    let tabs :=
      clrmeta_tables_head.mk 0 MajorVersion MinorVersion heapsizes 0
        Valid Sorted 0 rows clrTablePtr.zero in
    ' (tabs, q) <- setupTablePointers ndebug p tabs ;;
    Ok (clrmeta_header.with_MetaTables MHeader tabs, Some (p, q)).

(** [initMetadataTablesSetup(MHeader)]. *)
Definition initMetadataTablesSetup (ndebug : bool) (M : MemoryBuffer)
    (MHeader : clrmeta_header.t) : outcome clrmeta_header.t :=
  ' (h, _) <- initMetadataTablesSetup_cursors ndebug M MHeader ;;
  Ok h.

(** The loop of [initMetadataPtr] over the stream headers. *)
Fixpoint read_stream_headers (M : MemoryBuffer) (n : nat) (MetadataIntPtr : Z)
  : outcome (list clrstream_header.t * Z) :=
  match n with
  | O => Ok ([], MetadataIntPtr)
  | S n' =>
      offset <- load32 M MetadataIntPtr ;;
      let p := wrap_ptr (MetadataIntPtr + 4) in
      size <- load32 M p ;;
      let p := wrap_ptr (p + 4) in
      let name := p in
      len <- strlen M name ;;
      let p := wrap_ptr (p + fixsize (wrap32 (len + 1))) in
      ' (rest, q) <- read_stream_headers M n' p ;;
      Ok (clrstream_header.mk offset size name :: rest, q)
  end.

(** [initMetadataPtr(MetadataIntPtr, MH)]: the header stored in [*MH].
    The code returned by [initMetadataTablesSetup] is discarded. *)
Definition initMetadataPtr (ndebug : bool) (M : MemoryBuffer)
    (MetadataIntPtr : Z) : outcome clrmeta_header.t :=
  let MetadataInitPtr := MetadataIntPtr in
  Signature <- load32 M MetadataIntPtr ;;
  let p := wrap_ptr (MetadataIntPtr + 4) in
  let p := wrap_ptr (p + 2) in
  let p := wrap_ptr (p + 2) in
  let p := wrap_ptr (p + 4) in
  Length <- load16 M p ;;
  let p := wrap_ptr (p + 4) in
  let strsize := fixsize Length in
  let Version := p in
  let p := wrap_ptr (p + strsize) in
  Flags <- load16 M p ;;
  let p := wrap_ptr (p + 2) in
  Streams <- load16 M p ;;
  let p := wrap_ptr (p + 2) in
  ' (StreamHeaders, _) <- read_stream_headers M (Z.to_nat Streams) p ;;
  let MHeader :=
    clrmeta_header.mk MetadataInitPtr Signature 1 1 0 Length Version
      Flags Streams StreamHeaders None in
  match initMetadataTablesSetup ndebug M MHeader with
  | Ok h => Ok h
  | Err _ => Ok MHeader
  | Fault => Fault
  | Abort msg => Abort msg
  end.

(* ================================================================= *)
(** ** Constants of other headers *)

(** Modelled from the spec: the section-number sentinels of
    llvm/Support/COFF.h, [UNDEFINED = 0], [ABSOLUTE = -1] and
    [DEBUG = -2]. *)
Definition IMAGE_SYM_UNDEFINED : Z := 0.
Definition IMAGE_SYM_ABSOLUTE : Z := -1.
Definition IMAGE_SYM_DEBUG : Z := -2.

(** Modelled from the spec: the data-directory indices of
    llvm/Support/COFF.h, export = 0, import = 1 and CLR runtime
    header = 14. *)
Definition EXPORT_TABLE : Z := 0.
Definition IMPORT_TABLE : Z := 1.
Definition CLR_RUNTIME_HEADER : Z := 14.

Definition sizeof_pe32_header : Z := 96.
Definition sizeof_pe32plus_header : Z := 112.
Definition sizeof_import_directory_table_entry : Z := 20.

(* ================================================================= *)
(** ** Reading records of the image *)

(** [n] bytes from [p] on. *)
Fixpoint read_bytes (M : MemoryBuffer) (p : Z) (n : nat) : outcome (list Z) :=
  match n with
  | O => Ok []
  | S n' =>
      b <- load8 M p ;;
      rest <- read_bytes M (wrap_ptr (p + 1)) n' ;;
      Ok (b :: rest)
  end.

(** A [little16_t] field. *)
Definition sext16 (z : Z) : Z := if z <? 32768 then z else z - 65536.

(** The fields of the [coff_file_header] at [p]. *)
Definition read_coff_file_header (M : MemoryBuffer) (p : Z)
  : outcome coff_file_header.t :=
  Machine <- load16 M p ;;
  NumberOfSections <- load16 M (wrap_ptr (p + 2)) ;;
  TimeDateStamp <- load32 M (wrap_ptr (p + 4)) ;;
  PointerToSymbolTable <- load32 M (wrap_ptr (p + 8)) ;;
  NumberOfSymbols <- load32 M (wrap_ptr (p + 12)) ;;
  SizeOfOptionalHeader <- load16 M (wrap_ptr (p + 16)) ;;
  Characteristics <- load16 M (wrap_ptr (p + 18)) ;;
  Ok (coff_file_header.mk Machine NumberOfSections TimeDateStamp
        PointerToSymbolTable NumberOfSymbols SizeOfOptionalHeader
        Characteristics).

(** The bytes of [char Name[8]] at [p]. *)
Fixpoint read_chars (M : MemoryBuffer) (p : Z) (n : nat)
  : outcome (list byte) :=
  match n with
  | O => Ok []
  | S n' =>
      if (BufferStart M <=? p) && (p <? getBufferEnd M)
      then match nth_error (BufferBytes M) (Z.to_nat (p - BufferStart M)) with
           | Some b =>
               rest <- read_chars M (wrap_ptr (p + 1)) n' ;;
               Ok (b :: rest)
           | None => Fault
           end
      else Fault
  end.

(** The fields of the [coff_section] at [p]. *)
Definition read_section (M : MemoryBuffer) (p : Z) : outcome coff_section.t :=
  Name <- read_chars M p 8 ;;
  VirtualSize <- load32 M (wrap_ptr (p + 8)) ;;
  VirtualAddress <- load32 M (wrap_ptr (p + 12)) ;;
  SizeOfRawData <- load32 M (wrap_ptr (p + 16)) ;;
  PointerToRawData <- load32 M (wrap_ptr (p + 20)) ;;
  PointerToRelocations <- load32 M (wrap_ptr (p + 24)) ;;
  PointerToLinenumbers <- load32 M (wrap_ptr (p + 28)) ;;
  NumberOfRelocations <- load16 M (wrap_ptr (p + 32)) ;;
  NumberOfLinenumbers <- load16 M (wrap_ptr (p + 34)) ;;
  Characteristics <- load32 M (wrap_ptr (p + 36)) ;;
  Ok (coff_section.mk Name VirtualSize VirtualAddress SizeOfRawData
        PointerToRawData PointerToRelocations PointerToLinenumbers
        NumberOfRelocations NumberOfLinenumbers Characteristics).

(** The [n] sections of the table at [p]. *)
Fixpoint read_sections (M : MemoryBuffer) (p : Z) (n : nat)
  : outcome (list coff_section.t) :=
  match n with
  | O => Ok []
  | S n' =>
      s <- read_section M p ;;
      rest <- read_sections M (wrap_ptr (p + sizeof_coff_section)) n' ;;
      Ok (s :: rest)
  end.

(** The [(RelativeVirtualAddress, Size)] pair of the [data_directory]
    at [p]. *)
Definition read_data_directory (M : MemoryBuffer) (p : Z) : outcome (Z * Z) :=
  rva <- load32 M p ;;
  size <- load32 M (wrap_ptr (p + 4)) ;;
  Ok (rva, size).

(* ================================================================= *)
(** ** Sections and symbols by index *)

(** [COFFObjectFile::getSection]: [None] is the null pointer stored
    for the three sentinels.  The section table holds the decoded
    records; an index inside [NumberOfSections] for which the table has
    no record is a pointer to unmapped memory. *)
Definition getSection (O : COFFObjectFile) (Index : Z)
  : outcome (option coff_section.t) :=
  if (Index =? IMAGE_SYM_UNDEFINED) || (Index =? IMAGE_SYM_ABSOLUTE)
     || (Index =? IMAGE_SYM_DEBUG)
  then Ok None
  else if (Index >? 0)
          && (Index <=? coff_file_header.NumberOfSections (COFFHeader O))
  then match nth_error (SectionTable O) (Z.to_nat (Index - 1)) with
       | Some s => Ok (Some s)
       | None => Fault
       end
  else Err parse_failed.

(** [COFFObjectFile::getSymbol]: the address of entry [Index]. *)
Definition getSymbol (O : COFFObjectFile) (Index : Z) : outcome Z :=
  if Index <? coff_file_header.NumberOfSymbols (COFFHeader O)
  then Ok (wrap_ptr (SymbolTable O + sizeof_coff_symbol * Index))
  else Err parse_failed.

(** [COFFObjectFile::toSymb]: the checks are compiled under
    [#ifndef NDEBUG]. *)
Definition toSymb (ndebug : bool) (O : COFFObjectFile) (Ref : Z) : outcome Z :=
  if ndebug then Ok Ref
  else
    let H := COFFHeader O in
    let Offset := wrap_ptr (Ref - base O) in
    if (Offset <? coff_file_header.PointerToSymbolTable H)
       || (Offset >=? wrap64 (coff_file_header.PointerToSymbolTable H
                             + wrap64 (coff_file_header.NumberOfSymbols H
                                       * sizeof_coff_symbol)))
    then Abort "Symbol was outside of symbol table."
    else
      _ <- assert_ ndebug
             (wrap64 (Offset - coff_file_header.PointerToSymbolTable H)
                mod sizeof_coff_symbol =? 0)
             "Symbol did not point to the beginning of a symbol" ;;
      Ok Ref.

(** [COFFObjectFile::moveSymbolNext]: the new value of [Ref.p]. *)
Definition moveSymbolNext (ndebug : bool) (O : COFFObjectFile) (Ref : Z)
  : outcome Z :=
  Symb <- toSymb ndebug O Ref ;;
  NumberOfAuxSymbols <- load8 (Data O) (wrap_ptr (Symb + 17)) ;;
  Ok (wrap_ptr (Symb + sizeof_coff_symbol * (1 + NumberOfAuxSymbols))).

(** [COFFObjectFile::getSymbolName(const coff_symbol *, StringRef &)]. *)
Definition getSymbolName (O : COFFObjectFile) (Symbol : Z)
  : outcome (list byte) :=
  Zeroes <- load32 (Data O) Symbol ;;
  if Zeroes =? 0 then
    Offset <- load32 (Data O) (wrap_ptr (Symbol + 4)) ;;
    getString O Offset
  else
    last <- load8 (Data O) (wrap_ptr (Symbol + 7)) ;;
    if last =? 0 then cstring (Data O) Symbol
    else read_chars (Data O) Symbol 8.

(** [COFFObjectFile::getSymbolAuxData]: the start and the length of
    the array. *)
Definition getSymbolAuxData (ndebug : bool) (O : COFFObjectFile) (Symbol : Z)
  : outcome (Z * Z) :=
  NumberOfAuxSymbols <- load8 (Data O) (wrap_ptr (Symbol + 17)) ;;
  Aux <-
    (if NumberOfAuxSymbols >? 0 then
       let Aux := wrap_ptr (Symbol + sizeof_coff_symbol) in
       if ndebug then Ok Aux
       else
         let H := COFFHeader O in
         let Offset := wrap_ptr (Aux - base O) in
         if (Offset <? coff_file_header.PointerToSymbolTable H)
            || (Offset >=? wrap64 (coff_file_header.PointerToSymbolTable H
                                  + wrap64 (coff_file_header.NumberOfSymbols H
                                            * sizeof_coff_symbol)))
         then Abort "Aux Symbol data was outside of symbol table."
         else
           _ <- assert_ ndebug
                  (wrap64 (Offset - coff_file_header.PointerToSymbolTable H)
                     mod sizeof_coff_symbol =? 0)
                  "Aux Symbol data did not point to the beginning of a symbol" ;;
           Ok Aux
     else Ok 0) ;;
  Ok (Aux, wrap64 (NumberOfAuxSymbols * sizeof_coff_symbol)).

Section SymbolQueries.

(** [UnknownAddressOrSize] of llvm/Object/ObjectFile.h, not part of
    these files. *)
Variable UnknownAddressOrSize : Z.

(** [COFFObjectFile::getSymbolFileOffset]. *)
Definition getSymbolFileOffset (ndebug : bool) (O : COFFObjectFile) (Ref : Z)
  : outcome Z :=
  Symb <- toSymb ndebug O Ref ;;
  SectionNumber <- load16 (Data O) (wrap_ptr (Symb + 12)) ;;
  let SectionNumber := sext16 SectionNumber in
  Section <- getSection O SectionNumber ;;
  if SectionNumber =? IMAGE_SYM_UNDEFINED then Ok UnknownAddressOrSize
  else
    match Section with
    | Some s =>
        Value <- load32 (Data O) (wrap_ptr (Symb + 8)) ;;
        Ok (wrap32 (coff_section.PointerToRawData s + Value))
    | None => load32 (Data O) (wrap_ptr (Symb + 8))
    end.

(** [COFFObjectFile::getSymbolAddress]. *)
Definition getSymbolAddress (ndebug : bool) (O : COFFObjectFile) (Ref : Z)
  : outcome Z :=
  Symb <- toSymb ndebug O Ref ;;
  SectionNumber <- load16 (Data O) (wrap_ptr (Symb + 12)) ;;
  let SectionNumber := sext16 SectionNumber in
  Section <- getSection O SectionNumber ;;
  if SectionNumber =? IMAGE_SYM_UNDEFINED then Ok UnknownAddressOrSize
  else
    match Section with
    | Some s =>
        Value <- load32 (Data O) (wrap_ptr (Symb + 8)) ;;
        Ok (wrap32 (coff_section.VirtualAddress s + Value))
    | None => load32 (Data O) (wrap_ptr (Symb + 8))
    end.

(** [COFFObjectFile::getSymbolSize]. *)
Definition getSymbolSize (ndebug : bool) (O : COFFObjectFile) (Ref : Z)
  : outcome Z :=
  Symb <- toSymb ndebug O Ref ;;
  SectionNumber <- load16 (Data O) (wrap_ptr (Symb + 12)) ;;
  let SectionNumber := sext16 SectionNumber in
  Section <- getSection O SectionNumber ;;
  if SectionNumber =? IMAGE_SYM_UNDEFINED then Ok UnknownAddressOrSize
  else
    match Section with
    | Some s =>
        Value <- load32 (Data O) (wrap_ptr (Symb + 8)) ;;
        Ok (wrap32 (coff_section.SizeOfRawData s - Value))
    | None => Ok 0
    end.

End SymbolQueries.

(* ================================================================= *)
(** ** Section contents and virtual addresses *)

(** [COFFObjectFile::getSectionContents(const coff_section *,
    ArrayRef<uint8_t> &)]: the start and the length of the array. *)
Definition getSectionContents (O : COFFObjectFile) (Sec : coff_section.t)
  : outcome (Z * Z) :=
  let ConStart := wrap_ptr (base O + coff_section.PointerToRawData Sec) in
  let ConEnd := wrap_ptr (ConStart + coff_section.SizeOfRawData Sec) in
  if ConEnd >? getBufferEnd (Data O) then Err parse_failed
  else Ok (ConStart, coff_section.SizeOfRawData Sec).

(** [COFFObjectFile::getVaPtr]. *)
Definition getVaPtr (ndebug : bool) (O : COFFObjectFile) (Addr : Z)
  : outcome Z :=
  ImageBase <-
    match PE32Header O with
    | Some h => Ok (pe32_header.ImageBase h)
    | None =>
        match PE32PlusHeader O with
        | Some h => Ok (pe32plus_header.ImageBase h)
        | None => Fault
        end
    end ;;
  let Rva := wrap64 (Addr - ImageBase) in
  _ <- assert_ ndebug (Rva <=? UINT32_MAX) "Rva <= UINT32_MAX" ;;
  getRvaPtr O (wrap32 Rva).

(** [COFFObjectFile::getHintName]: the hint and the name. *)
Definition getHintName (O : COFFObjectFile) (Rva : Z)
  : outcome (Z * list byte) :=
  IntPtr <- getRvaPtr O Rva ;;
  Hint <- load16 (Data O) IntPtr ;;
  Name <- cstring (Data O) (wrap_ptr (IntPtr + 2)) ;;
  Ok (Hint, Name).

(* ================================================================= *)
(** ** Export directory entries: the other accessors *)

(** [ExportDirectoryEntryRef::getOrdinal]. *)
Definition getOrdinal (R : ExportDirectoryEntryRef.t) : outcome Z :=
  Ok (wrap32 (export_directory_table_entry.OrdinalBase
                (ExportDirectoryEntryRef.ExportTable R)
              + ExportDirectoryEntryRef.Index R)).

(** [ExportDirectoryEntryRef::getExportRVA]. *)
Definition getExportRVA (R : ExportDirectoryEntryRef.t) : outcome Z :=
  let Obj := ExportDirectoryEntryRef.OwningObject R in
  IntPtr <- getRvaPtr Obj
              (export_directory_table_entry.ExportAddressTableRVA
                 (ExportDirectoryEntryRef.ExportTable R)) ;;
  load32 (Data Obj) (wrap_ptr (IntPtr + 4 * ExportDirectoryEntryRef.Index R)).

(** [ExportDirectoryEntryRef::getDllName]. *)
Definition getDllName (R : ExportDirectoryEntryRef.t) : outcome (list byte) :=
  let Obj := ExportDirectoryEntryRef.OwningObject R in
  IntPtr <- getRvaPtr Obj
              (export_directory_table_entry.NameRVA
                 (ExportDirectoryEntryRef.ExportTable R)) ;;
  cstring (Data Obj) IntPtr.

(* ================================================================= *)
(** ** Construction of the object *)

(** The members of [COFFObjectFile] that the import, export and CLI
    initialisers set, beside those of [COFFObjectFile] above. *)
Record COFFImage : Type := mkImage {
  Obj : COFFObjectFile;
  ImportDirectory : Z;
  NumberOfImportDirectory : Z;
  ExportDirectory : Z;
  CLRHeader : Z;
  MetadataHeader : option clrmeta_header.t
}.

(** [checkSize]. *)
Definition checkSize (M : MemoryBuffer) (Size : Z) : outcome unit :=
  if getBufferSize M <? Size then Err unexpected_eof else Ok tt.

(** The bytes of ["PE\0\0"]. *)
Definition PE_magic : list Z := [0x50; 0x45; 0; 0].

Definition bytes_eqb (a b : list Z) : bool :=
  (Nat.eqb (List.length a) (List.length b))
  && forallb (fun p => fst p =? snd p) (combine a b).

(** The lookup of a data directory that opens the three initialisers:
    [None] is their early [return object_error::success], taken when
    [getDataDirectory] reports an error or the entry's RVA is 0;
    otherwise the address of the entry and its RVA. *)
Definition directory_entry (ndebug : bool) (O : COFFObjectFile) (Index : Z)
  : outcome (option (Z * Z)) :=
  match getDataDirectory ndebug O Index with
  | Err _ => Ok None
  | Fault => Fault
  | Abort msg => Abort msg
  | Ok DataEntry =>
      RelativeVirtualAddress <- load32 (Data O) DataEntry ;;
      if RelativeVirtualAddress =? 0 then Ok None
      else Ok (Some (DataEntry, RelativeVirtualAddress))
  end.

(** [COFFObjectFile::initImportTablePtr]. *)
Definition initImportTablePtr (ndebug : bool) (I : COFFImage)
  : outcome COFFImage :=
  e <- directory_entry ndebug (Obj I) IMPORT_TABLE ;;
  match e with
  | None => Ok I
  | Some (DataEntry, ImportTableRva) =>
      Size <- load32 (Data (Obj I)) (wrap_ptr (DataEntry + 4)) ;;
      let NumberOfImportDirectory' :=
        Size / sizeof_import_directory_table_entry in
      IntPtr <- getRvaPtr (Obj I) ImportTableRva ;;
      Ok (mkImage (Obj I) IntPtr NumberOfImportDirectory'
                  (ExportDirectory I) (CLRHeader I) (MetadataHeader I))
  end.

(** [COFFObjectFile::initExportTablePtr]. *)
Definition initExportTablePtr (ndebug : bool) (I : COFFImage)
  : outcome COFFImage :=
  e <- directory_entry ndebug (Obj I) EXPORT_TABLE ;;
  match e with
  | None => Ok I
  | Some (_, ExportTableRva) =>
      IntPtr <- getRvaPtr (Obj I) ExportTableRva ;;
      Ok (mkImage (Obj I) (ImportDirectory I) (NumberOfImportDirectory I)
                  IntPtr (CLRHeader I) (MetadataHeader I))
  end.

(** [COFFObjectFile::initCLRHeaderPtr].  The code returned by
    [initMetadataPtr] is discarded. *)
Definition initCLRHeaderPtr (ndebug : bool) (I : COFFImage)
  : outcome COFFImage :=
  e <- directory_entry ndebug (Obj I) CLR_RUNTIME_HEADER ;;
  match e with
  | None => Ok I
  | Some (_, CLRHeaderRva) =>
      IntPtr <- getRvaPtr (Obj I) CLRHeaderRva ;;
      let I' := mkImage (Obj I) (ImportDirectory I)
                  (NumberOfImportDirectory I) (ExportDirectory I)
                  IntPtr (MetadataHeader I) in
      MetadataRva <- load32 (Data (Obj I)) (wrap_ptr (IntPtr + 8)) ;;
      if MetadataRva =? 0 then Ok I'
      else
        MetadataIntPtr <- getRvaPtr (Obj I) MetadataRva ;;
        match initMetadataPtr ndebug (Data (Obj I)) MetadataIntPtr with
        | Ok h =>
            Ok (mkImage (Obj I) (ImportDirectory I)
                  (NumberOfImportDirectory I) (ExportDirectory I)
                  IntPtr (Some h))
        | Err _ => Ok I'
        | Fault => Fault
        | Abort msg => Abort msg
        end
  end.

(** [COFFObjectFile::isPureCil]. *)
Definition isPureCil (I : COFFImage) : bool := negb (CLRHeader I =? 0).

(** The part of the constructor that finds the COFF header: the
    cursor [CurPtr] and [HasPEHeader]. *)
Definition locate_coff_header (M : MemoryBuffer) : outcome (Z * bool) :=
  let base_addr := BufferStart M in
  b0 <- load8 M base_addr ;;
  b1 <- (if b0 =? 0x4d then load8 M (wrap_ptr (base_addr + 1)) else Ok 0) ;;
  if (b0 =? 0x4d) && (b1 =? 0x5a) then
    _ <- checkSize M (0x3c + 8) ;;
    CurPtr <- load16 M (wrap_ptr (base_addr + 0x3c)) ;;
    magic <- read_bytes M (wrap_ptr (base_addr + CurPtr)) 4 ;;
    if negb (bytes_eqb magic PE_magic) then Err parse_failed
    else Ok (wrap64 (CurPtr + 4), true)
  else Ok (0, false).

(** The part of the constructor that reads the optional header and
    the data directories: [PE32Header], [PE32PlusHeader] and
    [DataDirectory].  [Header] is the validated address of the
    optional header. *)
Definition read_optional_header (M : MemoryBuffer) (CurPtr : Z)
  : outcome (option pe32_header.t * option pe32plus_header.t * Z) :=
  let base_addr := BufferStart M in
  Header <- getObject M (wrap_ptr (base_addr + CurPtr)) sizeof_pe32_header ;;
  Magic <- load16 M Header ;;
  if Magic =? 0x10b then
    ImageBase <- load32 M (wrap_ptr (Header + 28)) ;;
    NumberOfRvaAndSize <- load32 M (wrap_ptr (Header + 92)) ;;
    let DataDirAddr :=
      wrap_ptr (wrap_ptr (base_addr + CurPtr) + sizeof_pe32_header) in
    let DataDirSize := wrap64 (sizeof_data_directory * NumberOfRvaAndSize) in
    DataDirectory' <- getObject M DataDirAddr DataDirSize ;;
    Ok (Some (pe32_header.mk Magic ImageBase NumberOfRvaAndSize), None,
        DataDirectory')
  else if Magic =? 0x20b then
    ImageBase <- load64 M (wrap_ptr (Header + 24)) ;;
    NumberOfRvaAndSize <- load32 M (wrap_ptr (Header + 108)) ;;
    let DataDirAddr :=
      wrap_ptr (wrap_ptr (base_addr + CurPtr) + sizeof_pe32plus_header) in
    let DataDirSize := wrap64 (sizeof_data_directory * NumberOfRvaAndSize) in
    DataDirectory' <- getObject M DataDirAddr DataDirSize ;;
    Ok (None, Some (pe32plus_header.mk Magic ImageBase NumberOfRvaAndSize),
        DataDirectory')
  else Err parse_failed.

(** [COFFObjectFile::COFFObjectFile], as [ObjectFile::createCOFFObjectFile]
    runs it: the object, or the error left in [EC].  The validated
    header and section records are decoded when they are located. *)
Definition createCOFFObjectFile (ndebug : bool) (M : MemoryBuffer)
  : outcome COFFImage :=
  let base_addr := BufferStart M in
  _ <- checkSize M sizeof_coff_file_header ;;
  ' (CurPtr, HasPEHeader) <- locate_coff_header M ;;
  COFFHeaderPtr <- getObject M (wrap_ptr (base_addr + CurPtr))
                     sizeof_coff_file_header ;;
  COFFHeader' <- read_coff_file_header M COFFHeaderPtr ;;
  let CurPtr := wrap64 (CurPtr + sizeof_coff_file_header) in
  ' (PE32Header', PE32PlusHeader', DataDirectory', CurPtr) <-
     (if HasPEHeader then
        ' (h32, h64, dd) <- read_optional_header M CurPtr ;;
        Ok (h32, h64, dd,
            wrap64 (CurPtr + coff_file_header.SizeOfOptionalHeader COFFHeader'))
      else Ok (None, None, 0, CurPtr)) ;;
  let O0 := mkCOFF M COFFHeader' PE32Header' PE32PlusHeader' DataDirectory'
              [] 0 0 0 in
  if coff_file_header.isImportLibrary COFFHeader' then
    Ok (mkImage O0 0 0 0 0 None)
  else
    SectionTablePtr <-
      getObject M (wrap_ptr (base_addr + CurPtr))
        (wrap64 (coff_file_header.NumberOfSections COFFHeader'
                 * sizeof_coff_section)) ;;
    SectionTable' <-
      read_sections M SectionTablePtr
        (Z.to_nat (coff_file_header.NumberOfSections COFFHeader')) ;;
    let O1 := mkCOFF M COFFHeader' PE32Header' PE32PlusHeader' DataDirectory'
                SectionTable' 0 0 0 in
    O2 <- (if negb (coff_file_header.PointerToSymbolTable COFFHeader' =? 0)
           then initSymbolTablePtr O1 else Ok O1) ;;
    I <- initImportTablePtr ndebug (mkImage O2 0 0 0 0 None) ;;
    I <- initExportTablePtr ndebug I ;;
    initCLRHeaderPtr ndebug I.

(* ================================================================= *)
(** ** Accessors of COFF.h *)

(** [coff_symbol::getBaseType] and [coff_symbol::getComplexType] of a
    symbol whose [Type] field holds [Type_]; both return [uint8_t]. *)
Definition getBaseType (Type_ : Z) : Z := wrap 8 (Z.land Type_ 0x0F).

Definition getComplexType (Type_ : Z) : Z :=
  wrap 8 (Z.shiftr (Z.land Type_ 0xF0) 4).

(** [import_lookup_table_entry32], by its one field [data]. *)
Module import_lookup_table_entry32.

Definition isOrdinal (data : Z) : bool :=
  negb (Z.land data 0x80000000 =? 0).

Definition getOrdinal (ndebug : bool) (data : Z) : outcome Z :=
  _ <- assert_ ndebug (isOrdinal data) "ILT entry is not an ordinal!" ;;
  Ok (wrap 16 (Z.land data 0xFFFF)).

Definition getHintNameRVA (ndebug : bool) (data : Z) : outcome Z :=
  _ <- assert_ ndebug (negb (isOrdinal data))
         "ILT entry is not a Hint/Name RVA!" ;;
  Ok data.

End import_lookup_table_entry32.

(* ================================================================= *)
(** ** Properties stated by the specification: definitions *)

(** An RVA is covered by a section when it lies in the half-open
    interval from [VirtualAddress] to [VirtualAddress + VirtualSize],
    the sum being the [uint32_t] that the reader computes. *)
Definition covers (s : coff_section.t) (Rva : Z) : Prop :=
  coff_section.VirtualAddress s <= Rva
  < wrap32 (coff_section.VirtualAddress s + coff_section.VirtualSize s).

Definition u32 (z : Z) : Prop := 0 <= z < 2 ^ 32.

(** The fields of a section that RVA resolution reads are 32-bit. *)
Definition section_wf (s : coff_section.t) : Prop :=
  u32 (coff_section.VirtualAddress s) /\
  u32 (coff_section.VirtualSize s) /\
  u32 (coff_section.PointerToRawData s).

(* ----------------------------------------------------------------- *)
(** *** Base-64 section names *)

(** The alphabet [A-Z a-z 0-9 + /] in digit order. *)
Definition base64_alphabet : list byte :=
  list_byte_of_string
    "ABCDEFGHIJKLMNOPQRSTUVWXYZabcdefghijklmnopqrstuvwxyz0123456789+/".

Fixpoint index_of (c : byte) (l : list byte) : option nat :=
  match l with
  | [] => None
  | x :: rest =>
      if Byte.eqb c x then Some O else option_map S (index_of c rest)
  end.

(** The digit a character stands for, when it is in the alphabet. *)
Definition base64_digit (c : byte) : option Z :=
  option_map Z.of_nat (index_of c base64_alphabet).

Definition in_alphabet (c : byte) : Prop := base64_digit c <> None.

(** The value of a string of base-64 digits, most significant digit
    first; [None] when a character is outside the alphabet. *)
Fixpoint base64_value (s : list byte) : option Z :=
  match s with
  | [] => Some 0
  | c :: rest =>
      match base64_digit c, base64_value rest with
      | Some d, Some v => Some (d * 64 ^ Z.of_nat (List.length rest) + v)
      | _, _ => None
      end
  end.

(** Modelled from the spec: the re-encoding of a value as [n] base-64
    digits, most significant digit first (the reader has no encoder). *)
Fixpoint encodeBase64 (n : nat) (v : Z) : list byte :=
  match n with
  | O => []
  | S n' =>
      nth (Z.to_nat (v / 64 ^ Z.of_nat n')) base64_alphabet x00
      :: encodeBase64 n' (v mod 64 ^ Z.of_nat n')
  end.

(** The view [Name] that [getSectionName] takes of [char Name[8]]. *)
Definition short_name (Sec : coff_section.t) : list byte :=
  if byte_val (nth 7 (coff_section.Name Sec) x00) =? 0
  then until_nul (coff_section.Name Sec)
  else firstn 8 (coff_section.Name Sec).

(* ----------------------------------------------------------------- *)
(** *** String table *)

(** The address just behind the symbol table, where the string table
    and its 4-byte size field start. *)
Definition string_table_addr (O : COFFObjectFile) : Z :=
  base O + coff_file_header.PointerToSymbolTable (COFFHeader O)
  + sizeof_coff_symbol * coff_file_header.NumberOfSymbols (COFFHeader O).

(* ----------------------------------------------------------------- *)
(** *** Export names *)

(** The entry at position [q] of the ordinal table at [Start] is
    readable and differs from the index of [R]. *)
Definition other_ordinal (R : ExportDirectoryEntryRef.t) (Start q : Z) : Prop :=
  exists v,
    load16 (Data (ExportDirectoryEntryRef.OwningObject R)) (Start + 2 * q)
    = Ok v /\
    v <> ExportDirectoryEntryRef.Index R.

(** The name recovered through position [p] of the name-pointer
    table. *)
Definition name_at (R : ExportDirectoryEntryRef.t) (p : Z)
  : outcome (list byte) :=
  let Obj := ExportDirectoryEntryRef.OwningObject R in
  IntPtr <- getRvaPtr Obj
              (export_directory_table_entry.NamePointerRVA
                 (ExportDirectoryEntryRef.ExportTable R)) ;;
  NameRva <- load32 (Data Obj) (wrap_ptr (IntPtr + 4 * p)) ;;
  IntPtr' <- getRvaPtr Obj NameRva ;;
  cstring (Data Obj) IntPtr'.

(* ----------------------------------------------------------------- *)
(** *** CLI metadata tables *)

(** The table ids [0 .. 63], one per bit of [Valid]. *)
Definition table_ids : list Z := map Z.of_nat (seq 0 64).

(** The number of bits set in a 64-bit bitmap. *)
Definition popcount (v : Z) : Z :=
  Z.of_nat (List.length (filter (Z.testbit v) table_ids)).

(** The rank of table [k] in [Valid]: the number of present tables
    with a smaller id, which is the position of its row count. *)
Definition rank (Valid : Z) (k : Z) : nat :=
  List.length (filter (Z.testbit Valid) (map Z.of_nat (seq 0 (Z.to_nat k)))).

(** The seven supported tables with their ids. *)
Definition supported_tables : list (Z * table_kind) :=
  [ (0x00, tModule); (0x01, tTypeRef); (0x02, tTypeDef); (0x06, tMethodDef);
    (0x0a, tMemberRef); (0x11, tStandAloneSig); (0x23, tAssemblyRef) ].

(** The tables for which [setupTablePointers] has an [assert]. *)
Definition asserted_tables : list Z :=
  [ 0x04; 0x08; 0x09; 0x0b; 0x0c; 0x0d; 0x0e; 0x0f; 0x10; 0x12; 0x14; 0x15;
    0x17; 0x18; 0x19; 0x1a; 0x1b; 0x1c; 0x1d; 0x20; 0x21; 0x22; 0x24; 0x25;
    0x26; 0x27; 0x28; 0x29; 0x2a; 0x2b; 0x2c ].

(** The ids that [setupTablePointers] does not test at all. *)
Definition untested_tables : list Z :=
  [ 0x03; 0x05; 0x07; 0x13; 0x16; 0x1e; 0x1f;
    0x2d; 0x2e; 0x2f; 0x30; 0x31; 0x32; 0x33; 0x34; 0x35; 0x36; 0x37; 0x38;
    0x39; 0x3a; 0x3b; 0x3c; 0x3d; 0x3e; 0x3f ].

Definition mask_of (ids : list Z) : Z :=
  fold_right (fun k m => Z.lor (2 ^ k) m) 0 ids.

Definition supported_mask : Z := mask_of (map fst supported_tables).
Definition asserted_mask : Z := mask_of asserted_tables.

(** No bit of [Valid] is set outside the supported tables. *)
Definition only_supported (Valid : Z) : Prop :=
  Z.land Valid supported_mask = Valid.

(** The sum of [rows[i] * size] over pairs [(i, size)]. *)
Definition weighted_sum (rows : list Z) (pairs : list (nat * Z)) : Z :=
  fold_right (fun '(i, sz) acc => nth i rows 0 * sz + acc) 0 pairs.

(** For each supported table present in [Valid], the position of its
    row count and its record size. *)
Definition present_supported (Valid : Z) : list (nat * Z) :=
  map (fun '(k, kind) => (rank Valid k, sizeof_table kind))
      (filter (fun '(k, _) => Z.testbit Valid k) supported_tables).

(** The bytes of the packed records: row count times record size,
    summed over the supported tables present in [Valid]. *)
Definition records_size (Valid : Z) (rows : list Z) : Z :=
  weighted_sum rows (present_supported Valid).

(** The kinds for which [setupTablePointers] enters a supported branch,
    in source order. *)
Definition taken_kinds (Valid : Z) (es : list (Z * table_action))
  : list table_kind :=
  flat_map (fun '(bit, act) =>
              match act with
              | Supported k => if valid_bit Valid bit then [k] else []
              | Unsupported _ => []
              end) es.

(** Some [assert] of the entries fires for [Valid]. *)
Definition some_asserted (Valid : Z) (es : list (Z * table_action)) : bool :=
  existsb (fun '(bit, act) =>
             match act with
             | Supported _ => false
             | Unsupported _ => valid_bit Valid bit
             end) es.

(** The state after the supported branches for [plan] ran in order. *)
Fixpoint run_plan (rows : list Z) (plan : list table_kind) (st : setup_state)
  : setup_state :=
  match plan with
  | [] => st
  | k :: rest =>
      let '(ptr, cur, table) := st in
      let r := nth table rows 0 in
      run_plan rows rest
        (clrTablePtr.set ptr k cur r,
         wrap_ptr (cur + wrap64 (sizeof_table k * r)),
         S table)
  end.

Definition cursor_of (st : setup_state) : Z := snd (fst st).

(** The positions and sizes the plan reads, from position [table]. *)
Fixpoint plan_pairs (table : nat) (plan : list table_kind) : list (nat * Z) :=
  match plan with
  | [] => []
  | k :: rest => (table, sizeof_table k) :: plan_pairs (S table) rest
  end.

(** The ids tested by the entries with an [assert], and those tested
    by the entries of supported tables. *)
Definition asserted_of (es : list (Z * table_action)) : list Z :=
  flat_map (fun '(bit, act) =>
              match act with
              | Supported _ => []
              | Unsupported _ => [bit]
              end) es.

Definition supported_of (es : list (Z * table_action)) : list Z :=
  flat_map (fun '(bit, act) =>
              match act with
              | Supported _ => [bit]
              | Unsupported _ => []
              end) es.

Definition pair_eqb (a b : nat * Z) : bool :=
  Nat.eqb (fst a) (fst b) && (snd a =? snd b).

Fixpoint pairs_eqb (l l' : list (nat * Z)) : bool :=
  match l, l' with
  | [], [] => true
  | a :: r, b :: r' => pair_eqb a b && pairs_eqb r r'
  | _, _ => false
  end.

(** For a bitmap of supported tables: no [assert] fires, the supported
    branches read the row counts at the ranks of their tables, and they
    are as many as the bits of the bitmap. *)
Definition layout_agrees (Valid : Z) : bool :=
  negb (some_asserted Valid table_layout)
  && pairs_eqb (plan_pairs 0 (taken_kinds Valid table_layout))
               (present_supported Valid)
  && (Z.of_nat (List.length (taken_kinds Valid table_layout))
      =? popcount Valid).

(** The [2^7] bitmaps with bits of supported tables only. *)
Definition supported_bitmaps : list Z :=
  fold_right (fun k acc => acc ++ map (Z.lor (2 ^ k)) acc) [0]
             (map fst supported_tables).

(** An outcome that is no error code: success, a fault of an unchecked
    read, or (in a build with assertions) an assertion failure. *)
Definition no_error_code {A : Type} (ndebug : bool) (o : outcome A) : Prop :=
  match o with
  | Ok _ => True
  | Fault => True
  | Abort _ => ndebug = false
  | Err _ => False
  end.

(* ----------------------------------------------------------------- *)
(** *** Further properties of the reader: definitions *)

(** The buffer is mapped at least 1 TiB below the top of the address
    space, so that a 32-bit file offset added to an address of the
    buffer does not wrap. *)
Definition low_mapped (M : MemoryBuffer) : Prop :=
  0 <= BufferStart M /\ getBufferEnd M + 2 ^ 40 <= 2 ^ 64.

(** The image base of whichever optional header is present. *)
Definition image_base (O : COFFObjectFile) : option Z :=
  match PE32Header O with
  | Some h => Some (pe32_header.ImageBase h)
  | None => option_map pe32plus_header.ImageBase (PE32PlusHeader O)
  end.

(** The number of data directories the optional header announces. *)
Definition number_of_directories (O : COFFObjectFile) : option Z :=
  match PE32Header O with
  | Some h => Some (pe32_header.NumberOfRvaAndSize h)
  | None => option_map pe32plus_header.NumberOfRvaAndSize (PE32PlusHeader O)
  end.

(** The address of entry [k] of the symbol table the file header
    announces. *)
Definition symbol_addr (O : COFFObjectFile) (k : Z) : Z :=
  base O + coff_file_header.PointerToSymbolTable (COFFHeader O)
  + sizeof_coff_symbol * k.

(** No section of the object covers [rva]. *)
Definition unmapped (O : COFFObjectFile) (rva : Z) : Prop :=
  forall s, In s (sections O) -> ~ covers s rva.

(** Data directory [Index] has the entry at [entry], whose RVA is the
    nonzero [rva]. *)
Definition directory_rva (ndebug : bool) (O : COFFObjectFile)
    (Index entry rva : Z) : Prop :=
  getDataDirectory ndebug O Index = Ok entry /\
  load32 (Data O) entry = Ok rva /\ rva <> 0.

(* ----------------------------------------------------------------- *)
(** *** Sample images *)

Definition byte_of_Z (z : Z) : byte :=
  match Byte.of_N (Z.to_N z) with
  | Some b => b
  | None => x00
  end.

Definition bytes_of (l : list Z) : list byte := map byte_of_Z l.

(** Sixteen mapped bytes at address [0x1000]. *)
Definition small_buffer : MemoryBuffer := mkBuffer 0x1000 (repeat x00 16).

(** A tiny method header, a fat method header whose dword at [+4] is
    [0x2C], and a byte that is neither. *)
Definition tiny_method : MemoryBuffer := mkBuffer 0x1000 (bytes_of [0x12]).
Definition fat_method : MemoryBuffer :=
  mkBuffer 0x1000 (bytes_of [0x33; 0; 0; 0; 0x2C; 0; 0; 0; 0; 0; 0; 0]).
Definition bad_method : MemoryBuffer := mkBuffer 0x1000 (bytes_of [0x01]).

Definition sample_header (nsections : Z) : coff_file_header.t :=
  coff_file_header.mk 0x14c nsections 0 0 0 0 0.

Definition sample_section (name : string) (vsize va rawptr : Z)
  : coff_section.t :=
  coff_section.mk (firstn 8 (list_byte_of_string name ++ repeat x00 8))
                  vsize va 0 rawptr 0 0 0 0 0.

Definition text_section : coff_section.t :=
  sample_section ".text" 0x1000 0x1000 0x400.
Definition data_section : coff_section.t :=
  sample_section ".data" 0x800 0x2000 0x1400.

(** An object with two sections and no optional header. *)
Definition two_section_object : COFFObjectFile :=
  mkCOFF (mkBuffer 0x10000 []) (sample_header 2) None None 0
         [text_section; data_section] 0 0 0.

(** A PE32 image whose header announces sixteen data directories,
    mapped at [0x10000] with the directory array at [0x10178]. *)
Definition pe32_sixteen_directories : COFFObjectFile :=
  mkCOFF (mkBuffer 0x10000 (repeat x00 0x400)) (sample_header 0)
         (Some (pe32_header.mk 0x10b 0x400000 16)) None 0x10178
         [] 0 0 0.

(** A section named [//AAAAAB], one whose base-64 digits exceed 32
    bits, and an object with an empty string table. *)
Definition section_AAAAAB : coff_section.t := sample_section "//AAAAAB" 0 0 0.
Definition section_slashes : coff_section.t := sample_section "////////" 0 0 0.
Definition section_bad_digit : coff_section.t := sample_section "//AB-D" 0 0 0.

(** An object whose symbol table is empty and whose string table
    starts at file offset 4 with the given bytes. *)
Definition string_table_object (table : list Z) : COFFObjectFile :=
  mkCOFF (mkBuffer 0x10000 (bytes_of ([0; 0; 0; 0] ++ table)))
         (coff_file_header.mk 0x14c 0 0 4 0 0 0) None None 0 [] 0 0 0.

(** A string table that declares size 0, one that declares 6 bytes and
    ends in a letter, and one that declares 6 bytes and ends in NUL. *)
Definition object_size0_table : COFFObjectFile :=
  string_table_object [0; 0; 0; 0].
Definition object_unterminated_table : COFFObjectFile :=
  string_table_object [6; 0; 0; 0; 0x61; 0x62].
Definition object_terminated_table : COFFObjectFile :=
  string_table_object [6; 0; 0; 0; 0x61; 0].

(** An image with one section mapping RVA [0x1000..0x1040) to the
    start of the buffer.  It holds an ordinal table [1; 0] at RVA
    [0x1000], a name-pointer table at RVA [0x1008] and the names
    ["f"] and ["g"] at RVAs [0x1010] and [0x1012]: the export of index
    0 is named ["g"], the export of index 1 is named ["f"], and the
    export of index 2 has no name. *)
Definition export_image : COFFObjectFile :=
  mkCOFF
    (mkBuffer 0x20000
       (bytes_of [1; 0;  0; 0;  0; 0; 0; 0;
                  0x10; 0x10; 0; 0;  0x12; 0x10; 0; 0;
                  0x66; 0;  0x67; 0]))
    (sample_header 1) None None 0
    [sample_section ".edata" 0x40 0x1000 0] 0 0 0.

Definition export_table : export_directory_table_entry.t :=
  export_directory_table_entry.mk 0 0 0 0 0 1 3 2 0 0x1008 0x1000.

Definition export_entry (i : Z) : ExportDirectoryEntryRef.t :=
  ExportDirectoryEntryRef.mk export_table i export_image.

(** A tables head with the given bitmap and row counts. *)
Definition tables_head (Valid : Z) (rows : list Z) : clrmeta_tables_head.t :=
  clrmeta_tables_head.mk 0 0 0 0 0 Valid 0 0 rows clrTablePtr.zero.

(** A managed image: metadata root with the given signature, version
    ["v4.0.30319"] (length 12), one stream ["#~"] at offset 44 whose
    [Valid] has the bits 0x00, 0x01 and 0x23 and whose row counts are
    [1; 2; 1], followed by 42 bytes of records. *)
Definition metadata_bytes (sig : list Z) : list Z :=
  sig ++ [1; 0;  1; 0;  0; 0; 0; 0;  12; 0; 0; 0]
  ++ [0x76; 0x34; 0x2e; 0x30; 0x2e; 0x33; 0x30; 0x33; 0x31; 0x39; 0; 0]
  ++ [0; 0;  1; 0]
  ++ [44; 0; 0; 0;  78; 0; 0; 0;  0x23; 0x7e; 0; 0]
  ++ [0; 0; 0; 0;  2; 0;  0;  1]
  ++ [3; 0; 0; 0; 8; 0; 0; 0]
  ++ [0; 0; 0; 0; 0; 0; 0; 0]
  ++ [1; 0; 0; 0;  2; 0; 0; 0;  1; 0; 0; 0]
  ++ repeat 0 42.

Definition metadata_image : MemoryBuffer :=
  mkBuffer 0x30000 (bytes_of (metadata_bytes [0x42; 0x53; 0x4a; 0x42])).

Definition metadata_image_bad_signature : MemoryBuffer :=
  mkBuffer 0x30000 (bytes_of (metadata_bytes [0xde; 0xad; 0xbe; 0xef])).

(** Little-endian fields for building sample images. *)
Definition le16 (v : Z) : list Z := [v mod 256; v / 256].
Definition le32 (v : Z) : list Z := le16 (v mod 65536) ++ le16 (v / 65536).

(** A PE32 image of [0x400] bytes mapped at [0x40000]: DOS stub with
    the PE signature at [0x40], sixteen empty data directories, one
    section [.text] at RVA [0x1000] whose [0x200] raw bytes start at
    file offset [0x200], no symbols. *)
Definition pe32_image_bytes : list Z :=
  [0x4d; 0x5a] ++ repeat 0 58 ++ le16 0x40 ++ repeat 0 2
  ++ [0x50; 0x45; 0; 0]
  ++ le16 0x14c ++ le16 1 ++ le32 0 ++ le32 0 ++ le32 0 ++ le16 224 ++ le16 0
  ++ le16 0x10b ++ repeat 0 26 ++ le32 0x400000 ++ repeat 0 60 ++ le32 16
  ++ repeat 0 128
  ++ [0x2e; 0x74; 0x65; 0x78; 0x74; 0; 0; 0]
  ++ le32 0x200 ++ le32 0x1000 ++ le32 0x200 ++ le32 0x200
  ++ le32 0 ++ le32 0 ++ le16 0 ++ le16 0 ++ le32 0x60000020
  ++ repeat 0 (0x400 - 0x160).

Definition pe32_image : MemoryBuffer := mkBuffer 0x40000 (bytes_of pe32_image_bytes).

(** A COFF object of 139 bytes mapped at [0x50000]: one section with 4
    raw bytes at file offset 60, a symbol table of three entries at
    file offset 64 ([main] with one auxiliary record, then a symbol
    named through the string table) and a string table of 21 bytes
    holding ["long_symbol_name"]. *)
Definition coff_object_bytes : list Z :=
  le16 0x14c ++ le16 1 ++ le32 0 ++ le32 64 ++ le32 3 ++ le16 0 ++ le16 0
  ++ [0x2e; 0x74; 0x65; 0x78; 0x74; 0; 0; 0]
  ++ le32 0 ++ le32 0 ++ le32 4 ++ le32 60
  ++ le32 0 ++ le32 0 ++ le16 0 ++ le16 0 ++ le32 0x60000020
  ++ [0x90; 0x90; 0x90; 0xc3]
  ++ [0x6d; 0x61; 0x69; 0x6e; 0; 0; 0; 0]
  ++ le32 0 ++ le16 1 ++ le16 0x20 ++ [2; 1]
  ++ repeat 0 18
  ++ le32 0 ++ le32 4 ++ le32 2 ++ le16 1 ++ le16 0 ++ [3; 0]
  ++ le32 21
  ++ [0x6c; 0x6f; 0x6e; 0x67; 0x5f; 0x73; 0x79; 0x6d; 0x62; 0x6f; 0x6c;
      0x5f; 0x6e; 0x61; 0x6d; 0x65; 0].

Definition coff_object : MemoryBuffer :=
  mkBuffer 0x50000 (bytes_of coff_object_bytes).

(** The two-section object with a PE32 optional header whose image
    base is [0x400000]. *)
Definition two_section_pe32 : COFFObjectFile :=
  mkCOFF (mkBuffer 0x10000 []) (sample_header 2)
         (Some (pe32_header.mk 0x10b 0x400000 16)) None 0
         [text_section; data_section] 0 0 0.

(** A section with [size] raw bytes at file offset [ptr], and an
    object over the PE32 image that uses no other field. *)
Definition raw_section (size ptr : Z) : coff_section.t :=
  coff_section.mk (repeat x00 8) 0 0 size ptr 0 0 0 0 0.

Definition pe32_image_object : COFFObjectFile :=
  mkCOFF pe32_image (sample_header 1) None None 0 [] 0 0 0.

(** The object the constructor builds from [coff_object]. *)
Definition coff_object_file : COFFObjectFile :=
  Eval vm_compute in
    match createCOFFObjectFile false coff_object with
    | Ok img => Obj img
    | _ => pe32_image_object
    end.

(** The images the constructor builds from [pe32_image] and from
    [coff_object]. *)
Definition pe32_image_file : COFFImage :=
  Eval vm_compute in
    match createCOFFObjectFile false pe32_image with
    | Ok img => img
    | _ => mkImage pe32_image_object 0 0 0 0 None
    end.

Definition coff_object_image : COFFImage :=
  Eval vm_compute in
    match createCOFFObjectFile false coff_object with
    | Ok img => img
    | _ => mkImage pe32_image_object 0 0 0 0 None
    end.

(** An MS-DOS stub of 68 bytes whose field at [0x3c] announces the PE
    signature at file offset [0x80], mapped at [0x60000]. *)
Definition mz_stub_only : MemoryBuffer :=
  mkBuffer 0x60000
    (bytes_of ([0x4d; 0x5a] ++ repeat 0 58 ++ le16 0x80 ++ repeat 0 6)).

(** A PE32+ image cut 100 bytes into its optional header, which starts
    at file offset [0x58], mapped at [0x70000]. *)
Definition pe32plus_truncated : MemoryBuffer :=
  mkBuffer 0x70000
    (bytes_of ([0x4d; 0x5a] ++ repeat 0 58 ++ le16 0x40 ++ repeat 0 2
               ++ [0x50; 0x45; 0; 0]
               ++ le16 0x8664 ++ le16 1 ++ le32 0 ++ le32 0 ++ le32 0
               ++ le16 240 ++ le16 0
               ++ le16 0x20b ++ repeat 0 98)).

(** An image whose data directory, two entries at the start of the
    buffer, announces an import table at RVA [0x5000], outside its one
    section. *)
Definition unmapped_import_image : COFFImage :=
  mkImage
    (mkCOFF (mkBuffer 0x80000 (bytes_of (le32 0 ++ le32 0
                                         ++ le32 0x5000 ++ le32 40)))
            (sample_header 1) (Some (pe32_header.mk 0x10b 0x400000 2)) None
            0x80000 [text_section] 0 0 0)
    0 0 0 0 None.

(** A metadata header over [metadata_image] whose one stream, named
    ["#~"], is announced at offset 0 of the metadata root. *)
Definition tables_stream_at_root : clrmeta_header.t :=
  clrmeta_header.mk 0x30000 0x424a5342 1 1 0 12 0x30010 0 1
    [clrstream_header.mk 0 78 0x30028] None.

(** A managed image: fifteen data directories at the start of the
    buffer, the last of which announces the CLI header at RVA [0x1078],
    and behind them a CLI header of 16 zero bytes (no metadata); one
    section maps RVA [0x1000] to the start of the buffer. *)
Definition clr_image : COFFImage :=
  mkImage
    (mkCOFF (mkBuffer 0x90000
               (bytes_of (repeat 0 112 ++ le32 0x1078 ++ le32 72
                          ++ repeat 0 16)))
            (sample_header 1) (Some (pe32_header.mk 0x10b 0x400000 15)) None
            0x90000 [sample_section ".text" 0x100 0x1000 0] 0 0 0)
    0 0 0 0 None.

(** A managed image like [metadata_image] whose [Valid] has the bits
    0x00 and 0x04 (Module and Field), with row counts [1; 1]. *)
Definition metadata_field_bytes : list Z :=
  [0x42; 0x53; 0x4a; 0x42] ++ [1; 0;  1; 0;  0; 0; 0; 0;  12; 0; 0; 0]
  ++ [0x76; 0x34; 0x2e; 0x30; 0x2e; 0x33; 0x30; 0x33; 0x31; 0x39; 0; 0]
  ++ [0; 0;  1; 0]
  ++ [44; 0; 0; 0;  78; 0; 0; 0;  0x23; 0x7e; 0; 0]
  ++ [0; 0; 0; 0;  2; 0;  0;  1]
  ++ [0x11; 0; 0; 0; 0; 0; 0; 0]
  ++ [0; 0; 0; 0; 0; 0; 0; 0]
  ++ [1; 0; 0; 0;  1; 0; 0; 0]
  ++ repeat 0 42.

Definition metadata_image_field_table : MemoryBuffer :=
  mkBuffer 0x30000 (bytes_of metadata_field_bytes).

(* ================================================================= *)
(** ** Properties: proofs *)

(* ----------------------------------------------------------------- *)
(** *** Arithmetic and memory lemmas *)

Lemma wrap_small : forall bits z, 0 <= z < 2 ^ bits -> wrap bits z = z.
Proof. intros bits z H. unfold wrap. apply Z.mod_small. exact H. Qed.

Lemma wrap_range : forall bits z, 0 <= bits -> 0 <= wrap bits z < 2 ^ bits.
Proof.
  intros bits z Hb. unfold wrap. apply Z.mod_pos_bound.
  apply Z.pow_pos_nonneg; lia.
Qed.

Lemma wrap32_small : forall z, 0 <= z < 2 ^ 32 -> wrap32 z = z.
Proof. intros. apply wrap_small. assumption. Qed.

Lemma wrap64_small : forall z, 0 <= z < 2 ^ 64 -> wrap64 z = z.
Proof. intros. apply wrap_small. assumption. Qed.

Lemma wrap32_range : forall z, 0 <= wrap32 z < 2 ^ 32.
Proof. intros. apply wrap_range. lia. Qed.

Lemma wrap64_range : forall z, 0 <= wrap64 z < 2 ^ 64.
Proof. intros. apply wrap_range. lia. Qed.

Lemma Ok_inj : forall (A : Type) (a b : A), Ok a = Ok b -> a = b.
Proof. intros A a b H. congruence. Qed.

Lemma byte_val_range : forall b, 0 <= byte_val b < 256.
Proof.
  intros b. unfold byte_val. pose proof (Byte.to_N_bounded b). lia.
Qed.

Lemma load8_range : forall M a b, load8 M a = Ok b -> 0 <= b < 256.
Proof.
  intros M a b. unfold load8.
  destruct (_ && _); [|discriminate].
  destruct (nth_error _ _); [|discriminate].
  intros H. injection H as <-. apply byte_val_range.
Qed.

(** A load that succeeds reads inside the buffer. *)
Lemma load8_in_buffer : forall M a b,
  load8 M a = Ok b -> BufferStart M <= a < getBufferEnd M.
Proof.
  intros M a b. unfold load8.
  destruct (_ && _) eqn:E; [|discriminate]. intros _.
  apply andb_true_iff in E. destruct E as [E1 E2].
  apply Z.leb_le in E1. apply Z.ltb_lt in E2. lia.
Qed.

Lemma load16_range : forall M a v, load16 M a = Ok v -> 0 <= v < 2 ^ 16.
Proof.
  intros M a v. unfold load16.
  destruct (load8 M a) as [b0| | |] eqn:E0; try discriminate.
  destruct (load8 M (a + 1)) as [b1| | |] eqn:E1; try discriminate.
  cbn [bind]. intros H. apply Ok_inj in H. subst v.
  apply load8_range in E0. apply load8_range in E1.
  lia.
Qed.

Lemma load32_range : forall M a v, load32 M a = Ok v -> 0 <= v < 2 ^ 32.
Proof.
  intros M a v. unfold load32.
  destruct (load16 M a) as [lo| | |] eqn:E0; try discriminate.
  destruct (load16 M (a + 2)) as [hi| | |] eqn:E1; try discriminate.
  cbn [bind]. intros H. apply Ok_inj in H. subst v.
  apply load16_range in E0. apply load16_range in E1.
  lia.
Qed.

Lemma load64_range : forall M a v, load64 M a = Ok v -> 0 <= v < 2 ^ 64.
Proof.
  intros M a v. unfold load64.
  destruct (load32 M a) as [lo| | |] eqn:E0; try discriminate.
  destruct (load32 M (a + 4)) as [hi| | |] eqn:E1; try discriminate.
  cbn [bind]. intros H. apply Ok_inj in H. subst v.
  apply load32_range in E0. apply load32_range in E1.
  lia.
Qed.

(* ----------------------------------------------------------------- *)
(** *** Rounding up to four *)

Lemma wrap32_mod4 : forall z, wrap32 z mod 4 = z mod 4.
Proof.
  intros z. unfold wrap32, wrap.
  apply Z.mod_mod_divide. exists (2 ^ 30). reflexivity.
Qed.

Lemma wrap32_add_mod4 : forall z k, (wrap32 z + k) mod 4 = (z + k) mod 4.
Proof.
  intros z k. rewrite Zplus_mod, wrap32_mod4, <- Zplus_mod. reflexivity.
Qed.

(** The three increments of [fixsize] always reach a multiple of 4. *)
Lemma fixsize_multiple_of_4 : forall v, fixsize v mod 4 = 0.
Proof.
  intros v. unfold fixsize. cbn [fixsize_loop].
  destruct (v mod 4 =? 0) eqn:E0; [apply Z.eqb_eq; exact E0|].
  destruct (wrap32 (v + 1) mod 4 =? 0) eqn:E1; [apply Z.eqb_eq; exact E1|].
  destruct (wrap32 (wrap32 (v + 1) + 1) mod 4 =? 0) eqn:E2;
    [apply Z.eqb_eq; exact E2|].
  apply Z.eqb_neq in E0, E1, E2.
  rewrite wrap32_mod4 in E1. rewrite wrap32_mod4, wrap32_add_mod4 in E2.
  assert (H3 : wrap32 (wrap32 (wrap32 (v + 1) + 1) + 1) mod 4 = 0).
  { rewrite wrap32_mod4, wrap32_add_mod4, <- Z.add_assoc, wrap32_add_mod4.
    Z.to_euclidean_division_equations. lia. }
  rewrite H3. cbn [Z.eqb]. exact H3.
Qed.

(** Below the top of the [unsigned int] range it is the next multiple
    of 4. *)
Lemma fixsize_round_up : forall v,
  0 <= v < 2 ^ 32 - 4 -> v <= fixsize v < v + 4.
Proof.
  intros v Hv. unfold fixsize. cbn [fixsize_loop].
  rewrite !wrap32_small by lia.
  destruct (v mod 4 =? 0); [lia|].
  destruct ((v + 1) mod 4 =? 0); [lia|].
  destruct ((v + 1 + 1) mod 4 =? 0); [lia|].
  destruct ((v + 1 + 1 + 1) mod 4 =? 0); lia.
Qed.

(* ----------------------------------------------------------------- *)
(** *** The bounds-checked reader *)

(** What [getObject] does establish: a view is produced exactly when
    [Ptr + Size] neither wraps nor passes the end of the buffer, and
    the only error is [unexpected_eof]. *)
Lemma getObject_upper_bound : forall M Ptr Size,
  0 <= Ptr < 2 ^ 64 -> 0 <= Size < 2 ^ 64 ->
  (Ptr + Size < 2 ^ 64 /\ Ptr + Size <= getBufferEnd M ->
     getObject M Ptr Size = Ok Ptr) /\
  (~ (Ptr + Size < 2 ^ 64 /\ Ptr + Size <= getBufferEnd M) ->
     getObject M Ptr Size = Err unexpected_eof).
Proof.
  intros M Ptr Size HP HS. unfold getObject, wrap_ptr, wrap64, wrap. split.
  - intros [Hov Hend]. rewrite Z.mod_small by lia.
    replace (Ptr + Size <? Ptr) with false by (symmetry; apply Z.ltb_ge; lia).
    replace (Ptr + Size <? Size) with false by (symmetry; apply Z.ltb_ge; lia).
    replace (Ptr + Size >? getBufferEnd M) with false
      by (symmetry; rewrite Z.gtb_ltb; apply Z.ltb_ge; lia).
    reflexivity.
  - intros Hn.
    destruct (Z_lt_dec (Ptr + Size) (2 ^ 64)) as [Hlt|Hge].
    + rewrite Z.mod_small by lia.
      replace (Ptr + Size >? getBufferEnd M) with true
        by (symmetry; rewrite Z.gtb_ltb; apply Z.ltb_lt; lia).
      rewrite orb_true_r. reflexivity.
    + replace ((Ptr + Size) mod 2 ^ 64) with (Ptr + Size - 2 ^ 64).
      * replace (Ptr + Size - 2 ^ 64 <? Ptr) with true
          by (symmetry; apply Z.ltb_lt; lia).
        reflexivity.
      * apply Z.mod_unique with (q := 1); [left|]; lia.
Qed.

(** C1.  [getObject] has no check against the start of the buffer: for
    the buffer of sixteen bytes mapped at [0x1000] and the pointer
    [0x800], which lies before the buffer, a four-byte view is produced
    instead of [unexpected_eof]. *)
Theorem getObject_accepts_pointer_before_buffer :
  getObject small_buffer 0x800 4 = Ok 0x800 /\
  0x800 < BufferStart small_buffer /\
  load8 small_buffer 0x800 = Fault.
Proof. repeat split. Qed.

(* ----------------------------------------------------------------- *)
(** *** Method sizes *)

(** C3.  [getMethodSize] on a readable first byte [b]: low bits [0b10]
    give [(b >> 2) + 1]; low bits [0b11] give the 32-bit word at offset
    4 plus 12, as an [unsigned int]; any other pattern fails with
    [parse_failed]. *)
Theorem getMethodSize_spec : forall M method b,
  load8 M method = Ok b ->
  (Z.land b 3 = 2 -> getMethodSize M method = Ok (Z.shiftr b 2 + 1)) /\
  (Z.land b 3 = 3 ->
     forall w, load32 M (wrap_ptr (method + 4)) = Ok w ->
       getMethodSize M method = Ok (wrap32 (w + 12)) /\
       (w + 12 < 2 ^ 32 -> getMethodSize M method = Ok (w + 12))) /\
  (Z.land b 3 <> 2 -> Z.land b 3 <> 3 ->
     getMethodSize M method = Err parse_failed).
Proof.
  intros M method b Hb. unfold getMethodSize. rewrite Hb. cbn [bind].
  pose proof (load8_range _ _ _ Hb) as Hr.
  split; [|split].
  - intros H2. rewrite H2. change (2 =? 2) with true. cbv iota.
    f_equal. apply wrap32_small.
    rewrite Z.shiftr_div_pow2 by lia.
    assert (0 <= b / 2 ^ 2 < 64)
      by (split; [apply Z.div_pos; lia | apply Z.div_lt_upper_bound; lia]).
    lia.
  - intros H3 w Hw. rewrite H3. change (3 =? 2) with false.
    change (3 =? 3) with true. cbv iota. rewrite Hw. cbn [bind].
    split; [reflexivity|].
    intros Hs. f_equal. apply wrap32_small.
    apply load32_range in Hw. lia.
  - intros H2 H3.
    destruct (Z.land b 3 =? 2) eqn:E2; [apply Z.eqb_eq in E2; contradiction|].
    destruct (Z.land b 3 =? 3) eqn:E3; [apply Z.eqb_eq in E3; contradiction|].
    reflexivity.
Qed.

Lemma getMethodSize_spec_witness :
  getMethodSize tiny_method 0x1000 = Ok 5 /\
  getMethodSize fat_method 0x1000 = Ok 56 /\
  getMethodSize bad_method 0x1000 = Err parse_failed.
Proof.
  split; [|split].
  - exact (proj1 (getMethodSize_spec tiny_method 0x1000 0x12 eq_refl) eq_refl).
  - exact (proj2 (proj1 (proj2 (getMethodSize_spec fat_method 0x1000 0x33
                                  eq_refl)) eq_refl 0x2C eq_refl) eq_refl).
  - apply (proj2 (proj2 (getMethodSize_spec bad_method 0x1000 0x01 eq_refl)));
      vm_compute; discriminate.
Defined.

(* ----------------------------------------------------------------- *)
(** *** RVA resolution *)

Lemma covers_dec : forall s Rva,
  (coff_section.VirtualAddress s <=? Rva)
  && (Rva <? wrap32 (coff_section.VirtualAddress s + coff_section.VirtualSize s))
  = true <-> covers s Rva.
Proof.
  intros s Rva. unfold covers. rewrite andb_true_iff, Z.leb_le, Z.ltb_lt.
  tauto.
Qed.

Lemma getRvaPtr_loop_miss : forall b secs Rva,
  (forall s, In s secs -> ~ covers s Rva) ->
  getRvaPtr_loop b secs Rva = Err parse_failed.
Proof.
  induction secs as [|s rest IH]; intros Rva Hnone; cbn [getRvaPtr_loop].
  - reflexivity.
  - destruct (_ && _) eqn:E.
    + apply covers_dec in E. exfalso. apply (Hnone s); [now left | exact E].
    + apply IH. intros s' Hin. apply Hnone. now right.
Qed.

Lemma getRvaPtr_loop_hit : forall b pre s post Rva,
  section_wf s ->
  (forall s', In s' pre -> ~ covers s' Rva) ->
  covers s Rva ->
  getRvaPtr_loop b (pre ++ s :: post) Rva
  = Ok (wrap_ptr (b + coff_section.PointerToRawData s
                  + (Rva - coff_section.VirtualAddress s))).
Proof.
  induction pre as [|s0 pre IH]; intros s post Rva Hwf Hpre Hcov;
    cbn [app getRvaPtr_loop].
  - pose proof Hcov as Hc. apply covers_dec in Hc. rewrite Hc.
    do 3 f_equal. apply wrap32_small.
    destruct Hwf as [[Hva0 Hva1] _]. unfold covers in Hcov.
    pose proof (wrap32_range
      (coff_section.VirtualAddress s + coff_section.VirtualSize s)).
    lia.
  - destruct (_ && _) eqn:E.
    + apply covers_dec in E. exfalso. apply (Hpre s0); [now left | exact E].
    + apply IH; auto. intros s' Hin. apply Hpre. now right.
Qed.

(** C4.  [getRvaPtr] scans the sections in order; the first section
    whose interval covers the RVA gives
    [base + PointerToRawData + (RVA - VirtualAddress)] (an address, so
    a [uintptr_t]); when no section covers the RVA the call fails with
    [parse_failed]. *)
Theorem getRvaPtr_first_covering_section : forall O Rva,
  (forall pre s post,
     sections O = pre ++ s :: post ->
     section_wf s ->
     (forall s', In s' pre -> ~ covers s' Rva) ->
     covers s Rva ->
     getRvaPtr O Rva
     = Ok (wrap_ptr (base O + coff_section.PointerToRawData s
                     + (Rva - coff_section.VirtualAddress s)))) /\
  ((forall s, In s (sections O) -> ~ covers s Rva) ->
     getRvaPtr O Rva = Err parse_failed).
Proof.
  intros O Rva. unfold getRvaPtr. split.
  - intros pre s post Hsec Hwf Hpre Hcov. rewrite Hsec.
    apply getRvaPtr_loop_hit; assumption.
  - apply getRvaPtr_loop_miss.
Qed.

Lemma getRvaPtr_first_covering_section_witness :
  getRvaPtr two_section_object 0x2010 = Ok (0x10000 + 0x1400 + 0x10) /\
  getRvaPtr two_section_object 0x3000 = Err parse_failed.
Proof.
  split.
  - apply (proj1 (getRvaPtr_first_covering_section two_section_object 0x2010)
             [text_section] data_section []).
    + reflexivity.
    + unfold section_wf, u32; cbn; lia.
    + intros s' [<-|[]]. unfold covers; cbn. unfold wrap32, wrap. cbn. lia.
    + unfold covers; cbn. unfold wrap32, wrap. cbn. lia.
  - apply (proj2 (getRvaPtr_first_covering_section two_section_object 0x3000)).
    intros s [<-|[<-|[]]]; unfold covers; cbn; unfold wrap32, wrap; cbn; lia.
Defined.

(** Without wrap-around the interval and the address are the plain
    ones: here for a section that ends inside the 32-bit RVA space and
    a buffer mapped at least 8 GiB below the top of the address
    space. *)
Lemma covers_plain : forall s Rva,
  section_wf s ->
  coff_section.VirtualAddress s + coff_section.VirtualSize s < 2 ^ 32 ->
  (covers s Rva <->
   coff_section.VirtualAddress s <= Rva
   < coff_section.VirtualAddress s + coff_section.VirtualSize s).
Proof.
  intros s Rva [[H0 H1] [[H2 H3] _]] Hlt. unfold covers.
  rewrite wrap32_small by lia. tauto.
Qed.

Lemma getRvaPtr_plain_address : forall O s Rva,
  section_wf s -> covers s Rva ->
  0 <= base O -> base O + 2 ^ 33 <= 2 ^ 64 ->
  wrap_ptr (base O + coff_section.PointerToRawData s
            + (Rva - coff_section.VirtualAddress s))
  = base O + coff_section.PointerToRawData s
    + (Rva - coff_section.VirtualAddress s).
Proof.
  intros O s Rva [[H0 H1] [_ [H2 H3]]] Hcov Hb0 Hb1.
  unfold covers in Hcov.
  pose proof (wrap32_range
    (coff_section.VirtualAddress s + coff_section.VirtualSize s)).
  apply wrap64_small. lia.
Qed.

(* ----------------------------------------------------------------- *)
(** *** Data directories *)

(** Outside the boundary index the reader behaves as documented. *)
Lemma getDataDirectory_pe32 : forall ndebug O h Index,
  PE32Header O = Some h ->
  DataDirectory O <> 0 ->
  (Index < pe32_header.NumberOfRvaAndSize h ->
     getDataDirectory ndebug O Index
     = Ok (wrap_ptr (DataDirectory O + sizeof_data_directory * Index))) /\
  (Index > pe32_header.NumberOfRvaAndSize h ->
     getDataDirectory ndebug O Index = Err parse_failed).
Proof.
  intros ndebug O h Index Hh Hd. unfold getDataDirectory.
  destruct (DataDirectory O =? 0) eqn:E; [apply Z.eqb_eq in E; contradiction|].
  rewrite Hh. unfold assert_. 
  replace (if ndebug then Ok tt
           else if match PE32PlusHeader O with _ => true end
                then Ok tt else Abort "PE32Header || PE32PlusHeader")
    with (@Ok unit tt)
    by (destruct ndebug, (PE32PlusHeader O); reflexivity).
  cbn [bind]. split; intros Hi.
  - replace (Index >? pe32_header.NumberOfRvaAndSize h) with false
      by (symmetry; rewrite Z.gtb_ltb; apply Z.ltb_ge; lia).
    reflexivity.
  - replace (Index >? pe32_header.NumberOfRvaAndSize h) with true
      by (symmetry; rewrite Z.gtb_ltb; apply Z.ltb_lt; lia).
    reflexivity.
Qed.

Lemma getDataDirectory_absent : forall ndebug O Index,
  DataDirectory O = 0 -> getDataDirectory ndebug O Index = Err parse_failed.
Proof.
  intros ndebug O Index H. unfold getDataDirectory. rewrite H. reflexivity.
Qed.

(** C6.  The range test of [getDataDirectory] is [Index > NumEnt]: in
    the PE32 image with sixteen data directories the index 16, one past
    the last entry, is accepted and yields the address just behind the
    array, in both build modes, while 15 is the last entry and 17 is
    refused. *)
Theorem getDataDirectory_accepts_index_NumEnt :
  forall ndebug,
    getDataDirectory ndebug pe32_sixteen_directories 16
    = Ok (DataDirectory pe32_sixteen_directories + 16 * sizeof_data_directory)
    /\ getDataDirectory ndebug pe32_sixteen_directories 15
       = Ok (DataDirectory pe32_sixteen_directories + 15 * sizeof_data_directory)
    /\ getDataDirectory ndebug pe32_sixteen_directories 17 = Err parse_failed.
Proof. intros [|]; repeat split. Qed.

(* ----------------------------------------------------------------- *)
(** *** Base-64 section names *)

(** The [if] chain of the decoder computes the alphabet index. *)
Lemma CharVal_is_digit : forall c, CharVal c = base64_digit c.
Proof. intros c. destruct c; vm_compute; reflexivity. Qed.

Lemma base64_digit_range : forall c d, base64_digit c = Some d -> 0 <= d < 64.
Proof.
  intros c d. destruct c; vm_compute; intros H; try discriminate;
    injection H as <-; split; congruence.
Qed.

Lemma base64_digit_nth : forall c d,
  base64_digit c = Some d -> nth (Z.to_nat d) base64_alphabet x00 = c.
Proof.
  intros c d. destruct c; vm_compute; intros H; try discriminate;
    injection H as <-; reflexivity.
Qed.

Lemma pow64_pos : forall n : nat, 0 < 64 ^ Z.of_nat n.
Proof. intros n. apply Z.pow_pos_nonneg; lia. Qed.

Lemma pow64_succ : forall n : nat, 64 ^ Z.of_nat (S n) = 64 * 64 ^ Z.of_nat n.
Proof.
  intros n. rewrite Nat2Z.inj_succ. rewrite Z.pow_succ_r by lia. reflexivity.
Qed.

Lemma base64_value_range : forall s v,
  base64_value s = Some v -> 0 <= v < 64 ^ Z.of_nat (List.length s).
Proof.
  induction s as [|c rest IH]; intros v H; cbn [base64_value] in H.
  - injection H as <-. cbn. lia.
  - destruct (base64_digit c) as [d|] eqn:Ed; [|discriminate].
    destruct (base64_value rest) as [v'|] eqn:Ev; [|discriminate].
    assert (Hv : v = d * 64 ^ Z.of_nat (List.length rest) + v') by congruence.
    subst v. clear H.
    apply base64_digit_range in Ed. specialize (IH v' eq_refl).
    cbn [List.length]. rewrite pow64_succ.
    pose proof (pow64_pos (List.length rest)). nia.
Qed.

Lemma decodeBase64_loop_value : forall s acc v,
  base64_value s = Some v ->
  0 <= acc ->
  acc * 64 ^ Z.of_nat (List.length s) + v < 2 ^ 64 ->
  decodeBase64_loop s acc = Some (acc * 64 ^ Z.of_nat (List.length s) + v).
Proof.
  induction s as [|c rest IH]; intros acc v Hv Hacc Hlt;
    cbn [base64_value decodeBase64_loop] in *.
  - assert (v = 0) by congruence. subst v. cbn. f_equal. lia.
  - rewrite CharVal_is_digit.
    destruct (base64_digit c) as [d|] eqn:Ed; [|discriminate].
    destruct (base64_value rest) as [v'|] eqn:Ev; [|discriminate].
    assert (Hv' : v = d * 64 ^ Z.of_nat (List.length rest) + v') by congruence.
    subst v. clear Hv.
    pose proof (base64_digit_range _ _ Ed) as Hd.
    pose proof (base64_value_range _ _ Ev) as Hr.
    pose proof (pow64_pos (List.length rest)) as Hp.
    cbn [List.length] in *. rewrite pow64_succ in *.
    rewrite wrap64_small by nia.
    rewrite (IH (acc * 64 + d) v' eq_refl) by nia.
    f_equal. ring.
Qed.

Lemma decodeBase64_loop_invalid : forall s acc,
  base64_value s = None -> decodeBase64_loop s acc = None.
Proof.
  induction s as [|c rest IH]; intros acc H;
    cbn [base64_value decodeBase64_loop] in *.
  - discriminate.
  - rewrite CharVal_is_digit.
    destruct (base64_digit c) as [d|]; [|reflexivity].
    destruct (base64_value rest) as [v'|] eqn:Ev; [discriminate|].
    apply IH. reflexivity.
Qed.

Lemma base64_value_alphabet : forall s,
  Forall in_alphabet s <-> exists v, base64_value s = Some v.
Proof.
  induction s as [|c rest IH]; cbn [base64_value].
  - split; [intros _; now exists 0 | constructor].
  - split.
    + intros H. inversion H as [|? ? Hc Hrest]; subst.
      apply IH in Hrest. destruct Hrest as [v' Hv'].
      unfold in_alphabet in Hc.
      destruct (base64_digit c) as [d|]; [|contradiction].
      rewrite Hv'. eexists. reflexivity.
    + intros [v Hv].
      destruct (base64_digit c) as [d|] eqn:Ed; [|discriminate].
      destruct (base64_value rest) as [v'|] eqn:Ev; [|discriminate].
      constructor.
      * unfold in_alphabet. rewrite Ed. discriminate.
      * apply IH. now exists v'.
Qed.

Lemma base64_value_outside : forall s,
  ~ Forall in_alphabet s -> base64_value s = None.
Proof.
  intros s H. destruct (base64_value s) as [v|] eqn:E; [|reflexivity].
  exfalso. apply H. apply base64_value_alphabet. now exists v.
Qed.

(** Re-encoding the value at the length of the string gives the string
    back. *)
Lemma encodeBase64_value : forall s v,
  base64_value s = Some v -> encodeBase64 (List.length s) v = s.
Proof.
  induction s as [|c rest IH]; intros v Hv;
    cbn [base64_value List.length encodeBase64] in *.
  - reflexivity.
  - destruct (base64_digit c) as [d|] eqn:Ed; [|discriminate].
    destruct (base64_value rest) as [v'|] eqn:Ev; [|discriminate].
    assert (Hv' : v = d * 64 ^ Z.of_nat (List.length rest) + v') by congruence.
    subst v. clear Hv.
    pose proof (base64_value_range _ _ Ev) as Hr.
    pose proof (pow64_pos (List.length rest)) as Hp.
    rewrite Z.div_add_l by lia. rewrite Z.div_small by lia.
    rewrite Z.add_0_r.
    rewrite Z.add_comm, Z.mod_add by lia. rewrite Z.mod_small by lia.
    rewrite (base64_digit_nth _ _ Ed). f_equal. apply IH. reflexivity.
Qed.

(** With at most six characters the [assert] of the decoder holds and
    the build mode is immaterial. *)
Lemma decodeBase64StringEntry_short : forall ndebug Str,
  (List.length Str <= 6)%nat ->
  decodeBase64StringEntry ndebug Str
  = match decodeBase64_loop Str 0 with
    | None => Ok None
    | Some Value =>
        if Value >? UINT32_MAX then Ok None else Ok (Some (wrap32 Value))
    end.
Proof.
  intros ndebug Str Hlen. unfold decodeBase64StringEntry, assert_.
  replace (Z.of_nat (List.length Str) <=? 6) with true
    by (symmetry; apply Z.leb_le; lia).
  replace (Z.of_nat (List.length Str) >? 6) with false
    by (symmetry; rewrite Z.gtb_ltb; apply Z.ltb_ge; lia).
  destruct ndebug; reflexivity.
Qed.

Lemma decodeBase64StringEntry_value : forall ndebug Str v,
  (List.length Str <= 6)%nat ->
  base64_value Str = Some v ->
  decodeBase64StringEntry ndebug Str
  = Ok (if v <=? UINT32_MAX then Some v else None).
Proof.
  intros ndebug Str v Hlen Hv.
  rewrite decodeBase64StringEntry_short by assumption.
  pose proof (base64_value_range _ _ Hv) as Hr.
  assert (Hp : 64 ^ Z.of_nat (List.length Str) <= 64 ^ 6)
    by (apply Z.pow_le_mono_r; lia).
  rewrite (decodeBase64_loop_value Str 0 v Hv) by lia.
  rewrite Z.mul_0_l, Z.add_0_l. rewrite Z.gtb_ltb.
  unfold UINT32_MAX in *.
  destruct (v <=? 4294967295) eqn:E.
  - apply Z.leb_le in E.
    replace (4294967295 <? v) with false by (symmetry; apply Z.ltb_ge; lia).
    rewrite wrap32_small by lia. reflexivity.
  - apply Z.leb_gt in E.
    replace (4294967295 <? v) with true by (symmetry; apply Z.ltb_lt; lia).
    reflexivity.
Qed.

Lemma decodeBase64StringEntry_rejects : forall Str,
  (List.length Str > 6)%nat \/ ~ Forall in_alphabet Str ->
  decodeBase64StringEntry true Str = Ok None.
Proof.
  intros Str H.
  destruct (le_gt_dec (List.length Str) 6) as [Hle|Hgt].
  - destruct H as [H|H]; [lia|].
    rewrite decodeBase64StringEntry_short by assumption.
    rewrite decodeBase64_loop_invalid; [reflexivity|].
    apply base64_value_outside. exact H.
  - unfold decodeBase64StringEntry, assert_. cbn [bind].
    replace (Z.of_nat (List.length Str) >? 6) with true
      by (symmetry; rewrite Z.gtb_ltb; apply Z.ltb_lt; lia).
    reflexivity.
Qed.

Lemma until_nul_length : forall n l,
  byte_val (nth n l x00) = 0 -> (List.length (until_nul l) <= n)%nat.
Proof.
  induction n as [|n IH]; intros l H; destruct l as [|b rest];
    cbn [nth until_nul List.length] in *; try lia.
  - rewrite H. cbn. lia.
  - destruct (byte_val b =? 0); cbn [List.length]; [lia|].
    specialize (IH rest H). lia.
Qed.

Lemma short_name_length : forall Sec, (List.length (short_name Sec) <= 8)%nat.
Proof.
  intros Sec. unfold short_name.
  destruct (byte_val (nth 7 (coff_section.Name Sec) x00) =? 0) eqn:E.
  - apply Z.eqb_eq in E. apply until_nul_length in E. lia.
  - rewrite length_firstn. lia.
Qed.

(** C5.  Base-64 section names.  For a string of at most six
    characters of the alphabet the decoder computes the
    most-significant-digit-first value, which re-encodes to the string,
    and returns it when it fits 32 bits; a string of more than six
    characters or with a character outside the alphabet is rejected by
    the decoder (release build); and every rejection by the decoder of
    the part behind [//] of a section name, which never has more than
    six characters, makes [getSectionName] fail with [parse_failed]. *)
Theorem base64_section_name_decoding :
  (forall ndebug Str,
     (List.length Str <= 6)%nat -> Forall in_alphabet Str ->
     exists v,
       base64_value Str = Some v /\
       encodeBase64 (List.length Str) v = Str /\
       decodeBase64StringEntry ndebug Str
       = Ok (if v <=? UINT32_MAX then Some v else None)) /\
  (forall Str,
     (List.length Str > 6)%nat \/ ~ Forall in_alphabet Str ->
     decodeBase64StringEntry true Str = Ok None) /\
  (forall getAsInteger10 ndebug O Sec,
     char_at (short_name Sec) 0 = chr_slash ->
     char_at (short_name Sec) 1 = chr_slash ->
     let Str := skipn 2 (short_name Sec) in
     (List.length Str <= 6)%nat /\
     (~ Forall in_alphabet Str ->
        getSectionName getAsInteger10 ndebug O Sec = Err parse_failed) /\
     (forall v,
        base64_value Str = Some v -> v > UINT32_MAX ->
        getSectionName getAsInteger10 ndebug O Sec = Err parse_failed) /\
     (forall v,
        base64_value Str = Some v -> v <= UINT32_MAX ->
        getSectionName getAsInteger10 ndebug O Sec = getString O v)).
Proof.
  split; [|split].
  - intros ndebug Str Hlen Halpha.
    apply base64_value_alphabet in Halpha. destruct Halpha as [v Hv].
    exists v. split; [exact Hv|]. split.
    + apply encodeBase64_value. exact Hv.
    + apply decodeBase64StringEntry_value; assumption.
  - apply decodeBase64StringEntry_rejects.
  - intros gai ndebug O Sec H0 H1 Str.
    assert (Hlen : (List.length Str <= 6)%nat).
    { unfold Str. rewrite length_skipn.
      pose proof (short_name_length Sec). lia. }
    split; [exact Hlen|].
    assert (Hget : getSectionName gai ndebug O Sec
                   = (Offset <- (r <- decodeBase64StringEntry ndebug Str ;;
                                 match r with
                                 | None => Err parse_failed
                                 | Some v => Ok v
                                 end) ;;
                      getString O Offset)).
    { unfold getSectionName. fold (short_name Sec).
      rewrite H0, H1. rewrite Z.eqb_refl. reflexivity. }
    rewrite Hget. split; [|split].
    + intros Hout. rewrite decodeBase64StringEntry_short by assumption.
      rewrite decodeBase64_loop_invalid; [reflexivity|].
      apply base64_value_outside. exact Hout.
    + intros v Hv Hbig.
      rewrite (decodeBase64StringEntry_value ndebug Str v Hlen Hv).
      replace (v <=? UINT32_MAX) with false
        by (symmetry; apply Z.leb_gt; lia).
      reflexivity.
    + intros v Hv Hfit.
      rewrite (decodeBase64StringEntry_value ndebug Str v Hlen Hv).
      replace (v <=? UINT32_MAX) with true by (symmetry; apply Z.leb_le; lia).
      reflexivity.
Qed.

Lemma in_alphabet_AAAAAB :
  Forall in_alphabet (list_byte_of_string "AAAAAB").
Proof. repeat constructor; vm_compute; discriminate. Qed.

Lemma base64_section_name_decoding_witness :
  (exists v,
     base64_value (list_byte_of_string "AAAAAB") = Some v /\
     encodeBase64 6 v = list_byte_of_string "AAAAAB" /\
     decodeBase64StringEntry false (list_byte_of_string "AAAAAB")
     = Ok (if v <=? UINT32_MAX then Some v else None)) /\
  decodeBase64StringEntry true (list_byte_of_string "AAAAAAB") = Ok None /\
  (forall gai ndebug O,
     getSectionName gai ndebug O section_bad_digit = Err parse_failed /\
     getSectionName gai ndebug O section_slashes = Err parse_failed /\
     getSectionName gai ndebug O section_AAAAAB = getString O 1).
Proof.
  split; [|split].
  - apply (proj1 base64_section_name_decoding false
             (list_byte_of_string "AAAAAB")).
    + cbn. lia.
    + exact in_alphabet_AAAAAB.
  - apply (proj1 (proj2 base64_section_name_decoding)).
    left. cbn. lia.
  - intros gai ndebug O. split; [|split].
    + apply (proj2 (proj2 base64_section_name_decoding)
               gai ndebug O section_bad_digit eq_refl eq_refl).
      intros Hall. cbn in Hall.
      inversion Hall as [|? ? _ Hall1]. inversion Hall1 as [|? ? _ Hall2].
      inversion Hall2 as [|? ? Hc _]. apply Hc. reflexivity.
    + apply (proj2 (proj2 base64_section_name_decoding)
               gai ndebug O section_slashes eq_refl eq_refl)
        with (v := 68719476735); reflexivity.
    + apply (proj2 (proj2 base64_section_name_decoding)
               gai ndebug O section_AAAAAB eq_refl eq_refl)
        with (v := 1); [reflexivity | discriminate].
Defined.

(* ----------------------------------------------------------------- *)
(** *** String table *)

Lemma getObject_in_range : forall M Ptr Size,
  0 <= Ptr -> 0 <= Size -> Ptr + Size <= getBufferEnd M ->
  getBufferEnd M < 2 ^ 64 ->
  getObject M Ptr Size = Ok Ptr.
Proof.
  intros M Ptr Size HP HS Hend Hwf.
  apply getObject_upper_bound; lia.
Qed.

Lemma getString_errors : forall O Offset,
  (StringTableSize O <= 4 -> getString O Offset = Err parse_failed) /\
  (StringTableSize O > 4 -> Offset >= StringTableSize O ->
     getString O Offset = Err unexpected_eof).
Proof.
  intros O Offset. unfold getString. split.
  - intros H.
    replace (StringTableSize O <=? 4) with true
      by (symmetry; apply Z.leb_le; lia).
    reflexivity.
  - intros H1 H2.
    replace (StringTableSize O <=? 4) with false
      by (symmetry; apply Z.leb_gt; lia).
    replace (Offset >=? StringTableSize O) with true
      by (symmetry; rewrite Z.geb_leb; apply Z.leb_le; lia).
    reflexivity.
Qed.

(** [initSymbolTablePtr] once its three range checks pass. *)
Lemma initSymbolTablePtr_in_range : forall O declared,
  buffer_wf (Data O) ->
  u32 (coff_file_header.PointerToSymbolTable (COFFHeader O)) ->
  u32 (coff_file_header.NumberOfSymbols (COFFHeader O)) ->
  string_table_addr O + Z.max declared 4 <= getBufferEnd (Data O) ->
  load32 (Data O) (string_table_addr O) = Ok declared ->
  initSymbolTablePtr O
  = let O' := mkCOFF (Data O) (COFFHeader O) (PE32Header O) (PE32PlusHeader O)
                (DataDirectory O) (SectionTable O)
                (base O + coff_file_header.PointerToSymbolTable (COFFHeader O))
                (string_table_addr O) (Z.max declared 4) in
    if Z.max declared 4 >? 4 then
      last <- load8 (Data O) (string_table_addr O + (declared - 1)) ;;
      if negb (last =? 0) then Err parse_failed else Ok O'
    else Ok O'.
Proof.
  intros O declared [Hb0 Hb1] [HP0 HP1] [HN0 HN1] Hend Hload.
  pose proof (load32_range _ _ _ Hload) as [Hd0 Hd1].
  unfold initSymbolTablePtr, string_table_addr, base, sizeof_coff_symbol in *.
  set (P := coff_file_header.PointerToSymbolTable (COFFHeader O)) in *.
  set (N := coff_file_header.NumberOfSymbols (COFFHeader O)) in *.
  set (B := BufferStart (Data O)) in *.
  set (End := getBufferEnd (Data O)) in *.
  unfold wrap_ptr.
  rewrite (wrap64_small (N * 18)) by lia.
  rewrite (wrap64_small (B + P)) by lia.
  rewrite (wrap64_small (B + P + N * 18)) by lia.
  replace (B + P + N * 18) with (B + P + 18 * N) by ring.
  rewrite (getObject_in_range (Data O) (B + P) (N * 18)) by (fold End; lia).
  cbn [bind].
  rewrite (getObject_in_range (Data O) (B + P + 18 * N) 4) by (fold End; lia).
  cbn [bind]. rewrite Hload. cbn [bind].
  rewrite (getObject_in_range (Data O) (B + P + 18 * N) declared)
    by (fold End; lia).
  cbn [bind].
  assert (Hmax : (if declared <? 4 then 4 else declared) = Z.max declared 4).
  { destruct (declared <? 4) eqn:E;
      [apply Z.ltb_lt in E | apply Z.ltb_ge in E]; lia. }
  rewrite Hmax.
  destruct (Z.max declared 4 >? 4) eqn:E; [|reflexivity].
  rewrite Z.gtb_ltb in E. apply Z.ltb_lt in E.
  replace (Z.max declared 4) with declared by lia.
  rewrite (wrap64_small (B + P + 18 * N + (declared - 1))) by lia.
  reflexivity.
Qed.

(** C7.  The string table contract, for an image whose symbol table,
    size field and declared string table lie inside the buffer: a
    declared size below 4 becomes 4; a table of more than 4 bytes whose
    last byte is not NUL makes initialisation fail with [parse_failed];
    and [getString] fails with [parse_failed] on an empty table (size
    [<= 4]) and, on a non-empty table, with [unexpected_eof] for an
    offset [>= size]. *)
Theorem string_table_contract : forall O declared,
  buffer_wf (Data O) ->
  u32 (coff_file_header.PointerToSymbolTable (COFFHeader O)) ->
  u32 (coff_file_header.NumberOfSymbols (COFFHeader O)) ->
  string_table_addr O + Z.max declared 4 <= getBufferEnd (Data O) ->
  load32 (Data O) (string_table_addr O) = Ok declared ->
  (declared < 4 ->
     exists O', initSymbolTablePtr O = Ok O' /\
                StringTable O' = string_table_addr O /\
                StringTableSize O' = 4) /\
  (declared > 4 ->
     forall last,
       load8 (Data O) (string_table_addr O + (declared - 1)) = Ok last ->
       last <> 0 ->
       initSymbolTablePtr O = Err parse_failed) /\
  (forall O', initSymbolTablePtr O = Ok O' ->
     StringTableSize O' = Z.max declared 4 /\
     forall Offset,
       (StringTableSize O' <= 4 -> getString O' Offset = Err parse_failed) /\
       (StringTableSize O' > 4 -> Offset >= StringTableSize O' ->
          getString O' Offset = Err unexpected_eof)).
Proof.
  intros O declared Hwf HP HN Hend Hload.
  rewrite (initSymbolTablePtr_in_range O declared Hwf HP HN Hend Hload).
  cbv zeta. split; [|split].
  - intros Hlt.
    replace (Z.max declared 4) with 4 by lia. cbn [Z.gtb Z.compare Pos.compare Pos.compare_cont].
    eexists. split; [reflexivity|]. split; reflexivity.
  - intros Hgt last Hlast Hnz.
    replace (Z.max declared 4 >? 4) with true
      by (symmetry; rewrite Z.gtb_ltb; apply Z.ltb_lt; lia).
    rewrite Hlast. cbn [bind].
    replace (last =? 0) with false by (symmetry; apply Z.eqb_neq; exact Hnz).
    reflexivity.
  - intros O' HO'. split; [|intros Offset; apply getString_errors].
    destruct (Z.max declared 4 >? 4).
    + destruct (load8 _ _) as [last| | |]; try discriminate.
      cbn [bind] in HO'. destruct (negb (last =? 0)); [discriminate|].
      apply Ok_inj in HO'. subst O'. reflexivity.
    + apply Ok_inj in HO'. subst O'. reflexivity.
Qed.

Lemma string_table_contract_witness :
  (exists O', initSymbolTablePtr object_size0_table = Ok O' /\
              StringTable O' = string_table_addr object_size0_table /\
              StringTableSize O' = 4) /\
  initSymbolTablePtr object_unterminated_table = Err parse_failed.
Proof.
  split.
  - apply (string_table_contract object_size0_table 0).
    + split; cbn; lia.
    + split; cbn; lia.
    + split; cbn; lia.
    + cbn. lia.
    + reflexivity.
    + lia.
  - apply (proj1 (proj2 (string_table_contract object_unterminated_table 6
             ltac:(split; cbn; lia) ltac:(split; cbn; lia)
             ltac:(split; cbn; lia) ltac:(cbn; lia) eq_refl)))
      with (last := 0x62).
    + lia.
    + reflexivity.
    + discriminate.
Defined.

(** After a successful initialisation of the NUL-terminated table the
    string at offset 4 is read back. *)
Example getString_terminated_table :
  (O' <- initSymbolTablePtr object_terminated_table ;; getString O' 4)
  = Ok (bytes_of [0x61]) /\
  (O' <- initSymbolTablePtr object_terminated_table ;; getString O' 6)
  = Err unexpected_eof /\
  (O' <- initSymbolTablePtr object_size0_table ;; getString O' 4)
  = Err parse_failed.
Proof. repeat split. Qed.

(* ----------------------------------------------------------------- *)
(** *** Export names *)

Lemma getRvaPtr_range : forall O Rva a,
  getRvaPtr O Rva = Ok a -> 0 <= a < 2 ^ 64.
Proof.
  intros O Rva a. unfold getRvaPtr. generalize (sections O) as secs.
  induction secs as [|s rest IH]; cbn [getRvaPtr_loop]; [discriminate|].
  destruct (_ && _); [|exact IH].
  intros H. apply Ok_inj in H. subst a. apply wrap64_range.
Qed.

Section ExportNames.

Import ExportDirectoryEntryRef.

Variable R : ExportDirectoryEntryRef.t.
Variable Start : Z.

Abbreviation NumEntries :=
  (export_directory_table_entry.NumberOfNamePointers (ExportTable R)).

Hypothesis Start_range : 0 <= Start.
Hypothesis table_in_address_space : Start + 2 * NumEntries < 2 ^ 64.

Lemma getSymbolName_loop_found : forall (n : nat) (fuel : nat) (k : Z),
  0 <= k -> k + Z.of_nat n < NumEntries -> (n < fuel)%nat ->
  (forall q, k <= q < k + Z.of_nat n -> other_ordinal R Start q) ->
  load16 (Data (OwningObject R)) (Start + 2 * (k + Z.of_nat n))
  = Ok (Index R) ->
  getSymbolName_loop R fuel (Start + 2 * k) (Start + 2 * NumEntries) k
  = name_at R (k + Z.of_nat n).
Proof.
  induction n as [|n IH]; intros fuel k Hk Hlt Hfuel Hother Hhit;
    (destruct fuel as [|fuel]; [lia|]); cbn [getSymbolName_loop];
    (replace (Start + 2 * k <? Start + 2 * NumEntries) with true
       by (symmetry; apply Z.ltb_lt; lia)).
  - replace (k + Z.of_nat 0) with k in * by lia.
    rewrite Hhit. cbn [bind]. rewrite Z.eqb_refl. reflexivity.
  - destruct (Hother k) as [v [Hv Hne]]; [lia|].
    rewrite Hv. cbn [bind].
    replace (v =? Index R) with false by (symmetry; apply Z.eqb_neq; exact Hne).
    cbn [negb]. unfold wrap_ptr. rewrite wrap64_small by lia.
    replace (Start + 2 * k + 2) with (Start + 2 * (k + 1)) by ring.
    rewrite (IH fuel (k + 1)); try lia.
    + f_equal. lia.
    + intros q Hq. apply Hother. lia.
    + rewrite <- Hhit. do 2 f_equal. lia.
Qed.

Lemma getSymbolName_loop_none : forall (n : nat) (fuel : nat) (k : Z),
  0 <= k -> k + Z.of_nat n = NumEntries -> (n <= fuel)%nat ->
  (forall q, k <= q < NumEntries -> other_ordinal R Start q) ->
  getSymbolName_loop R fuel (Start + 2 * k) (Start + 2 * NumEntries) k
  = Ok [].
Proof.
  induction n as [|n IH]; intros fuel k Hk Hlen Hfuel Hother.
  - assert (Hend : (Start + 2 * k <? Start + 2 * NumEntries) = false)
      by (apply Z.ltb_ge; lia).
    destruct fuel; cbn [getSymbolName_loop]; rewrite Hend; reflexivity.
  - destruct fuel as [|fuel]; [lia|]. cbn [getSymbolName_loop].
    replace (Start + 2 * k <? Start + 2 * NumEntries) with true
      by (symmetry; apply Z.ltb_lt; lia).
    destruct (Hother k) as [v [Hv Hne]]; [lia|].
    rewrite Hv. cbn [bind].
    replace (v =? Index R) with false by (symmetry; apply Z.eqb_neq; exact Hne).
    cbn [negb]. unfold wrap_ptr. rewrite wrap64_small by lia.
    replace (Start + 2 * k + 2) with (Start + 2 * (k + 1)) by ring.
    apply IH; try lia.
    intros q Hq. apply Hother. lia.
Qed.

End ExportNames.

(** C9.  [ExportDirectoryEntryRef::getSymbolName], for an ordinal table
    resolved to [Start] that lies in the address space: when position
    [p] is the first whose ordinal equals the index, the result is the
    NUL-terminated string at the RVA stored at position [p] of the
    name-pointer table; when none of the [NumberOfNamePointers]
    ordinals equals the index, the result is the empty string. *)
Theorem export_getSymbolName_spec :
  forall (R : ExportDirectoryEntryRef.t) (Start : Z),
  let Obj := ExportDirectoryEntryRef.OwningObject R in
  let Tab := ExportDirectoryEntryRef.ExportTable R in
  let NumEntries := export_directory_table_entry.NumberOfNamePointers Tab in
  getRvaPtr Obj (export_directory_table_entry.OrdinalTableRVA Tab) = Ok Start ->
  0 <= NumEntries ->
  Start + 2 * NumEntries < 2 ^ 64 ->
  (forall p,
     0 <= p < NumEntries ->
     (forall q, 0 <= q < p -> other_ordinal R Start q) ->
     load16 (Data Obj) (Start + 2 * p)
     = Ok (ExportDirectoryEntryRef.Index R) ->
     forall NamePtr NameRva NameAddr,
       getRvaPtr Obj (export_directory_table_entry.NamePointerRVA Tab)
       = Ok NamePtr ->
       load32 (Data Obj) (wrap_ptr (NamePtr + 4 * p)) = Ok NameRva ->
       getRvaPtr Obj NameRva = Ok NameAddr ->
       ExportDirectoryEntryRef.getSymbolName R = cstring (Data Obj) NameAddr) /\
  ((forall q, 0 <= q < NumEntries -> other_ordinal R Start q) ->
     ExportDirectoryEntryRef.getSymbolName R = Ok []).
Proof.
  intros R Start Obj Tab NumEntries HStart HN Hspace.
  pose proof (getRvaPtr_range _ _ _ HStart) as [HS0 _].
  unfold ExportDirectoryEntryRef.getSymbolName.
  fold Obj Tab. rewrite HStart. cbn [bind]. fold NumEntries.
  assert (HE : wrap_ptr (Start + 2 * NumEntries) = Start + 2 * NumEntries)
    by (apply wrap64_small; lia).
  rewrite HE. split.
  - intros p Hp Hbefore Hhit NamePtr NameRva NameAddr Hnp Hrva Haddr.
    pose proof (getSymbolName_loop_found R Start HS0 Hspace (Z.to_nat p)
                  (Z.to_nat NumEntries) 0) as Hloop.
    rewrite Z.add_0_l, Z2Nat.id in Hloop by lia.
    replace (Start + 2 * 0) with Start in Hloop by lia.
    fold Tab NumEntries in Hloop. rewrite Hloop; try lia.
    + unfold name_at. fold Obj Tab.
      rewrite Hnp. cbn [bind]. rewrite Hrva. cbn [bind]. rewrite Haddr.
      reflexivity.
    + intros q Hq. apply Hbefore. lia.
    + exact Hhit.
  - intros Hnone.
    pose proof (getSymbolName_loop_none R Start HS0 Hspace
                  (Z.to_nat NumEntries) (Z.to_nat NumEntries) 0) as Hloop.
    replace (Start + 2 * 0) with Start in Hloop by lia.
    fold Tab NumEntries in Hloop. apply Hloop; try lia.
    intros q Hq. apply Hnone. lia.
Qed.

Lemma export_getSymbolName_spec_witness :
  ExportDirectoryEntryRef.getSymbolName (export_entry 0) = Ok (bytes_of [0x67]) /\
  ExportDirectoryEntryRef.getSymbolName (export_entry 2) = Ok [].
Proof.
  split.
  - apply (proj1 (export_getSymbolName_spec (export_entry 0) 0x20000
                    eq_refl ltac:(cbn; lia) ltac:(cbn; lia)) 1)
      with (NamePtr := 0x20008) (NameRva := 0x1012) (NameAddr := 0x20012).
    + cbn. lia.
    + intros q Hq. assert (q = 0) by lia. subst q.
      exists 1. split; [reflexivity | discriminate].
    + reflexivity.
    + reflexivity.
    + reflexivity.
    + reflexivity.
  - apply (proj2 (export_getSymbolName_spec (export_entry 2) 0x20000
                    eq_refl ltac:(cbn; lia) ltac:(cbn; lia))).
    intros q Hq. cbn in Hq.
    assert (Hq' : q = 0 \/ q = 1) by lia.
    destruct Hq' as [-> | ->].
    + exists 1. split; [reflexivity | discriminate].
    + exists 0. split; [reflexivity | discriminate].
Defined.

Example export_getSymbolName_first_match :
  ExportDirectoryEntryRef.getSymbolName (export_entry 1) = Ok (bytes_of [0x66]).
Proof. reflexivity. Qed.

(* ----------------------------------------------------------------- *)
(** *** Bitmaps *)

Lemma land_pow2 : forall a n,
  0 <= n -> Z.land a (2 ^ n) = if Z.testbit a n then 2 ^ n else 0.
Proof.
  intros a n Hn. apply Z.bits_inj'. intros m Hm.
  rewrite Z.land_spec, Z.pow2_bits_eqb by lia.
  destruct (Z.eqb_spec n m) as [->|Hne].
  - destruct (Z.testbit a m).
    + rewrite Z.pow2_bits_eqb, Z.eqb_refl by lia. reflexivity.
    + rewrite Z.bits_0. reflexivity.
  - rewrite andb_false_r. destruct (Z.testbit a n).
    + rewrite Z.pow2_bits_eqb by lia. symmetry. apply Z.eqb_neq. exact Hne.
    + rewrite Z.bits_0. reflexivity.
Qed.

Lemma mark_shift : forall bit, 0 <= bit < 64 -> wrap64 (Z.shiftl 1 bit) = 2 ^ bit.
Proof.
  intros bit Hb. rewrite Z.shiftl_1_l. apply wrap64_small. split.
  - apply Z.pow_nonneg. lia.
  - apply Z.pow_lt_mono_r; lia.
Qed.

(** The test [Valid&(mark<<bit)] reads bit [bit] of [Valid]. *)
Lemma valid_bit_testbit : forall Valid bit,
  0 <= bit < 64 -> valid_bit Valid bit = Z.testbit Valid bit.
Proof.
  intros Valid bit Hb. unfold valid_bit.
  rewrite mark_shift by assumption. rewrite land_pow2 by lia.
  destruct (Z.testbit Valid bit).
  - assert (0 < 2 ^ bit) by (apply Z.pow_pos_nonneg; lia).
    replace (2 ^ bit =? 0) with false by (symmetry; apply Z.eqb_neq; lia).
    reflexivity.
  - reflexivity.
Qed.

Lemma countbits_loop_count : forall (n i : nat) bitvector count,
  (i + n <= 64)%nat -> 0 <= count -> count + Z.of_nat n < 2 ^ 32 ->
  countbits_loop n (Z.of_nat i) bitvector count
  = count + Z.of_nat (List.length (filter (Z.testbit bitvector)
                                          (map Z.of_nat (seq i n)))).
Proof.
  induction n as [|n IH]; intros i bitvector count Hi Hc Hlt;
    cbn [countbits_loop seq map filter].
  - cbn. lia.
  - fold (valid_bit bitvector (Z.of_nat i)).
    rewrite valid_bit_testbit by lia.
    replace (Z.of_nat i + 1) with (Z.of_nat (S i)) by lia.
    destruct (Z.testbit bitvector (Z.of_nat i)).
    + rewrite wrap32_small by lia. rewrite IH by lia.
      cbn [List.length]. lia.
    + rewrite IH by lia. reflexivity.
Qed.

(** [countbits] is the population count of the 64-bit bitmap. *)
Lemma countbits_popcount : forall bitvector,
  countbits bitvector = popcount bitvector.
Proof.
  intros bitvector. unfold countbits, popcount, table_ids.
  change (countbits_loop 64 0 bitvector 0)
    with (countbits_loop 64 (Z.of_nat 0) bitvector 0).
  rewrite (countbits_loop_count 64 0 bitvector 0);
    [rewrite Z.add_0_l; reflexivity | lia | lia
    | change (Z.of_nat 64) with 64; lia].
Qed.

Lemma popcount_range : forall v, 0 <= popcount v <= 64.
Proof.
  intros v. unfold popcount, table_ids.
  pose proof (filter_length_le (Z.testbit v) (map Z.of_nat (seq 0 64))) as H.
  rewrite length_map, length_seq in H. lia.
Qed.

(** The row-count loop reads exactly [n] 32-bit values. *)
Lemma read_rows_length : forall M n p rows q,
  read_rows M n p = Ok (rows, q) ->
  List.length rows = n /\ Forall u32 rows.
Proof.
  induction n as [|n IH]; intros p rows q H; cbn [read_rows] in H.
  - apply Ok_inj in H. injection H as <- <-. split; [reflexivity|constructor].
  - destruct (load32 M p) as [r| | |] eqn:Er; try discriminate.
    cbn [bind] in H.
    destruct (read_rows M n (wrap_ptr (p + 4))) as [[rest q']| | |] eqn:E;
      try discriminate.
    cbn [bind] in H. apply Ok_inj in H. injection H as <- <-.
    destruct (IH _ _ _ E) as [Hlen Hall]. split.
    + cbn. lia.
    + constructor; [|exact Hall]. apply load32_range in Er. exact Er.
Qed.

(* ----------------------------------------------------------------- *)
(** *** Per-table layout *)

Lemma layout_bits_in_range :
  Forall (fun e : Z * table_action => 0 <= fst e < 64) table_layout.
Proof. unfold table_layout. repeat constructor; cbn; lia. Qed.

Lemma taken_kinds_cons : forall Valid bit act es,
  taken_kinds Valid ((bit, act) :: es)
  = match act with
    | Supported k => if valid_bit Valid bit then [k] else []
    | Unsupported _ => []
    end ++ taken_kinds Valid es.
Proof. reflexivity. Qed.

(** Without a firing [assert] the entries run their supported branches
    in order. *)
Lemma setup_entries_run : forall ndebug Valid rows es ptr cur table,
  ndebug = true \/ some_asserted Valid es = false ->
  (table + List.length (taken_kinds Valid es) <= List.length rows)%nat ->
  setup_entries ndebug Valid rows es (ptr, cur, table)
  = Ok (run_plan rows (taken_kinds Valid es) (ptr, cur, table)).
Proof.
  intros ndebug Valid rows es. induction es as [|[bit act] es IH];
    intros ptr cur table Hmode Hlen.
  - reflexivity.
  - rewrite taken_kinds_cons in *. cbn [setup_entries setup_entry].
    cbn [some_asserted existsb] in Hmode. fold (some_asserted Valid es) in Hmode.
    destruct act as [k|msg]; destruct (valid_bit Valid bit) eqn:Ebit;
      cbn [app List.length] in *.
    + unfold rows_at.
      destruct (nth_error rows table) as [r|] eqn:Er.
      * cbn [bind]. rewrite IH by (try lia; exact Hmode).
        cbn [run_plan]. rewrite (nth_error_nth _ _ 0 Er). reflexivity.
      * apply nth_error_None in Er. lia.
    + cbn [bind]. apply IH; [exact Hmode | lia].
    + destruct Hmode as [-> | Hmode]; [|discriminate].
      cbn [assert_ bind]. apply IH; [now left | lia].
    + cbn [bind]. apply IH; [exact Hmode | lia].
Qed.

(** With assertions enabled the entries abort exactly when one of the
    [assert]s is reached. *)
Lemma setup_entries_abort : forall Valid rows es ptr cur table,
  (table + List.length (taken_kinds Valid es) <= List.length rows)%nat ->
  is_abort (setup_entries false Valid rows es (ptr, cur, table))
  = some_asserted Valid es.
Proof.
  intros Valid rows es. induction es as [|[bit act] es IH];
    intros ptr cur table Hlen.
  - reflexivity.
  - rewrite taken_kinds_cons in *. cbn [setup_entries setup_entry].
    cbn [some_asserted existsb]. fold (some_asserted Valid es).
    destruct act as [k|msg]; destruct (valid_bit Valid bit) eqn:Ebit;
      cbn [app List.length orb] in *.
    + unfold rows_at.
      destruct (nth_error rows table) as [r|] eqn:Er.
      * cbn [bind]. apply IH. lia.
      * apply nth_error_None in Er. lia.
    + cbn [bind]. apply IH. lia.
    + reflexivity.
    + cbn [bind]. apply IH. lia.
Qed.

Lemma some_asserted_testbit : forall Valid es,
  Forall (fun e : Z * table_action => 0 <= fst e < 64) es ->
  some_asserted Valid es = existsb (Z.testbit Valid) (asserted_of es).
Proof.
  intros Valid es H. induction H as [|[bit act] es Hbit _ IH].
  - reflexivity.
  - cbn [some_asserted existsb asserted_of flat_map].
    fold (some_asserted Valid es). fold (asserted_of es). rewrite IH.
    destruct act; cbn [app existsb]; [reflexivity|].
    rewrite valid_bit_testbit by exact Hbit. reflexivity.
Qed.

Lemma taken_kinds_length : forall Valid es,
  Forall (fun e : Z * table_action => 0 <= fst e < 64) es ->
  List.length (taken_kinds Valid es)
  = List.length (filter (Z.testbit Valid) (supported_of es)).
Proof.
  intros Valid es H. induction H as [|[bit act] es Hbit _ IH].
  - reflexivity.
  - rewrite taken_kinds_cons. cbn [supported_of flat_map].
    fold (supported_of es). rewrite length_app, IH.
    destruct act; cbn [app filter List.length]; [|reflexivity].
    rewrite valid_bit_testbit by exact Hbit.
    destruct (Z.testbit Valid bit); reflexivity.
Qed.

Lemma supported_ids_in_table_ids :
  NoDup (supported_of table_layout) /\ incl (supported_of table_layout) table_ids.
Proof.
  split.
  - cbn. repeat constructor; cbn; intuition discriminate.
  - intros k Hk. cbn in Hk.
    assert (Hr : 0 <= k < 64) by (intuition (subst; lia)).
    unfold table_ids. apply in_map_iff. exists (Z.to_nat k). split; [lia|].
    apply in_seq. lia.
Qed.

(** The supported branches taken are at most as many as the bits set. *)
Lemma taken_kinds_popcount : forall Valid,
  Z.of_nat (List.length (taken_kinds Valid table_layout)) <= popcount Valid.
Proof.
  intros Valid. rewrite taken_kinds_length by exact layout_bits_in_range.
  unfold popcount. apply inj_le.
  destruct supported_ids_in_table_ids as [Hnd Hincl].
  apply NoDup_incl_length.
  - apply NoDup_filter. exact Hnd.
  - intros k Hk. apply filter_In in Hk. apply filter_In.
    destruct Hk as [Hin Hbit]. split; [apply Hincl; exact Hin | exact Hbit].
Qed.

Lemma asserted_of_layout : asserted_of table_layout = asserted_tables.
Proof. reflexivity. Qed.

Lemma supported_of_layout : supported_of table_layout = map fst supported_tables.
Proof. reflexivity. Qed.

Lemma setupTablePointers_is_abort : forall ndebug p tabs,
  is_abort (setupTablePointers ndebug p tabs)
  = is_abort (setup_entries ndebug (clrmeta_tables_head.Valid tabs)
                (clrmeta_tables_head.Rows tabs) table_layout
                (clrmeta_tables_head.tablePtr tabs, p, O)).
Proof.
  intros ndebug p tabs. unfold setupTablePointers.
  destruct (setup_entries _ _ _ _ _) as [[[ptr cur] t]| | |]; reflexivity.
Qed.

(** C2, as the code has it.  In a build with assertions, and with the
    row array that [initMetadataTablesSetup] allocates
    ([popcount(Valid)] entries), [setupTablePointers] ends in a failed
    assertion exactly when [Valid] has the bit of one of the 31 tables
    it names without supporting them; the bits 0x03, 0x05, 0x07, 0x13,
    0x16, 0x1e, 0x1f and 0x2d to 0x3f are not tested and raise
    nothing. *)
Theorem setupTablePointers_asserts : forall MetadataIntPtr tabs,
  Z.of_nat (List.length (clrmeta_tables_head.Rows tabs))
  = popcount (clrmeta_tables_head.Valid tabs) ->
  ((exists msg, setupTablePointers false MetadataIntPtr tabs = Abort msg) <->
   (exists k, In k asserted_tables /\
              Z.testbit (clrmeta_tables_head.Valid tabs) k = true)).
Proof.
  intros p tabs Hrows.
  assert (Habort : is_abort (setupTablePointers false p tabs)
                   = existsb (Z.testbit (clrmeta_tables_head.Valid tabs))
                             asserted_tables).
  { rewrite setupTablePointers_is_abort, setup_entries_abort.
    - rewrite some_asserted_testbit by exact layout_bits_in_range.
      rewrite asserted_of_layout. reflexivity.
    - pose proof (taken_kinds_popcount (clrmeta_tables_head.Valid tabs)).
      cbn [Nat.add]. lia. }
  split.
  - intros [msg Hmsg]. rewrite Hmsg in Habort. cbn [is_abort] in Habort.
    symmetry in Habort. apply existsb_exists in Habort. exact Habort.
  - intros Hex. apply existsb_exists in Hex. rewrite <- Habort in Hex.
    destruct (setupTablePointers false p tabs) as [?|?| |msg];
      try discriminate.
    now exists msg.
Qed.

Lemma setupTablePointers_asserts_witness :
  exists msg, setupTablePointers false 0x1000 (tables_head 16 [5]) = Abort msg.
Proof.
  apply (proj2 (setupTablePointers_asserts 0x1000 (tables_head 16 [5])
                  eq_refl)).
  exists 4. split; [cbn; tauto | reflexivity].
Defined.

(** The bit of table 0x03 is none of the seven supported tables, and
    [setupTablePointers] returns without an assertion when it is set:
    the statement that every unsupported bit triggers the assertion
    fails. *)
Lemma setupTablePointers_untested_bit :
  ~ (forall MetadataIntPtr tabs,
       Z.of_nat (List.length (clrmeta_tables_head.Rows tabs))
       = popcount (clrmeta_tables_head.Valid tabs) ->
       (exists k, 0 <= k < 64 /\ ~ In k (map fst supported_tables) /\
                  Z.testbit (clrmeta_tables_head.Valid tabs) k = true) ->
       exists msg, setupTablePointers false MetadataIntPtr tabs = Abort msg).
Proof.
  intros H.
  destruct (H 0x1000 (tables_head 8 [5]) eq_refl) as [msg Hmsg].
  - exists 3. split; [lia|]. split; [|reflexivity].
    cbn. intuition discriminate.
  - discriminate Hmsg.
Qed.

(* ----------------------------------------------------------------- *)
(** *** Row counts and record sizes *)

Lemma pairs_eqb_eq : forall l l', pairs_eqb l l' = true -> l = l'.
Proof.
  induction l as [|[i a] l IH]; intros [|[j b] l'] H; cbn in H;
    try discriminate; [reflexivity|].
  apply andb_true_iff in H. destruct H as [Hab Hrest].
  apply andb_true_iff in Hab. destruct Hab as [Hi Ha].
  apply Nat.eqb_eq in Hi. apply Z.eqb_eq in Ha. cbn in Hi, Ha. subst.
  f_equal. apply IH. exact Hrest.
Qed.

Lemma existsb_eqb_In : forall x l, existsb (Z.eqb x) l = true -> In x l.
Proof.
  intros x l H. apply existsb_exists in H. destruct H as [y [Hin Heq]].
  apply Z.eqb_eq in Heq. subst. exact Hin.
Qed.

(** A bitmap of supported tables is one of the [2^7] combinations. *)
Lemma only_supported_cases : forall Valid,
  only_supported Valid -> In Valid supported_bitmaps.
Proof.
  intros Valid H. unfold only_supported in H.
  change supported_mask
    with (Z.lor (2 ^ 0) (Z.lor (2 ^ 1) (Z.lor (2 ^ 2) (Z.lor (2 ^ 6)
           (Z.lor (2 ^ 10) (Z.lor (2 ^ 17) (Z.lor (2 ^ 35) 0))))))) in H.
  rewrite !Z.land_lor_distr_r in H. rewrite !land_pow2 in H by lia.
  rewrite Z.land_0_r in H. rewrite <- H. apply existsb_eqb_In.
  destruct (Z.testbit Valid 0), (Z.testbit Valid 1), (Z.testbit Valid 2),
    (Z.testbit Valid 6), (Z.testbit Valid 10), (Z.testbit Valid 17),
    (Z.testbit Valid 35); vm_compute; reflexivity.
Qed.

Lemma layout_agrees_supported_bitmaps :
  forallb layout_agrees supported_bitmaps = true.
Proof. vm_compute. reflexivity. Qed.

Lemma layout_agrees_only_supported : forall Valid,
  only_supported Valid ->
  some_asserted Valid table_layout = false /\
  plan_pairs 0 (taken_kinds Valid table_layout) = present_supported Valid /\
  Z.of_nat (List.length (taken_kinds Valid table_layout)) = popcount Valid.
Proof.
  intros Valid H. apply only_supported_cases in H.
  pose proof layout_agrees_supported_bitmaps as Hall.
  rewrite forallb_forall in Hall. specialize (Hall Valid H).
  unfold layout_agrees in Hall.
  apply andb_true_iff in Hall. destruct Hall as [Hall Hcount].
  apply andb_true_iff in Hall. destruct Hall as [Hassert Hpairs].
  split; [|split].
  - destruct (some_asserted Valid table_layout); [discriminate|reflexivity].
  - apply pairs_eqb_eq. exact Hpairs.
  - apply Z.eqb_eq. exact Hcount.
Qed.

(** The cursor after a plan has advanced by the weighted sum of the
    rows it read, as a 64-bit address. *)
Lemma run_plan_cursor : forall rows plan ptr cur table,
  0 <= cur < 2 ^ 64 ->
  cursor_of (run_plan rows plan (ptr, cur, table))
  = wrap64 (cur + weighted_sum rows (plan_pairs table plan)).
Proof.
  intros rows plan. induction plan as [|k plan IH]; intros ptr cur table Hcur;
    cbn [run_plan plan_pairs weighted_sum fold_right].
  - rewrite Z.add_0_r, wrap64_small by assumption. reflexivity.
  - rewrite IH by apply wrap64_range.
    fold (weighted_sum rows (plan_pairs (S table) plan)).
    unfold wrap_ptr, wrap64, wrap.
    rewrite Zplus_mod_idemp_l. rewrite <- Z.add_assoc.
    rewrite (Z.add_comm cur), <- Z.add_assoc, Zplus_mod_idemp_l.
    f_equal. ring.
Qed.

Lemma nth_u32 : forall rows i, Forall u32 rows -> u32 (nth i rows 0).
Proof.
  intros rows i H. destruct (nth_in_or_default i rows 0) as [Hin|Hd].
  - rewrite Forall_forall in H. apply H. exact Hin.
  - rewrite Hd. unfold u32. lia.
Qed.

Lemma weighted_sum_bound : forall rows pairs,
  Forall u32 rows ->
  Forall (fun p : nat * Z => 0 <= snd p <= 20) pairs ->
  0 <= weighted_sum rows pairs <= 20 * 2 ^ 32 * Z.of_nat (List.length pairs).
Proof.
  intros rows pairs Hrows Hp. induction Hp as [|[i sz] pairs Hsz _ IH].
  - cbn. lia.
  - cbn [weighted_sum fold_right List.length].
    fold (weighted_sum rows pairs).
    pose proof (nth_u32 rows i Hrows) as [Hn0 Hn1]. cbn [snd] in Hsz.
    rewrite Nat2Z.inj_succ. nia.
Qed.

Lemma present_supported_sizes : forall Valid,
  Forall (fun p : nat * Z => 0 <= snd p <= 20) (present_supported Valid) /\
  (List.length (present_supported Valid) <= 7)%nat.
Proof.
  intros Valid. unfold present_supported. split.
  - apply Forall_forall. intros [i sz] Hin. apply in_map_iff in Hin.
    destruct Hin as [[k kind] [Heq _]]. injection Heq as <- <-.
    destruct kind; cbn; lia.
  - rewrite length_map.
    pose proof (filter_length_le (fun '(k, _) => Z.testbit Valid k)
                  supported_tables) as H.
    exact H.
Qed.

Lemma bind_inv : forall (A B : Type) (m : outcome A) (k : A -> outcome B) r,
  bind m k = Ok r -> exists a, m = Ok a /\ k a = Ok r.
Proof.
  intros A B m k r H. destruct m as [a| | |]; try discriminate H.
  exists a. split; [reflexivity | exact H].
Qed.

(** Peel the first step of a successful sequence. *)
Ltac bind_ok H x E :=
  apply bind_inv in H; destruct H as [x [E H]]; cbv beta iota zeta in H.

Lemma read_rows_cursor : forall M n p rows q,
  0 <= p < 2 ^ 64 -> read_rows M n p = Ok (rows, q) -> 0 <= q < 2 ^ 64.
Proof.
  induction n as [|n IH]; intros p rows q Hp H; cbn [read_rows] in H.
  - apply Ok_inj in H. injection H as <- <-. exact Hp.
  - bind_ok H r Er. bind_ok H rest E. destruct rest as [rest q'].
    apply Ok_inj in H. injection H as <- <-.
    apply (IH _ _ _ (wrap64_range _) E).
Qed.

Lemma setupTablePointers_keeps : forall ndebug p tabs tabs' q,
  setupTablePointers ndebug p tabs = Ok (tabs', q) ->
  clrmeta_tables_head.Valid tabs' = clrmeta_tables_head.Valid tabs /\
  clrmeta_tables_head.Rows tabs' = clrmeta_tables_head.Rows tabs.
Proof.
  intros ndebug p tabs tabs' q H. unfold setupTablePointers in H.
  bind_ok H st E. destruct st as [[ptr cur] t].
  apply Ok_inj in H. injection H as <- <-. split; reflexivity.
Qed.

(** For a bitmap of supported tables the layout routine returns, in
    both build modes, and the records take [records_size] bytes. *)
Lemma setupTablePointers_records : forall ndebug MetadataIntPtr tabs,
  only_supported (clrmeta_tables_head.Valid tabs) ->
  Z.of_nat (List.length (clrmeta_tables_head.Rows tabs))
  = popcount (clrmeta_tables_head.Valid tabs) ->
  Forall u32 (clrmeta_tables_head.Rows tabs) ->
  0 <= MetadataIntPtr < 2 ^ 64 ->
  exists tabs' q,
    setupTablePointers ndebug MetadataIntPtr tabs = Ok (tabs', q) /\
    wrap64 (q - MetadataIntPtr)
    = records_size (clrmeta_tables_head.Valid tabs)
                   (clrmeta_tables_head.Rows tabs).
Proof.
  intros ndebug p tabs Hsup Hlen Hrows Hp.
  destruct (layout_agrees_only_supported _ Hsup) as [Hassert [Hpairs Hcount]].
  unfold setupTablePointers.
  rewrite setup_entries_run; [|right; exact Hassert | cbn [Nat.add]; lia].
  cbn [bind].
  destruct (run_plan _ _ _) as [[ptr cur] t] eqn:Erun.
  eexists. eexists. split; [reflexivity|].
  assert (Hcur : cur = cursor_of (run_plan (clrmeta_tables_head.Rows tabs)
                   (taken_kinds (clrmeta_tables_head.Valid tabs) table_layout)
                   (clrmeta_tables_head.tablePtr tabs, p, O)))
    by (rewrite Erun; reflexivity).
  rewrite run_plan_cursor in Hcur by exact Hp. rewrite Hpairs in Hcur.
  unfold records_size.
  destruct (present_supported_sizes (clrmeta_tables_head.Valid tabs))
    as [Hsz Hn].
  pose proof (weighted_sum_bound _ _ Hrows Hsz) as Hb.
  subst cur. unfold wrap64, wrap.
  rewrite Zminus_mod_idemp_l.
  match goal with
  | |- (p + ?S - p) mod _ = _ => replace (p + S - p) with S by ring
  end.
  apply Z.mod_small. lia.
Qed.

(** The rows stored by [initMetadataTablesSetup] are as many as the
    bits of [Valid], and [p], [q] delimit the packed records. *)
Lemma initMetadataTablesSetup_rows : forall ndebug M MHeader h cursors,
  initMetadataTablesSetup_cursors ndebug M MHeader = Ok (h, cursors) ->
  exists tabs,
    clrmeta_header.MetaTables h = Some tabs /\
    Z.of_nat (List.length (clrmeta_tables_head.Rows tabs))
    = popcount (clrmeta_tables_head.Valid tabs) /\
    forall p q, cursors = Some (p, q) ->
      only_supported (clrmeta_tables_head.Valid tabs) ->
      wrap64 (q - p)
      = records_size (clrmeta_tables_head.Valid tabs)
                     (clrmeta_tables_head.Rows tabs).
Proof.
  intros ndebug M MHeader h cursors H.
  unfold initMetadataTablesSetup_cursors in H.
  bind_ok H p0 E0.
  destruct (p0 =? clrmeta_header.MetadataInitPtr MHeader).
  - apply Ok_inj in H. injection H as <- <-.
    exists clrmeta_tables_head.zero. split; [reflexivity|].
    split; [reflexivity|]. intros p q Hc. discriminate Hc.
  - bind_ok H Major E1. bind_ok H Minor E2. bind_ok H heap E3.
    bind_ok H Valid E4. bind_ok H Sorted E5. bind_ok H rp E6.
    destruct rp as [rows p]. bind_ok H tq E7. destruct tq as [tabs q].
    apply Ok_inj in H. injection H as <- <-.
    destruct (setupTablePointers_keeps _ _ _ _ _ E7) as [HV HR].
    cbn [clrmeta_tables_head.Valid clrmeta_tables_head.Rows] in HV, HR.
    destruct (read_rows_length _ _ _ _ _ E6) as [Hlen Hu32].
    pose proof (read_rows_cursor _ _ _ _ _ (wrap64_range _) E6) as Hp.
    assert (Hcount : Z.of_nat (List.length rows) = popcount Valid).
    { rewrite Hlen, countbits_popcount.
      pose proof (popcount_range Valid). lia. }
    exists tabs. split; [reflexivity|]. rewrite HV, HR.
    split; [exact Hcount|].
    intros p' q' Hc Hsup. injection Hc as <- <-.
    destruct (setupTablePointers_records ndebug p
                (clrmeta_tables_head.mk 0 Major Minor heap 0 Valid Sorted 0
                   rows clrTablePtr.zero) Hsup Hcount Hu32 Hp)
      as [tabs' [q' [Hrun Hsize]]].
    rewrite Hrun in E7. apply Ok_inj in E7. injection E7 as _ <-.
    exact Hsize.
Qed.

(** C8, as the code has it.  [countbits] is the population count; the
    rows that [initMetadataTablesSetup] reads are [popcount(Valid)];
    and when [Valid] has no bit outside the seven supported tables the
    layout routine returns and the packed records between its cursors
    take the sum, over the supported tables present, of the row count
    at the rank of the table times its record size (10, 6, 14, 14, 6,
    2 and 20 bytes). *)
Theorem metadata_rows_and_records :
  (forall bitvector, countbits bitvector = popcount bitvector) /\
  (forall ndebug M MHeader h cursors,
     initMetadataTablesSetup_cursors ndebug M MHeader = Ok (h, cursors) ->
     exists tabs,
       clrmeta_header.MetaTables h = Some tabs /\
       Z.of_nat (List.length (clrmeta_tables_head.Rows tabs))
       = popcount (clrmeta_tables_head.Valid tabs) /\
       forall p q, cursors = Some (p, q) ->
         only_supported (clrmeta_tables_head.Valid tabs) ->
         wrap64 (q - p)
         = records_size (clrmeta_tables_head.Valid tabs)
                        (clrmeta_tables_head.Rows tabs)) /\
  (forall ndebug MetadataIntPtr tabs,
     only_supported (clrmeta_tables_head.Valid tabs) ->
     Z.of_nat (List.length (clrmeta_tables_head.Rows tabs))
     = popcount (clrmeta_tables_head.Valid tabs) ->
     Forall u32 (clrmeta_tables_head.Rows tabs) ->
     0 <= MetadataIntPtr < 2 ^ 64 ->
     exists tabs' q,
       setupTablePointers ndebug MetadataIntPtr tabs = Ok (tabs', q) /\
       wrap64 (q - MetadataIntPtr)
       = records_size (clrmeta_tables_head.Valid tabs)
                      (clrmeta_tables_head.Rows tabs)).
Proof.
  split; [|split].
  - exact countbits_popcount.
  - exact initMetadataTablesSetup_rows.
  - exact setupTablePointers_records.
Qed.

Lemma metadata_rows_and_records_witness :
  exists tabs' q,
    setupTablePointers false 0x30050 (tables_head 0x800000003 [1; 2; 1])
    = Ok (tabs', q) /\
    wrap64 (q - 0x30050) = 1 * 10 + 2 * 6 + 1 * 20.
Proof.
  apply (proj2 (proj2 metadata_rows_and_records) false 0x30050
           (tables_head 0x800000003 [1; 2; 1])).
  - reflexivity.
  - reflexivity.
  - repeat constructor; unfold u32; cbn; lia.
  - lia.
Defined.

(** With the untested bit 0x03 set beside MethodDef (0x06) and the row
    counts [5; 7], the routine reads the count of table 0x03 for
    MethodDef and passes 70 bytes, where the MethodDef rows at rank 1
    take 98: the sum over the supported tables present is not what is
    consumed for every bitmap. *)
Lemma records_misaligned_by_untested_bit :
  ~ (forall ndebug MetadataIntPtr tabs tabs' q,
       Z.of_nat (List.length (clrmeta_tables_head.Rows tabs))
       = popcount (clrmeta_tables_head.Valid tabs) ->
       Forall u32 (clrmeta_tables_head.Rows tabs) ->
       0 <= MetadataIntPtr < 2 ^ 64 ->
       setupTablePointers ndebug MetadataIntPtr tabs = Ok (tabs', q) ->
       wrap64 (q - MetadataIntPtr)
       = records_size (clrmeta_tables_head.Valid tabs)
                      (clrmeta_tables_head.Rows tabs)).
Proof.
  intros H.
  assert (Hrun : exists tabs',
            setupTablePointers false 0x1000 (tables_head 72 [5; 7])
            = Ok (tabs', 0x1000 + 70))
    by (eexists; reflexivity).
  destruct Hrun as [tabs' Hrun].
  specialize (H false 0x1000 (tables_head 72 [5; 7]) tabs' (0x1000 + 70)
                eq_refl).
  assert (Hu : Forall u32 [5; 7]) by (repeat constructor; unfold u32; lia).
  specialize (H Hu ltac:(lia) Hrun).
  vm_compute in H. discriminate H.
Qed.

(** The managed image of the specification's scenario: Module has 1
    row, TypeRef 2 rows, AssemblyRef 1 row, every other supported table
    none, and the records take 42 bytes. *)
Example metadata_image_tables :
  exists h tabs,
    initMetadataPtr false metadata_image 0x30000 = Ok h /\
    clrmeta_header.MetaTables h = Some tabs /\
    clrmeta_tables_head.Rows tabs = [1; 2; 1] /\
    map (clrTablePtr.size_of (clrmeta_tables_head.tablePtr tabs))
        [tModule; tTypeRef; tTypeDef; tMethodDef; tMemberRef;
         tStandAloneSig; tAssemblyRef]
    = [1; 2; 0; 0; 0; 0; 1].
Proof. eexists. eexists. repeat split. Qed.

(* ----------------------------------------------------------------- *)
(** *** Metadata parsing returns no error code *)

Lemma bind_no_error :
  forall (A B : Type) ndebug (m : outcome A) (k : A -> outcome B),
  no_error_code ndebug m -> (forall a, no_error_code ndebug (k a)) ->
  no_error_code ndebug (bind m k).
Proof.
  intros A B ndebug m k Hm Hk. destruct m; cbn [bind no_error_code] in *;
    auto.
Qed.

Lemma load8_no_error : forall ndebug M a, no_error_code ndebug (load8 M a).
Proof.
  intros ndebug M a. unfold load8.
  destruct (_ && _); [|exact I]. destruct (nth_error _ _); exact I.
Qed.

Lemma load16_no_error : forall ndebug M a, no_error_code ndebug (load16 M a).
Proof.
  intros. unfold load16.
  repeat (apply bind_no_error; [apply load8_no_error | intros]). exact I.
Qed.

Lemma load32_no_error : forall ndebug M a, no_error_code ndebug (load32 M a).
Proof.
  intros. unfold load32.
  repeat (apply bind_no_error; [apply load16_no_error | intros]). exact I.
Qed.

Lemma load64_no_error : forall ndebug M a, no_error_code ndebug (load64 M a).
Proof.
  intros. unfold load64.
  repeat (apply bind_no_error; [apply load32_no_error | intros]). exact I.
Qed.

Lemma cstring_of_no_error : forall ndebug bs,
  no_error_code ndebug (cstring_of bs).
Proof.
  intros ndebug bs. induction bs as [|b rest IH]; cbn [cstring_of].
  - exact I.
  - destruct (byte_val b =? 0); [exact I|].
    apply bind_no_error; [exact IH | intros; exact I].
Qed.

Lemma strlen_no_error : forall ndebug M a, no_error_code ndebug (strlen M a).
Proof.
  intros. unfold strlen, cstring. apply bind_no_error; [|intros; exact I].
  destruct (_ && _); [apply cstring_of_no_error | exact I].
Qed.

Lemma strcmp_eq_no_error : forall ndebug M lit p,
  no_error_code ndebug (strcmp_eq M p lit).
Proof.
  intros ndebug M lit. induction lit as [|l rest IH]; intros p;
    cbn [strcmp_eq]; (apply bind_no_error; [apply load8_no_error | intros c]).
  - exact I.
  - destruct (c =? byte_val l); [apply IH | exact I].
Qed.

Lemma find_tables_stream_no_error : forall ndebug M hs n i p,
  no_error_code ndebug (find_tables_stream M hs n i p).
Proof.
  intros ndebug M hs n. induction n as [|n IH]; intros i p;
    cbn [find_tables_stream]; [exact I|].
  destruct (nth_error hs i); [|exact I].
  apply bind_no_error; [apply strcmp_eq_no_error | intros same].
  destruct same; [exact I | apply IH].
Qed.

Lemma read_rows_no_error : forall ndebug M n p,
  no_error_code ndebug (read_rows M n p).
Proof.
  intros ndebug M n. induction n as [|n IH]; intros p; cbn [read_rows];
    [exact I|].
  apply bind_no_error; [apply load32_no_error | intros r].
  apply bind_no_error; [apply IH | intros [rest q]; exact I].
Qed.

Lemma read_stream_headers_no_error : forall ndebug M n p,
  no_error_code ndebug (read_stream_headers M n p).
Proof.
  intros ndebug M n. induction n as [|n IH]; intros p;
    cbn [read_stream_headers]; [exact I|].
  apply bind_no_error; [apply load32_no_error | intros offset].
  apply bind_no_error; [apply load32_no_error | intros size].
  apply bind_no_error; [apply strlen_no_error | intros len].
  apply bind_no_error; [apply IH | intros [rest q]; exact I].
Qed.

Lemma setup_entries_no_error : forall ndebug Valid rows es st,
  no_error_code ndebug (setup_entries ndebug Valid rows es st).
Proof.
  intros ndebug Valid rows es. induction es as [|[bit act] es IH];
    intros [[ptr cur] table]; cbn [setup_entries]; [exact I|].
  apply bind_no_error; [|intros st'; apply IH].
  cbn [setup_entry]. destruct (valid_bit Valid bit); [|exact I].
  destruct act as [k|msg].
  - unfold rows_at. destruct (nth_error rows table); exact I.
  - unfold assert_. destruct ndebug; cbn; auto.
Qed.

Lemma setupTablePointers_no_error : forall ndebug p tabs,
  no_error_code ndebug (setupTablePointers ndebug p tabs).
Proof.
  intros. unfold setupTablePointers.
  apply bind_no_error; [apply setup_entries_no_error|].
  intros [[ptr cur] t]. exact I.
Qed.

Lemma initMetadataTablesSetup_cursors_no_error : forall ndebug M MHeader,
  no_error_code ndebug (initMetadataTablesSetup_cursors ndebug M MHeader).
Proof.
  intros. unfold initMetadataTablesSetup_cursors.
  apply bind_no_error; [apply find_tables_stream_no_error | intros p0].
  destruct (p0 =? clrmeta_header.MetadataInitPtr MHeader); [exact I|].
  cbv zeta.
  apply bind_no_error; [apply load8_no_error | intros Major].
  apply bind_no_error; [apply load8_no_error | intros Minor].
  apply bind_no_error; [apply load8_no_error | intros heap].
  apply bind_no_error; [apply load64_no_error | intros Valid].
  apply bind_no_error; [apply load64_no_error | intros Sorted].
  apply bind_no_error; [apply read_rows_no_error | intros [rows p]].
  apply bind_no_error; [apply setupTablePointers_no_error | intros [tabs q]].
  exact I.
Qed.

(** Neither [initMetadataPtr] nor [initMetadataTablesSetup] has an
    outcome that is an error code, and the signature is stored as
    found. *)
Lemma metadata_parsing_no_error_code : forall ndebug M,
  (forall MetadataIntPtr,
     no_error_code ndebug (initMetadataPtr ndebug M MetadataIntPtr)) /\
  (forall MHeader,
     no_error_code ndebug (initMetadataTablesSetup ndebug M MHeader)) /\
  (forall MetadataIntPtr h,
     initMetadataPtr ndebug M MetadataIntPtr = Ok h ->
     load32 M MetadataIntPtr = Ok (clrmeta_header.Signature h)).
Proof.
  intros ndebug M.
  assert (Hsetup : forall MHeader,
            no_error_code ndebug (initMetadataTablesSetup ndebug M MHeader)).
  { intros MHeader. unfold initMetadataTablesSetup.
    apply bind_no_error; [apply initMetadataTablesSetup_cursors_no_error|].
    intros [h c]. exact I. }
  split; [|split].
  - intros p. unfold initMetadataPtr. cbv zeta.
    apply bind_no_error; [apply load32_no_error | intros Signature].
    apply bind_no_error; [apply load16_no_error | intros Length].
    apply bind_no_error; [apply load16_no_error | intros Flags].
    apply bind_no_error; [apply load16_no_error | intros Streams].
    apply bind_no_error; [apply read_stream_headers_no_error|].
    intros [StreamHeaders q].
    match goal with
    | |- no_error_code _ (match ?o with _ => _ end) =>
        pose proof (Hsetup
          (clrmeta_header.mk p Signature 1 1 0 Length
             (wrap_ptr (wrap_ptr (wrap_ptr (wrap_ptr (wrap_ptr (p + 4) + 2)
                                            + 2) + 4) + 4))
             Flags Streams StreamHeaders None)) as Hs;
        destruct o; cbn [no_error_code] in *; auto
    end.
  - exact Hsetup.
  - intros p h H. unfold initMetadataPtr in H. cbv zeta in H.
    bind_ok H Signature E0. bind_ok H Length E1. bind_ok H Flags E2.
    bind_ok H Streams E3. bind_ok H sh E4. destruct sh as [StreamHeaders q].
    rewrite E0. f_equal.
    match type of H with
    | match ?o with _ => _ end = _ => destruct o as [h'| | |] eqn:Es
    end; try discriminate H.
    + apply Ok_inj in H. subst h'.
      unfold initMetadataTablesSetup, initMetadataTablesSetup_cursors in Es.
      bind_ok Es hc Ec. destruct hc as [h' c].
      apply Ok_inj in Es. subst h'.
      bind_ok Ec p0 Ep.
      destruct (p0 =? _) in Ec.
      * apply Ok_inj in Ec. injection Ec as <- _. reflexivity.
      * bind_ok Ec Major E5. bind_ok Ec Minor E6. bind_ok Ec heap E7.
        bind_ok Ec Valid E8. bind_ok Ec Sorted E9. bind_ok Ec rp E10.
        destruct rp as [rows p']. bind_ok Ec tq E11. destruct tq as [tabs q'].
        apply Ok_inj in Ec. injection Ec as <- _. reflexivity.
    + apply Ok_inj in H. subst h. reflexivity.
Qed.

(** The image whose signature is not [0x424A5342] is parsed like the
    one with the right signature. *)
Example metadata_bad_signature_accepted :
  is_ok (initMetadataPtr false metadata_image_bad_signature 0x30000) = true /\
  is_ok (initMetadataPtr true metadata_image_bad_signature 0x30000) = true /\
  load32 metadata_image_bad_signature 0x30000 = Ok 0xefbeadde.
Proof. repeat split. Qed.

(* ================================================================= *)
(** ** Further properties of the reader *)

(* ----------------------------------------------------------------- *)
(** *** Reads inside the buffer *)

Lemma load8_inside : forall M a,
  BufferStart M <= a < getBufferEnd M -> exists b, load8 M a = Ok b.
Proof.
  intros M a [H0 H1]. unfold load8.
  replace (BufferStart M <=? a) with true by (symmetry; apply Z.leb_le; lia).
  replace (a <? getBufferEnd M) with true by (symmetry; apply Z.ltb_lt; lia).
  cbn [andb].
  destruct (nth_error (BufferBytes M) (Z.to_nat (a - BufferStart M))) as [b|] eqn:E.
  - now exists (byte_val b).
  - apply nth_error_None in E. unfold getBufferEnd, getBufferSize in H1. lia.
Qed.

Lemma wrap_ptr_small : forall z, 0 <= z < 2 ^ 64 -> wrap_ptr z = z.
Proof. intros. apply wrap64_small. assumption. Qed.

(** X1.  [fixsize] rounds an [unsigned int] up to a multiple of 4: the
    result is the least multiple of 4 not below the argument, except
    for the three largest arguments, where the increments wrap and the
    result is 0. *)
Theorem fixsize_rounds_up : forall v,
  u32 v ->
  fixsize v mod 4 = 0 /\
  (v <= 2 ^ 32 - 4 -> v <= fixsize v < v + 4) /\
  (2 ^ 32 - 4 < v -> fixsize v = 0).
Proof.
  intros v [Hv0 Hv1]. split; [apply fixsize_multiple_of_4|]. split.
  - intros Hle. destruct (Z.eq_dec v (2 ^ 32 - 4)) as [->|Hne].
    + vm_compute. split; [discriminate | reflexivity].
    + apply fixsize_round_up. lia.
  - intros Hgt.
    assert (Hc : v = 2 ^ 32 - 3 \/ v = 2 ^ 32 - 2 \/ v = 2 ^ 32 - 1) by lia.
    destruct Hc as [-> | [-> | ->]]; reflexivity.
Qed.

Lemma fixsize_rounds_up_witness :
  fixsize 13 mod 4 = 0 /\ (13 <= fixsize 13 < 13 + 4) /\ fixsize (2 ^ 32 - 1) = 0.
Proof.
  split; [|split].
  - apply (fixsize_rounds_up 13). unfold u32. lia.
  - apply (fixsize_rounds_up 13); [unfold u32|]; lia.
  - apply (fixsize_rounds_up (2 ^ 32 - 1)); [unfold u32|]; lia.
Defined.

(* ----------------------------------------------------------------- *)
(** *** Virtual addresses *)

(** X2.  [getVaPtr] undoes the image base: for every 32-bit RVA the virtual
    address [ImageBase + Rva] (a [uint64_t]) resolves as the RVA does,
    with either optional header and in both build modes.  Without an
    optional header the image base is read through a null pointer. *)
Theorem getVaPtr_of_rva : forall ndebug O,
  (forall ImageBase Rva,
     image_base O = Some ImageBase -> 0 <= ImageBase < 2 ^ 64 -> u32 Rva ->
     getVaPtr ndebug O (wrap64 (ImageBase + Rva)) = getRvaPtr O Rva) /\
  (forall Addr, image_base O = None -> getVaPtr ndebug O Addr = Fault).
Proof.
  intros ndebug O. split.
  - intros ImageBase Rva Hbase Hib [HR0 HR1]. unfold getVaPtr.
    assert (Hread : match PE32Header O with
                    | Some h => Ok (pe32_header.ImageBase h)
                    | None =>
                        match PE32PlusHeader O with
                        | Some h => Ok (pe32plus_header.ImageBase h)
                        | None => Fault
                        end
                    end = Ok ImageBase).
    { unfold image_base in Hbase.
      destruct (PE32Header O); [congruence|].
      destruct (PE32PlusHeader O); cbn in Hbase; congruence. }
    rewrite Hread. cbn [bind].
    assert (Hrva : wrap64 (wrap64 (ImageBase + Rva) - ImageBase) = Rva).
    { unfold wrap64, wrap. rewrite Zminus_mod_idemp_l.
      replace (ImageBase + Rva - ImageBase) with Rva by ring.
      apply Z.mod_small. lia. }
    rewrite Hrva. unfold assert_, UINT32_MAX.
    replace (Rva <=? 4294967295) with true by (symmetry; apply Z.leb_le; lia).
    rewrite wrap32_small by (split; assumption).
    destruct ndebug; reflexivity.
  - intros Addr Hnone. unfold getVaPtr. unfold image_base in Hnone.
    destruct (PE32Header O); [discriminate|].
    destruct (PE32PlusHeader O); [discriminate|]. reflexivity.
Qed.

Lemma getVaPtr_of_rva_witness :
  getVaPtr false two_section_pe32 (wrap64 (0x400000 + 0x2010))
  = Ok (0x10000 + 0x1400 + 0x10).
Proof.
  rewrite (proj1 (getVaPtr_of_rva false two_section_pe32) 0x400000 0x2010
             eq_refl);
    [reflexivity | lia | unfold u32; lia].
Defined.

(* ----------------------------------------------------------------- *)
(** *** Section contents *)

(** X3.  [getSectionContents] checks the end of the raw data only, and that
    suffices: for a buffer mapped low in the address space it succeeds
    exactly when [PointerToRawData + SizeOfRawData] does not pass the
    size of the buffer, and then every byte of the range it returns is
    a byte of the buffer.  An empty section whose raw pointer lies
    behind the buffer is refused too. *)
Theorem getSectionContents_in_buffer : forall O Sec,
  low_mapped (Data O) ->
  u32 (coff_section.PointerToRawData Sec) ->
  u32 (coff_section.SizeOfRawData Sec) ->
  (coff_section.PointerToRawData Sec + coff_section.SizeOfRawData Sec
   <= getBufferSize (Data O) ->
     getSectionContents O Sec
     = Ok (base O + coff_section.PointerToRawData Sec,
           coff_section.SizeOfRawData Sec) /\
     forall i, 0 <= i < coff_section.SizeOfRawData Sec ->
       exists b,
         load8 (Data O) (base O + coff_section.PointerToRawData Sec + i)
         = Ok b) /\
  (coff_section.PointerToRawData Sec + coff_section.SizeOfRawData Sec
   > getBufferSize (Data O) ->
     getSectionContents O Sec = Err parse_failed).
Proof.
  intros O Sec [Hb0 Hb1] [HP0 HP1] [HS0 HS1].
  unfold getSectionContents, base, getBufferEnd in *.
  pose proof (Nat2Z.is_nonneg (List.length (BufferBytes (Data O)))) as Hlen.
  fold (getBufferSize (Data O)) in Hlen.
  unfold wrap_ptr.
  rewrite (wrap64_small (BufferStart (Data O) + coff_section.PointerToRawData Sec))
    by lia.
  rewrite wrap64_small by lia.
  split.
  - intros Hin.
    replace (BufferStart (Data O) + coff_section.PointerToRawData Sec
             + coff_section.SizeOfRawData Sec
             >? BufferStart (Data O) + getBufferSize (Data O)) with false
      by (symmetry; rewrite Z.gtb_ltb; apply Z.ltb_ge; lia).
    split; [reflexivity|].
    intros i Hi. apply load8_inside. unfold getBufferEnd. lia.
  - intros Hout.
    replace (BufferStart (Data O) + coff_section.PointerToRawData Sec
             + coff_section.SizeOfRawData Sec
             >? BufferStart (Data O) + getBufferSize (Data O)) with true
      by (symmetry; rewrite Z.gtb_ltb; apply Z.ltb_lt; lia).
    reflexivity.
Qed.

Lemma getSectionContents_in_buffer_witness :
  getSectionContents pe32_image_object (raw_section 0x200 0x200)
  = Ok (0x40200, 0x200) /\
  getSectionContents pe32_image_object (raw_section 0x200 0x300)
  = Err parse_failed.
Proof.
  split.
  - apply (proj1 (getSectionContents_in_buffer pe32_image_object
                    (raw_section 0x200 0x200)
                    ltac:(split; cbn; lia) ltac:(split; cbn; lia)
                    ltac:(split; cbn; lia))).
    cbn. lia.
  - apply (proj2 (getSectionContents_in_buffer pe32_image_object
                    (raw_section 0x200 0x300)
                    ltac:(split; cbn; lia) ltac:(split; cbn; lia)
                    ltac:(split; cbn; lia))).
    cbn. lia.
Defined.

(* ----------------------------------------------------------------- *)
(** *** Strings of the string table *)

Lemma cstring_of_before_nul : forall bs k b,
  nth_error bs k = Some b -> byte_val b = 0 ->
  exists s, cstring_of bs = Ok s /\ (List.length s <= k)%nat.
Proof.
  induction bs as [|c rest IH]; intros k b Hk Hb.
  - destruct k; discriminate Hk.
  - cbn [cstring_of]. destruct (byte_val c =? 0) eqn:Ec.
    + exists []. split; [reflexivity | cbn; lia].
    + destruct k as [|k].
      * cbn in Hk. injection Hk as ->. rewrite Hb in Ec. discriminate Ec.
      * cbn in Hk. destruct (IH k b Hk Hb) as [s [Hs Hlen]].
        rewrite Hs. cbn [bind]. exists (c :: s). split; [reflexivity|].
        cbn. lia.
Qed.

Lemma load8_nth_error : forall M a v,
  load8 M a = Ok v ->
  exists b, nth_error (BufferBytes M) (Z.to_nat (a - BufferStart M)) = Some b
            /\ byte_val b = v.
Proof.
  intros M a v. unfold load8. destruct (_ && _); [|discriminate].
  destruct (nth_error _ _) as [b|]; [|discriminate].
  intros H. apply Ok_inj in H. now exists b.
Qed.

(** The string that starts inside a buffer region whose last byte is
    NUL ends inside the region. *)
Lemma cstring_before_nul : forall M a e,
  BufferStart M <= a <= e -> load8 M e = Ok 0 ->
  exists s, cstring M a = Ok s /\ a + Z.of_nat (List.length s) <= e.
Proof.
  intros M a e [Ha0 Ha1] He.
  pose proof (load8_in_buffer _ _ _ He) as [He0 He1].
  destruct (load8_nth_error _ _ _ He) as [b [Hb Hz]].
  unfold cstring.
  replace (BufferStart M <=? a) with true by (symmetry; apply Z.leb_le; lia).
  replace (a <? getBufferEnd M) with true by (symmetry; apply Z.ltb_lt; lia).
  cbn [andb].
  destruct (cstring_of_before_nul
              (skipn (Z.to_nat (a - BufferStart M)) (BufferBytes M))
              (Z.to_nat (e - a)) b) as [s [Hs Hlen]].
  - rewrite nth_error_skipn.
    replace (Z.to_nat (a - BufferStart M) + Z.to_nat (e - a))%nat
      with (Z.to_nat (e - BufferStart M)) by lia.
    exact Hb.
  - exact Hz.
  - exists s. split; [exact Hs | lia].
Qed.

Lemma buffer_end_ge_start : forall M, BufferStart M <= getBufferEnd M.
Proof. intros M. unfold getBufferEnd, getBufferSize. lia. Qed.

(** What a successful [initSymbolTablePtr] has checked. *)
Lemma initSymbolTablePtr_success : forall O O',
  low_mapped (Data O) ->
  u32 (coff_file_header.PointerToSymbolTable (COFFHeader O)) ->
  u32 (coff_file_header.NumberOfSymbols (COFFHeader O)) ->
  initSymbolTablePtr O = Ok O' ->
  exists declared,
    load32 (Data O) (string_table_addr O) = Ok declared /\
    string_table_addr O + Z.max declared 4 <= getBufferEnd (Data O) /\
    O' = mkCOFF (Data O) (COFFHeader O) (PE32Header O) (PE32PlusHeader O)
           (DataDirectory O) (SectionTable O)
           (base O + coff_file_header.PointerToSymbolTable (COFFHeader O))
           (string_table_addr O) (Z.max declared 4) /\
    (Z.max declared 4 > 4 ->
       load8 (Data O) (string_table_addr O + (declared - 1)) = Ok 0).
Proof.
  intros O O' [Hb0 Hb1] [HP0 HP1] [HN0 HN1] H.
  pose proof (buffer_end_ge_start (Data O)) as Hge.
  unfold initSymbolTablePtr in H.
  set (P := coff_file_header.PointerToSymbolTable (COFFHeader O)) in *.
  set (N := coff_file_header.NumberOfSymbols (COFFHeader O)) in *.
  assert (HA : wrap_ptr (base O + P) = base O + P)
    by (apply wrap64_small; unfold base; lia).
  assert (HS : wrap64 (N * sizeof_coff_symbol) = sizeof_coff_symbol * N)
    by (unfold sizeof_coff_symbol; rewrite wrap64_small by lia; ring).
  assert (HT : wrap_ptr (base O + P + sizeof_coff_symbol * N)
               = string_table_addr O)
    by (unfold string_table_addr; fold P N; apply wrap64_small;
        unfold base, sizeof_coff_symbol; lia).
  rewrite HA, HS, HT in H.
  assert (Haddr : 0 <= string_table_addr O < 2 ^ 64)
    by (unfold string_table_addr, base, sizeof_coff_symbol; fold P N; lia).
  bind_ok H SymbolTable' E1. bind_ok H SizePtr E2.
  bind_ok H declared E3. bind_ok H StringTable' E4.
  pose proof (load32_range _ _ _ E3) as [Hd0 Hd1].
  (* the three range checks *)
  assert (R2 : string_table_addr O + 4 <= getBufferEnd (Data O)).
  { destruct (Z_le_gt_dec (string_table_addr O + 4) (getBufferEnd (Data O)))
      as [Hle|Hgt]; [exact Hle|].
    rewrite (proj2 (getObject_upper_bound (Data O) (string_table_addr O) 4
                      Haddr ltac:(lia))) in E2 by lia.
    discriminate E2. }
  assert (R3 : string_table_addr O + declared <= getBufferEnd (Data O)).
  { destruct (Z_le_gt_dec (string_table_addr O + declared)
                          (getBufferEnd (Data O))) as [Hle|Hgt]; [exact Hle|].
    rewrite (proj2 (getObject_upper_bound (Data O) (string_table_addr O)
                      declared Haddr ltac:(lia))) in E4 by lia.
    discriminate E4. }
  rewrite (getObject_in_range (Data O) (string_table_addr O) 4) in E2
    by lia.
  rewrite (getObject_in_range (Data O) (string_table_addr O) declared) in E4
    by lia.
  apply Ok_inj in E2, E4. subst SizePtr StringTable'.
  assert (R1 : getObject (Data O) (base O + P) (sizeof_coff_symbol * N)
               = Ok (base O + P)).
  { apply getObject_in_range; unfold sizeof_coff_symbol, base in *;
      unfold string_table_addr, base, sizeof_coff_symbol in R2;
      fold P N in R2; lia. }
  rewrite R1 in E1. apply Ok_inj in E1. subst SymbolTable'.
  assert (Hmax : (if declared <? 4 then 4 else declared) = Z.max declared 4).
  { destruct (declared <? 4) eqn:E;
      [apply Z.ltb_lt in E | apply Z.ltb_ge in E]; lia. }
  rewrite Hmax in H.
  exists declared. split; [exact E3|]. split; [lia|].
  destruct (Z.max declared 4 >? 4) eqn:Egt.
  - rewrite Z.gtb_ltb in Egt. apply Z.ltb_lt in Egt.
    bind_ok H lastb E5.
    replace (Z.max declared 4) with declared in E5 by lia.
    rewrite wrap_ptr_small in E5 by lia.
    destruct (lastb =? 0) eqn:El; cbn [negb] in H; [|discriminate H].
    apply Z.eqb_eq in El. subst lastb.
    apply Ok_inj in H. split; [symmetry; exact H|]. intros _. exact E5.
  - apply Ok_inj in H. split; [symmetry; exact H|].
    rewrite Z.gtb_ltb in Egt. apply Z.ltb_ge in Egt. lia.
Qed.

(** X4.  After a successful [initSymbolTablePtr], [getString] never reads
    behind the string table: for every offset inside a non-empty table
    it returns a string that ends before the end of the table. *)
Theorem getString_stays_in_table : forall O O' Offset,
  low_mapped (Data O) ->
  u32 (coff_file_header.PointerToSymbolTable (COFFHeader O)) ->
  u32 (coff_file_header.NumberOfSymbols (COFFHeader O)) ->
  initSymbolTablePtr O = Ok O' ->
  StringTableSize O' > 4 ->
  0 <= Offset < StringTableSize O' ->
  exists s,
    getString O' Offset = Ok s /\
    Offset + Z.of_nat (List.length s) < StringTableSize O' /\
    StringTable O' + StringTableSize O' <= getBufferEnd (Data O').
Proof.
  intros O O' Offset Hlow HP HN Hinit Hsize Hoff.
  destruct (initSymbolTablePtr_success O O' Hlow HP HN Hinit)
    as [declared [Hload [Hend [-> Hnul]]]].
  cbn [StringTableSize StringTable Data] in *.
  specialize (Hnul Hsize).
  destruct Hlow as [Hb0 Hb1]. destruct HP as [HP0 HP1].
  destruct HN as [HN0 HN1].
  pose proof (buffer_end_ge_start (Data O)) as Hge.
  assert (Haddr : BufferStart (Data O) <= string_table_addr O)
    by (unfold string_table_addr, base, sizeof_coff_symbol; lia).
  assert (Hd : Z.max declared 4 = declared) by lia.
  rewrite Hd in *.
  unfold getString. cbn [StringTableSize StringTable Data].
  replace (declared <=? 4) with false by (symmetry; apply Z.leb_gt; lia).
  replace (Offset >=? declared) with false
    by (symmetry; rewrite Z.geb_leb; apply Z.leb_gt; lia).
  rewrite wrap_ptr_small by lia.
  destruct (cstring_before_nul (Data O) (string_table_addr O + Offset)
              (string_table_addr O + (declared - 1))) as [s [Hs Hlen]];
    [lia | exact Hnul |].
  exists s. split; [exact Hs|]. split; lia.
Qed.

Lemma getString_stays_in_table_witness :
  exists s,
    getString
      (mkCOFF (Data object_terminated_table)
         (COFFHeader object_terminated_table) None None 0 []
         0x10004 0x10004 6) 5 = Ok s /\
    5 + Z.of_nat (List.length s) < 6 /\
    0x10004 + 6 <= getBufferEnd (Data object_terminated_table).
Proof.
  apply (getString_stays_in_table object_terminated_table
           (mkCOFF (Data object_terminated_table)
              (COFFHeader object_terminated_table) None None 0 []
              0x10004 0x10004 6) 5).
  - split; cbn; lia.
  - split; cbn; lia.
  - split; cbn; lia.
  - reflexivity.
  - cbn. lia.
  - cbn. lia.
Defined.

(* ----------------------------------------------------------------- *)
(** *** Symbols *)

Lemma read_chars_length : forall M n p chars,
  read_chars M p n = Ok chars -> List.length chars = n.
Proof.
  induction n as [|n IH]; intros p chars H; cbn [read_chars] in H.
  - apply Ok_inj in H. subst. reflexivity.
  - destruct (_ && _); [|discriminate H].
    destruct (nth_error _ _) as [b|]; [|discriminate H].
    bind_ok H rest E. apply Ok_inj in H. subst chars.
    cbn. f_equal. apply (IH _ _ E).
Qed.

Lemma skipn_S_nth_error : forall (n : nat) (l : list byte) (k : nat) b,
  nth_error l k = Some b ->
  b :: firstn n (skipn (S k) l) = firstn (S n) (skipn k l).
Proof.
  intros n. induction l as [|x l IHl]; intros [|k] b Eb; cbn in Eb;
    try discriminate Eb.
  - injection Eb as ->. reflexivity.
  - change (skipn (S (S k)) (x :: l)) with (skipn (S k) l).
    change (skipn (S k) (x :: l)) with (skipn k l).
    apply IHl. exact Eb.
Qed.

(** The characters read are the bytes of the buffer from [p] on. *)
Lemma read_chars_skipn : forall M n p chars,
  getBufferEnd M < 2 ^ 64 -> 0 <= BufferStart M ->
  read_chars M p n = Ok chars ->
  chars = firstn n (skipn (Z.to_nat (p - BufferStart M)) (BufferBytes M)).
Proof.
  induction n as [|n IH]; intros p chars Hend Hstart H; cbn [read_chars] in H.
  - apply Ok_inj in H. subst. reflexivity.
  - destruct (_ && _) eqn:Ein; [|discriminate H].
    apply andb_true_iff in Ein. destruct Ein as [E0 E1].
    apply Z.leb_le in E0. apply Z.ltb_lt in E1.
    destruct (nth_error _ _) as [b|] eqn:Eb; [|discriminate H].
    bind_ok H rest E. apply Ok_inj in H. subst chars.
    rewrite wrap_ptr_small in E by lia.
    apply IH in E; [|assumption|assumption]. subst rest.
    replace (Z.to_nat (p + 1 - BufferStart M))
      with (S (Z.to_nat (p - BufferStart M))) by lia.
    apply skipn_S_nth_error. exact Eb.
Qed.

Lemma cstring_of_until_nul : forall l k,
  (k < List.length l)%nat -> byte_val (nth k l x00) = 0 ->
  cstring_of l = Ok (until_nul l).
Proof.
  induction l as [|c rest IH]; intros k Hk Hz; cbn in Hk; [lia|].
  cbn [cstring_of until_nul]. destruct (byte_val c =? 0) eqn:Ec;
    [reflexivity|].
  destruct k as [|k]; [cbn in Hz; rewrite Hz in Ec; discriminate Ec|].
  rewrite (IH k); [reflexivity | lia | exact Hz].
Qed.

Lemma until_nul_firstn : forall n l k,
  (k < n)%nat -> byte_val (nth k l x00) = 0 ->
  until_nul (firstn n l) = until_nul l.
Proof.
  induction n as [|n IH]; intros l k Hk Hz; [lia|].
  destruct l as [|c rest]; [reflexivity|]. cbn [firstn until_nul].
  destruct (byte_val c =? 0) eqn:Ec; [reflexivity|].
  destruct k as [|k]; [cbn in Hz; rewrite Hz in Ec; discriminate Ec|].
  f_equal. apply (IH rest k); [lia | exact Hz].
Qed.

Lemma nth_firstn_lt : forall (n k : nat) (l : list byte),
  (k < n)%nat -> nth k (firstn n l) x00 = nth k l x00.
Proof.
  induction n as [|n IH]; intros k l Hk; [lia|].
  destruct l as [|c rest]; [destruct k; reflexivity|].
  destruct k as [|k]; [reflexivity|]. cbn. apply IH. lia.
Qed.

(** X5.  [COFFObjectFile::getSymbolName]: a symbol whose first four name
    bytes are not all zero has its name inline, and the result is
    decided by the eight name bytes alone, without the string table:
    all eight when the last is not NUL, otherwise those before the
    first NUL.  When the four bytes are zero the name, and every
    error, is that of [getString] at the stored offset. *)
Theorem getSymbolName_inline_or_table : forall O Symbol,
  low_mapped (Data O) -> 0 <= Symbol ->
  (forall chars Zeroes,
     read_chars (Data O) Symbol 8 = Ok chars ->
     load32 (Data O) Symbol = Ok Zeroes -> Zeroes <> 0 ->
     getSymbolName O Symbol
     = Ok (if byte_val (nth 7 chars x00) =? 0 then until_nul chars
           else chars) /\
     (forall name, getSymbolName O Symbol = Ok name ->
                   (List.length name <= 8)%nat)) /\
  (forall Offset,
     load32 (Data O) Symbol = Ok 0 ->
     load32 (Data O) (Symbol + 4) = Ok Offset ->
     getSymbolName O Symbol = getString O Offset).
Proof.
  intros O Symbol [Hb0 Hb1] HS.
  pose proof (buffer_end_ge_start (Data O)) as Hge.
  split.
  - intros chars Zeroes Hchars HZ Hnz.
    assert (Hres : getSymbolName O Symbol
                   = Ok (if byte_val (nth 7 chars x00) =? 0
                         then until_nul chars else chars)).
    { unfold getSymbolName. rewrite HZ. cbn [bind].
      replace (Zeroes =? 0) with false by (symmetry; apply Z.eqb_neq; exact Hnz).
      pose proof (read_chars_length _ _ _ _ Hchars) as Hlen.
      assert (Hend : getBufferEnd (Data O) < 2 ^ 64) by lia.
      pose proof (read_chars_skipn _ _ _ _ Hend Hb0 Hchars) as Hsk.
      (* the symbol lies in the buffer *)
      assert (Hin : BufferStart (Data O) <= Symbol
                    /\ Symbol + 8 <= getBufferEnd (Data O)).
      { cbn [read_chars] in Hchars.
        destruct (_ && _) eqn:Ein in Hchars; [|discriminate Hchars].
        apply andb_true_iff in Ein. destruct Ein as [E0 _].
        apply Z.leb_le in E0. split; [exact E0|].
        rewrite Hsk in Hlen. rewrite length_firstn, length_skipn in Hlen.
        unfold getBufferEnd, getBufferSize. lia. }
      rewrite wrap_ptr_small by lia.
      destruct (load8_inside (Data O) (Symbol + 7) ltac:(lia)) as [b7 Hb7].
      rewrite Hb7. cbn [bind].
      destruct (load8_nth_error _ _ _ Hb7) as [b [Hnth Hval]].
      assert (H7 : nth 7 chars x00 = b).
      { rewrite Hsk. rewrite nth_firstn_lt by lia.
        apply nth_error_nth.
        rewrite nth_error_skipn.
        replace (Z.to_nat (Symbol - BufferStart (Data O)) + 7)%nat
          with (Z.to_nat (Symbol + 7 - BufferStart (Data O))) by lia.
        exact Hnth. }
      rewrite H7, Hval.
      destruct (b7 =? 0) eqn:E7; [|exact Hchars].
      apply Z.eqb_eq in E7. rewrite E7 in Hval.
      unfold cstring.
      replace (BufferStart (Data O) <=? Symbol) with true
        by (symmetry; apply Z.leb_le; lia).
      replace (Symbol <? getBufferEnd (Data O)) with true
        by (symmetry; apply Z.ltb_lt; lia).
      cbn [andb].
      set (l := skipn (Z.to_nat (Symbol - BufferStart (Data O)))
                      (BufferBytes (Data O))) in *.
      assert (Hz7 : byte_val (nth 7 l x00) = 0).
      { rewrite <- (nth_firstn_lt 8 7 l) by lia. rewrite <- Hsk, H7.
        exact Hval. }
      assert (Hl : (8 <= List.length l)%nat).
      { rewrite Hsk, length_firstn in Hlen. lia. }
      rewrite (cstring_of_until_nul l 7) by (try lia; exact Hz7).
      rewrite Hsk. rewrite (until_nul_firstn 8 l 7) by (try lia; exact Hz7).
      reflexivity. }
    split; [exact Hres|].
    intros name Hname. rewrite Hres in Hname. apply Ok_inj in Hname.
    subst name. pose proof (read_chars_length _ _ _ _ Hchars) as Hlen.
    destruct (byte_val (nth 7 chars x00) =? 0) eqn:E7; [|lia].
    apply Z.eqb_eq in E7. pose proof (until_nul_length 7 chars E7). lia.
  - intros Offset HZ Hoff. unfold getSymbolName. rewrite HZ. cbn [bind].
    assert (Hin : Symbol + 4 < 2 ^ 64).
    { pose proof (load32_range _ _ _ Hoff).
      unfold load32, load16 in Hoff.
      destruct (load8 (Data O) (Symbol + 4)) as [b| | |] eqn:E;
        try discriminate Hoff.
      apply load8_in_buffer in E. lia. }
    rewrite wrap_ptr_small by lia. rewrite Hoff. reflexivity.
Qed.

Lemma getSymbolName_inline_or_table_witness :
  getSymbolName coff_object_file 327744
  = Ok (list_byte_of_string "main") /\
  getSymbolName coff_object_file 327780 = getString coff_object_file 4.
Proof.
  assert (L : low_mapped (Data coff_object_file))
    by (split; vm_compute; discriminate).
  assert (P0 : 0 <= 327744) by lia.
  assert (P1 : 0 <= 327780) by lia.
  exact (conj
    (proj1 (proj1 (getSymbolName_inline_or_table coff_object_file 327744 L P0)
                  _ _ eq_refl eq_refl ltac:(discriminate)))
    (proj2 (getSymbolName_inline_or_table coff_object_file 327780 L P1)
           4 eq_refl eq_refl)).
Defined.

Lemma sext16_small : forall z, 0 <= z < 32768 -> sext16 z = z.
Proof.
  intros z H. unfold sext16.
  replace (z <? 32768) with true by (symmetry; apply Z.ltb_lt; lia).
  reflexivity.
Qed.

Lemma wrap32_sub : forall a b, u32 a -> u32 b ->
  wrap32 (a - b) = if b <=? a then a - b else a - b + 2 ^ 32.
Proof.
  intros a b Ha Hb. unfold u32 in *. unfold wrap32, wrap.
  destruct (b <=? a) eqn:E.
  - apply Z.leb_le in E. apply Z.mod_small. lia.
  - apply Z.leb_gt in E. symmetry.
    apply Z.mod_unique with (q := -1); [left|]; lia.
Qed.

(** X6.  [getSymbolSize], [getSymbolAddress] and [getSymbolFileOffset] of a
    symbol whose reference passes [toSymb], by its section number [n]
    (the signed 16-bit field at offset 12): outside [-2 .. NumberOfSections]
    all three fail with [parse_failed]; for the absolute and the debug
    sentinel the size is 0 and address and file offset are the symbol's
    value; for a section of the table the address and the file offset
    are the section's plus the value, reduced modulo [2^32], and the
    size is the raw size minus the value, which wraps to just below
    [2^32] when the value exceeds the raw size. *)
Theorem symbol_queries_by_section : forall U ndebug O Ref sn v,
  0 <= Ref -> Ref + 18 <= 2 ^ 64 ->
  toSymb ndebug O Ref = Ok Ref ->
  load16 (Data O) (Ref + 12) = Ok sn ->
  load32 (Data O) (Ref + 8) = Ok v ->
  0 <= coff_file_header.NumberOfSections (COFFHeader O) ->
  let n := sext16 sn in
  let N := coff_file_header.NumberOfSections (COFFHeader O) in
  (n < -2 \/ N < n ->
     getSymbolSize U ndebug O Ref = Err parse_failed /\
     getSymbolAddress U ndebug O Ref = Err parse_failed /\
     getSymbolFileOffset U ndebug O Ref = Err parse_failed) /\
  (n = IMAGE_SYM_ABSOLUTE \/ n = IMAGE_SYM_DEBUG ->
     getSymbolSize U ndebug O Ref = Ok 0 /\
     getSymbolAddress U ndebug O Ref = Ok v /\
     getSymbolFileOffset U ndebug O Ref = Ok v) /\
  (forall s,
     1 <= n <= N ->
     nth_error (SectionTable O) (Z.to_nat (n - 1)) = Some s ->
     u32 (coff_section.SizeOfRawData s) ->
     getSymbolSize U ndebug O Ref
     = Ok (if v <=? coff_section.SizeOfRawData s
           then coff_section.SizeOfRawData s - v
           else coff_section.SizeOfRawData s - v + 2 ^ 32) /\
     getSymbolAddress U ndebug O Ref
     = Ok ((coff_section.VirtualAddress s + v) mod 2 ^ 32) /\
     getSymbolFileOffset U ndebug O Ref
     = Ok ((coff_section.PointerToRawData s + v) mod 2 ^ 32)).
Proof.
  intros U ndebug O Ref sn v H0 H1 Hsymb Hsn Hv HN0 n N.
  fold N in HN0.
  assert (W12 : wrap_ptr (Ref + 12) = Ref + 12) by (apply wrap_ptr_small; lia).
  assert (W8 : wrap_ptr (Ref + 8) = Ref + 8) by (apply wrap_ptr_small; lia).
  unfold getSymbolSize, getSymbolAddress, getSymbolFileOffset.
  rewrite Hsymb. cbn [bind]. rewrite W12, W8, Hsn. cbn [bind].
  fold n. unfold getSection. fold N.
  unfold IMAGE_SYM_UNDEFINED, IMAGE_SYM_ABSOLUTE, IMAGE_SYM_DEBUG.
  split; [|split].
  - intros Hout.
    replace (n =? 0) with false by (symmetry; apply Z.eqb_neq; lia).
    replace (n =? -1) with false by (symmetry; apply Z.eqb_neq; lia).
    replace (n =? -2) with false by (symmetry; apply Z.eqb_neq; lia).
    cbn [orb].
    replace ((n >? 0) && (n <=? N)) with false; [repeat split|].
    symmetry. apply andb_false_iff. rewrite Z.gtb_ltb.
    destruct Hout; [left; apply Z.ltb_ge | right; apply Z.leb_gt]; lia.
  - intros [Hn | Hn]; rewrite Hn; cbn; rewrite Hv; repeat split.
  - intros s Hn Hs Hraw.
    replace (n =? 0) with false by (symmetry; apply Z.eqb_neq; lia).
    replace (n =? -1) with false by (symmetry; apply Z.eqb_neq; lia).
    replace (n =? -2) with false by (symmetry; apply Z.eqb_neq; lia).
    cbn [orb].
    replace ((n >? 0) && (n <=? N)) with true.
    2:{ symmetry. apply andb_true_iff. rewrite Z.gtb_ltb.
        split; [apply Z.ltb_lt | apply Z.leb_le]; lia. }
    rewrite Hs. cbn [bind]. rewrite Hv. cbn [bind].
    pose proof (load32_range _ _ _ Hv) as Rv.
    rewrite (wrap32_sub _ _ Hraw Rv).
    repeat split.
Qed.

Lemma symbol_queries_by_section_witness :
  getSymbolSize 0 false coff_object_file 327780 = Ok 2 /\
  getSymbolAddress 0 false coff_object_file 327780 = Ok 2 /\
  getSymbolFileOffset 0 false coff_object_file 327780 = Ok 62.
Proof.
  assert (P0 : 0 <= 327780) by lia.
  assert (P1 : 327780 + 18 <= 2 ^ 64) by lia.
  assert (R : 1 <= sext16 1 <= 1) by (vm_compute; split; discriminate).
  assert (S4 : u32 4) by (unfold u32; lia).
  assert (N0 : 0 <= 1) by lia.
  exact (proj2 (proj2 (symbol_queries_by_section 0 false coff_object_file
                          327780 1 2 P0 P1 eq_refl eq_refl eq_refl N0))
           _ R eq_refl S4).
Defined.

(* ----------------------------------------------------------------- *)
(** *** Symbol references *)

Section SymbolTableGeometry.

Variable O : COFFObjectFile.
Hypothesis Hmapped : low_mapped (Data O).
Hypothesis HP : u32 (coff_file_header.PointerToSymbolTable (COFFHeader O)).
Hypothesis HN : u32 (coff_file_header.NumberOfSymbols (COFFHeader O)).

Lemma symbol_addr_range : forall k,
  0 <= k <= 2 ^ 32 + 256 ->
  base O <= symbol_addr O k < 2 ^ 64.
Proof.
  intros k Hk. unfold symbol_addr, sizeof_coff_symbol, base.
  destruct Hmapped as [M0 M1]. unfold u32 in *.
  pose proof (buffer_end_ge_start (Data O)).
  change (2 ^ 40) with 1099511627776 in M1.
  change (2 ^ 32) with 4294967296 in *. lia.
Qed.

(** The checks of the debug build pass at the entries of the table. *)
Lemma toSymb_table_entry : forall ndebug k,
  0 <= k < coff_file_header.NumberOfSymbols (COFFHeader O) ->
  toSymb ndebug O (symbol_addr O k) = Ok (symbol_addr O k).
Proof.
  intros ndebug k Hk. unfold toSymb. destruct ndebug; [reflexivity|].
  cbv zeta.
  pose proof (symbol_addr_range k) as R.
  unfold u32 in *. change (2 ^ 32) with 4294967296 in *.
  specialize (R ltac:(lia)).
  set (P := coff_file_header.PointerToSymbolTable (COFFHeader O)) in *.
  set (N := coff_file_header.NumberOfSymbols (COFFHeader O)) in *.
  assert (B0 : 0 <= base O) by (destruct Hmapped as [M0 _]; exact M0).
  assert (E : wrap_ptr (symbol_addr O k - base O) = P + 18 * k).
  { rewrite wrap_ptr_small by lia.
    unfold symbol_addr, sizeof_coff_symbol. fold P. lia. }
  rewrite E. unfold sizeof_coff_symbol.
  rewrite (wrap64_small (N * 18))
    by (change (2 ^ 64) with 18446744073709551616; lia).
  rewrite (wrap64_small (P + N * 18))
    by (change (2 ^ 64) with 18446744073709551616; lia).
  replace (P + 18 * k <? P) with false by (symmetry; apply Z.ltb_ge; lia).
  replace (P + 18 * k >=? P + N * 18) with false
    by (symmetry; rewrite Z.geb_leb; apply Z.leb_gt; lia).
  cbn [orb].
  replace (P + 18 * k - P) with (k * 18) by lia.
  rewrite (wrap64_small (k * 18))
    by (change (2 ^ 64) with 18446744073709551616; lia).
  rewrite Z.mod_mul by lia. reflexivity.
Qed.

End SymbolTableGeometry.

(** X7.  [COFFObjectFile::toSymb] in a debug build accepts a reference into
    the buffer exactly when it is the address of one of the
    [NumberOfSymbols] entries of the symbol table; every other one
    stops the program. *)
Theorem toSymb_debug_accepts_table_entries : forall O Ref,
  low_mapped (Data O) ->
  u32 (coff_file_header.PointerToSymbolTable (COFFHeader O)) ->
  u32 (coff_file_header.NumberOfSymbols (COFFHeader O)) ->
  base O <= Ref < 2 ^ 64 ->
  (toSymb false O Ref = Ok Ref <->
   exists k, 0 <= k < coff_file_header.NumberOfSymbols (COFFHeader O)
             /\ Ref = symbol_addr O k) /\
  (is_ok (toSymb false O Ref) = false -> is_abort (toSymb false O Ref) = true).
Proof.
  intros O Ref Hm HP HN HR. split.
  - split.
    + intros H. unfold toSymb in H. cbv zeta in H.
      unfold u32 in *. change (2 ^ 32) with 4294967296 in *.
      set (P := coff_file_header.PointerToSymbolTable (COFFHeader O)) in *.
      set (N := coff_file_header.NumberOfSymbols (COFFHeader O)) in *.
      assert (B0 : 0 <= base O) by (destruct Hm as [M0 _]; exact M0).
      rewrite (wrap_ptr_small (Ref - base O)) in H by lia.
      unfold sizeof_coff_symbol in H.
      rewrite (wrap64_small (N * 18)) in H
        by (change (2 ^ 64) with 18446744073709551616; lia).
      rewrite (wrap64_small (P + N * 18)) in H
        by (change (2 ^ 64) with 18446744073709551616; lia).
      destruct (Ref - base O <? P) eqn:E1; [discriminate H|].
      destruct (Ref - base O >=? P + N * 18) eqn:E2; [discriminate H|].
      cbn [orb] in H. apply Z.ltb_ge in E1.
      rewrite Z.geb_leb in E2. apply Z.leb_gt in E2.
      rewrite (wrap64_small (Ref - base O - P)) in H by lia.
      unfold assert_ in H.
      destruct ((Ref - base O - P) mod 18 =? 0) eqn:E3; [|discriminate H].
      apply Z.eqb_eq in E3.
      exists ((Ref - base O - P) / 18).
      pose proof (Z.div_mod (Ref - base O - P) 18 ltac:(lia)) as D.
      rewrite E3 in D. split.
      * split; [apply Z.div_pos; lia|].
        apply Z.div_lt_upper_bound; lia.
      * unfold symbol_addr, sizeof_coff_symbol. fold P. lia.
    + intros [k [Hk ->]]. apply toSymb_table_entry; assumption.
  - unfold toSymb. cbv zeta. destruct (_ || _); [reflexivity|].
    unfold assert_. destruct (_ =? 0); [discriminate | reflexivity].
Qed.

Lemma toSymb_debug_accepts_table_entries_witness :
  toSymb false coff_object_file 327780 = Ok 327780 <->
  exists k, 0 <= k < 3 /\ 327780 = symbol_addr coff_object_file k.
Proof.
  assert (L : low_mapped (Data coff_object_file))
    by (split; vm_compute; discriminate).
  assert (P : u32 64) by (unfold u32; lia).
  assert (N : u32 3) by (unfold u32; lia).
  assert (R : base coff_object_file <= 327780 < 2 ^ 64)
    by (split; vm_compute; [discriminate | reflexivity]).
  exact (proj1 (toSymb_debug_accepts_table_entries coff_object_file 327780
                  L P N R)).
Defined.

(** X8.  [COFFObjectFile::moveSymbolNext] from entry [k] of the symbol table
    arrives at entry [k + 1 + NumberOfAuxSymbols] in either build: the
    auxiliary records are skipped, and the count is not compared with
    the end of the table. *)
Theorem moveSymbolNext_skips_aux_records : forall ndebug O k aux,
  low_mapped (Data O) ->
  u32 (coff_file_header.PointerToSymbolTable (COFFHeader O)) ->
  u32 (coff_file_header.NumberOfSymbols (COFFHeader O)) ->
  0 <= k < coff_file_header.NumberOfSymbols (COFFHeader O) ->
  load8 (Data O) (symbol_addr O k + 17) = Ok aux ->
  moveSymbolNext ndebug O (symbol_addr O k)
  = Ok (symbol_addr O (k + 1 + aux)).
Proof.
  intros ndebug O k aux Hm HP HN Hk Haux.
  unfold moveSymbolNext.
  rewrite (toSymb_table_entry O Hm HP HN ndebug k Hk). cbn [bind].
  pose proof (load8_range _ _ _ Haux) as Ra.
  pose proof (symbol_addr_range O Hm HP k) as R1.
  pose proof (symbol_addr_range O Hm HP (k + 1 + aux)) as R2.
  unfold u32 in *. change (2 ^ 32) with 4294967296 in *.
  specialize (R1 ltac:(lia)). specialize (R2 ltac:(lia)).
  apply load8_in_buffer in Haux as Hin.
  destruct Hm as [M0 M1]. change (2 ^ 40) with 1099511627776 in M1.
  rewrite wrap_ptr_small
    by (change (2 ^ 64) with 18446744073709551616 in *; unfold base in *; lia).
  rewrite Haux. cbn [bind]. f_equal.
  replace (symbol_addr O k + sizeof_coff_symbol * (1 + aux))
    with (symbol_addr O (k + 1 + aux))
    by (unfold symbol_addr, sizeof_coff_symbol; lia).
  apply wrap_ptr_small. unfold base in *. lia.
Qed.

Lemma moveSymbolNext_skips_aux_records_witness :
  moveSymbolNext false coff_object_file (symbol_addr coff_object_file 0)
  = Ok (symbol_addr coff_object_file 2).
Proof.
  assert (L : low_mapped (Data coff_object_file))
    by (split; vm_compute; discriminate).
  assert (P : u32 64) by (unfold u32; lia).
  assert (N : u32 3) by (unfold u32; lia).
  assert (K : 0 <= 0 < 3) by lia.
  exact (moveSymbolNext_skips_aux_records false coff_object_file 0 1
           L P N K eq_refl).
Defined.

(* ----------------------------------------------------------------- *)
(** *** Construction of the object *)

Lemma getObject_ok : forall M p s a,
  0 <= p -> 0 <= s -> p + s < 2 ^ 64 ->
  getObject M p s = Ok a -> a = p /\ p + s <= getBufferEnd M.
Proof.
  intros M p s a Hp Hs Hsum H. unfold getObject in H. cbv zeta in H.
  rewrite wrap_ptr_small in H by lia.
  destruct (p + s <? p); [discriminate H|].
  destruct (p + s <? s); [discriminate H|].
  destruct (p + s >? getBufferEnd M) eqn:E; [discriminate H|].
  cbn [orb] in H. apply Ok_inj in H.
  rewrite Z.gtb_ltb in E. apply Z.ltb_ge in E. split; [symmetry; exact H | lia].
Qed.

Lemma load16_in_buffer : forall M a v,
  load16 M a = Ok v -> BufferStart M <= a /\ a + 2 <= getBufferEnd M.
Proof.
  intros M a v H. unfold load16 in H.
  bind_ok H b0 E0. bind_ok H b1 E1.
  apply load8_in_buffer in E0. apply load8_in_buffer in E1. lia.
Qed.

Lemma load32_in_buffer : forall M a v,
  load32 M a = Ok v -> BufferStart M <= a /\ a + 4 <= getBufferEnd M.
Proof.
  intros M a v H. unfold load32 in H.
  bind_ok H lo E0. bind_ok H hi E1.
  apply load16_in_buffer in E0. apply load16_in_buffer in E1. lia.
Qed.

Lemma load16_inside : forall M a,
  BufferStart M <= a -> a + 2 <= getBufferEnd M ->
  exists v, load16 M a = Ok v.
Proof.
  intros M a H0 H1. unfold load16.
  destruct (load8_inside M a ltac:(lia)) as [b0 E0].
  destruct (load8_inside M (a + 1) ltac:(lia)) as [b1 E1].
  rewrite E0, E1. cbn [bind]. eexists. reflexivity.
Qed.

Lemma load32_inside : forall M a,
  BufferStart M <= a -> a + 4 <= getBufferEnd M ->
  exists v, load32 M a = Ok v.
Proof.
  intros M a H0 H1. unfold load32.
  destruct (load16_inside M a ltac:(lia) ltac:(lia)) as [lo E0].
  destruct (load16_inside M (a + 2) ltac:(lia) ltac:(lia)) as [hi E1].
  rewrite E0, E1. cbn [bind]. eexists. reflexivity.
Qed.

Lemma checkSize_ok : forall M n u,
  checkSize M n = Ok u -> n <= getBufferSize M.
Proof.
  intros M n u H. unfold checkSize in H.
  destruct (getBufferSize M <? n) eqn:E; [discriminate H|].
  apply Z.ltb_ge in E. exact E.
Qed.

(** The cursor the constructor has after the MS-DOS stub. *)
Lemma locate_coff_header_cursor : forall M cur pe,
  locate_coff_header M = Ok (cur, pe) ->
  0 <= cur <= 65539 /\ (pe = false -> cur = 0) /\
  (pe = true -> 0x3c + 8 <= getBufferSize M).
Proof.
  intros M cur pe H. unfold locate_coff_header in H. cbv zeta in H.
  bind_ok H b0 E0. bind_ok H b1 E1.
  destruct ((b0 =? 77) && (b1 =? 90)).
  - bind_ok H u Eu. apply checkSize_ok in Eu.
    bind_ok H p Ep. bind_ok H magic Em.
    destruct (negb (bytes_eqb magic PE_magic)); [discriminate H|].
    apply Ok_inj in H. injection H as Hc Hp. subst pe.
    pose proof (load16_range _ _ _ Ep) as R.
    rewrite wrap64_small in Hc
      by (change (2 ^ 64) with 18446744073709551616; lia).
    repeat split; try lia; intros; try discriminate; try lia.
  - apply Ok_inj in H. injection H as Hc Hp. subst.
    repeat split; try lia; intros; try discriminate; try lia.
Qed.

Lemma read_coff_file_header_fields : forall M p H,
  read_coff_file_header M p = Ok H ->
  0 <= coff_file_header.NumberOfSections H < 65536 /\
  u32 (coff_file_header.PointerToSymbolTable H) /\
  u32 (coff_file_header.NumberOfSymbols H) /\
  0 <= coff_file_header.SizeOfOptionalHeader H < 65536.
Proof.
  intros M p H E. unfold read_coff_file_header in E.
  bind_ok E f1 E1. bind_ok E f2 E2. bind_ok E f3 E3. bind_ok E f4 E4.
  bind_ok E f5 E5. bind_ok E f6 E6. bind_ok E f7 E7.
  apply Ok_inj in E. subst H. cbn.
  pose proof (load16_range _ _ _ E2). pose proof (load32_range _ _ _ E4).
  pose proof (load32_range _ _ _ E5). pose proof (load16_range _ _ _ E6).
  unfold u32. change (2 ^ 32) with 4294967296. lia.
Qed.


(** The three initialisers leave the headers and tables alone. *)
Lemma initImportTablePtr_Obj : forall ndebug I I',
  initImportTablePtr ndebug I = Ok I' -> Obj I' = Obj I.
Proof.
  intros ndebug I I' H. unfold initImportTablePtr in H.
  bind_ok H e Ee. destruct e as [[d r]|].
  - bind_ok H sz Es. bind_ok H p Ep. apply Ok_inj in H. subst I'.
    reflexivity.
  - apply Ok_inj in H. subst I'. reflexivity.
Qed.

Lemma initExportTablePtr_Obj : forall ndebug I I',
  initExportTablePtr ndebug I = Ok I' -> Obj I' = Obj I.
Proof.
  intros ndebug I I' H. unfold initExportTablePtr in H.
  bind_ok H e Ee. destruct e as [[d r]|].
  - bind_ok H p Ep. apply Ok_inj in H. subst I'. reflexivity.
  - apply Ok_inj in H. subst I'. reflexivity.
Qed.

Lemma initCLRHeaderPtr_Obj : forall ndebug I I',
  initCLRHeaderPtr ndebug I = Ok I' -> Obj I' = Obj I.
Proof.
  intros ndebug I I' H. unfold initCLRHeaderPtr in H.
  bind_ok H e Ee. destruct e as [[d r]|].
  - bind_ok H p Ep. bind_ok H mrva Em.
    destruct (mrva =? 0).
    + apply Ok_inj in H. subst I'. reflexivity.
    + bind_ok H mp Emp.
      destruct (initMetadataPtr _ _ _); try discriminate H;
        apply Ok_inj in H; subst I'; reflexivity.
  - apply Ok_inj in H. subst I'. reflexivity.
Qed.

(** What a successful run of the constructor has established. *)
Lemma createCOFFObjectFile_inv : forall ndebug M I,
  low_mapped M ->
  createCOFFObjectFile ndebug M = Ok I ->
  exists cur pe,
    locate_coff_header M = Ok (cur, pe) /\
    sizeof_coff_file_header <= getBufferSize M /\
    BufferStart M + cur + sizeof_coff_file_header <= getBufferEnd M /\
    read_coff_file_header M (BufferStart M + cur) = Ok (COFFHeader (Obj I)) /\
    Data (Obj I) = M /\
    (if pe
     then read_optional_header M (cur + sizeof_coff_file_header)
          = Ok (PE32Header (Obj I), PE32PlusHeader (Obj I),
                DataDirectory (Obj I))
     else PE32Header (Obj I) = None /\ PE32PlusHeader (Obj I) = None
          /\ DataDirectory (Obj I) = 0) /\
    (if coff_file_header.isImportLibrary (COFFHeader (Obj I))
     then SectionTable (Obj I) = [] /\ SymbolTable (Obj I) = 0
          /\ StringTable (Obj I) = 0 /\ StringTableSize (Obj I) = 0
     else
       let secs :=
         BufferStart M + cur + sizeof_coff_file_header
         + (if pe then coff_file_header.SizeOfOptionalHeader
                         (COFFHeader (Obj I)) else 0) in
       secs + sizeof_coff_section
              * coff_file_header.NumberOfSections (COFFHeader (Obj I))
       <= getBufferEnd M /\
       read_sections M secs
         (Z.to_nat (coff_file_header.NumberOfSections (COFFHeader (Obj I))))
       = Ok (SectionTable (Obj I)) /\
       let O1 := mkCOFF M (COFFHeader (Obj I)) (PE32Header (Obj I))
                   (PE32PlusHeader (Obj I)) (DataDirectory (Obj I))
                   (SectionTable (Obj I)) 0 0 0 in
       if coff_file_header.PointerToSymbolTable (COFFHeader (Obj I)) =? 0
       then Obj I = O1
       else initSymbolTablePtr O1 = Ok (Obj I)).
Proof.
  intros ndebug M I [M0 M1] H.
  pose proof (buffer_end_ge_start M) as Hge.
  change (2 ^ 40) with 1099511627776 in M1.
  change (2 ^ 64) with 18446744073709551616 in M1.
  unfold createCOFFObjectFile in H. cbv zeta in H.
  bind_ok H u Eu. apply checkSize_ok in Eu.
  bind_ok H loc Eloc. destruct loc as [cur pe]. cbv beta iota zeta in H.
  destruct (locate_coff_header_cursor _ _ _ Eloc) as [Rc [Rf Rt]].
  rewrite (wrap_ptr_small (BufferStart M + cur)) in H
    by (change (2 ^ 64) with 18446744073709551616; lia).
  bind_ok H hp Ehp.
  apply getObject_ok in Ehp;
    [| lia | unfold sizeof_coff_file_header; lia
     | unfold sizeof_coff_file_header;
       change (2 ^ 64) with 18446744073709551616; lia].
  destruct Ehp as [-> Ehp].
  bind_ok H hdr Ehdr.
  pose proof (read_coff_file_header_fields _ _ _ Ehdr) as [RN [RP [RS RO]]].
  rewrite (wrap64_small (cur + sizeof_coff_file_header)) in H
    by (unfold sizeof_coff_file_header;
        change (2 ^ 64) with 18446744073709551616; lia).
  bind_ok H opt Eopt. destruct opt as [[[h32 h64] dd] cur2].
  cbv beta iota zeta in H.
  exists cur, pe.
  assert (Hopt :
    (if pe
     then read_optional_header M (cur + sizeof_coff_file_header)
          = Ok (h32, h64, dd)
     else h32 = None /\ h64 = None /\ dd = 0) /\
    cur2 = cur + sizeof_coff_file_header
           + (if pe then coff_file_header.SizeOfOptionalHeader hdr else 0)).
  { destruct pe.
    - bind_ok Eopt t Et. destruct t as [[a b] c]. cbv beta iota zeta in Eopt.
      apply Ok_inj in Eopt. injection Eopt as -> -> -> <-.
      split; [exact Et|].
      apply wrap64_small. unfold sizeof_coff_file_header.
      change (2 ^ 64) with 18446744073709551616. lia.
    - apply Ok_inj in Eopt. injection Eopt as <- <- <- <-.
      split; [repeat split | lia]. }
  destruct Hopt as [Hopt ->].
  destruct (coff_file_header.isImportLibrary hdr) eqn:Elib.
  - apply Ok_inj in H. subst I. cbn [Obj Data COFFHeader PE32Header
      PE32PlusHeader DataDirectory SectionTable SymbolTable StringTable
      StringTableSize].
    rewrite Elib. repeat split; try assumption.
  - set (secs := cur + sizeof_coff_file_header
                 + (if pe then coff_file_header.SizeOfOptionalHeader hdr
                    else 0)) in *.
    assert (Rsecs : 0 <= secs <= 65539 + 20 + 65535)
      by (unfold secs, sizeof_coff_file_header; destruct pe; lia).
    rewrite (wrap_ptr_small (BufferStart M + secs)) in H
      by (change (2 ^ 64) with 18446744073709551616; lia).
    rewrite (wrap64_small (coff_file_header.NumberOfSections hdr
                           * sizeof_coff_section)) in H
      by (unfold sizeof_coff_section;
          change (2 ^ 64) with 18446744073709551616; lia).
    bind_ok H sp Esp.
    apply getObject_ok in Esp;
      [| lia | unfold sizeof_coff_section; lia
       | unfold sizeof_coff_section;
         change (2 ^ 64) with 18446744073709551616; lia].
    destruct Esp as [-> Esp].
    bind_ok H st Est. bind_ok H O2 EO2.
    bind_ok H I1 EI1. bind_ok H I2 EI2.
    apply initCLRHeaderPtr_Obj in H.
    apply initExportTablePtr_Obj in EI2.
    apply initImportTablePtr_Obj in EI1.
    cbn [Obj] in EI1.
    assert (HO : Obj I = O2) by congruence.
    rewrite HO.
    assert (HO2 : Data O2 = M /\ COFFHeader O2 = hdr /\ PE32Header O2 = h32
                  /\ PE32PlusHeader O2 = h64 /\ DataDirectory O2 = dd
                  /\ SectionTable O2 = st).
    { destruct (negb (coff_file_header.PointerToSymbolTable hdr =? 0)).
      - apply initSymbolTablePtr_success in EO2;
          [| split; assumption | exact RP | exact RS].
        destruct EO2 as [declared [_ [_ [-> _]]]]. cbn. repeat split.
      - apply Ok_inj in EO2. subst O2. cbn. repeat split. }
    destruct HO2 as [D1 [D2 [D3 [D4 [D5 D6]]]]].
    rewrite D1, D2, D3, D4, D5, D6. rewrite Elib.
    repeat split; try assumption.
    + unfold secs in Esp. cbv zeta. lia.
    + cbv zeta. replace (BufferStart M + cur + sizeof_coff_file_header
                         + (if pe
                            then coff_file_header.SizeOfOptionalHeader hdr
                            else 0))
        with (BufferStart M + secs) by (unfold secs; lia).
      exact Est.
    + cbv zeta. destruct (coff_file_header.PointerToSymbolTable hdr =? 0).
      * cbn [negb] in EO2. apply Ok_inj in EO2. symmetry. exact EO2.
      * cbn [negb] in EO2. exact EO2.
Qed.

Lemma load64_in_buffer : forall M a v,
  load64 M a = Ok v -> BufferStart M <= a /\ a + 8 <= getBufferEnd M.
Proof.
  intros M a v H. unfold load64 in H.
  bind_ok H lo E0. bind_ok H hi E1.
  apply load32_in_buffer in E0. apply load32_in_buffer in E1. lia.
Qed.

(** What the optional header read at file offset [cur] is. *)
Lemma read_optional_header_inv : forall M cur h32 h64 dd,
  low_mapped M -> 0 <= cur <= 2 ^ 32 ->
  read_optional_header M cur = Ok (h32, h64, dd) ->
  BufferStart M + cur + sizeof_pe32_header <= getBufferEnd M /\
  ((exists h, h32 = Some h /\ h64 = None /\
              pe32_header.Magic h = 0x10b /\
              u32 (pe32_header.NumberOfRvaAndSize h) /\
              u32 (pe32_header.ImageBase h) /\
              dd = BufferStart M + cur + sizeof_pe32_header /\
              dd + sizeof_data_directory * pe32_header.NumberOfRvaAndSize h
              <= getBufferEnd M) \/
   (exists h, h32 = None /\ h64 = Some h /\
              pe32plus_header.Magic h = 0x20b /\
              u32 (pe32plus_header.NumberOfRvaAndSize h) /\
              0 <= pe32plus_header.ImageBase h < 2 ^ 64 /\
              dd = BufferStart M + cur + sizeof_pe32plus_header /\
              dd + sizeof_data_directory
                   * pe32plus_header.NumberOfRvaAndSize h
              <= getBufferEnd M)).
Proof.
  intros M cur h32 h64 dd [M0 M1] Hc H.
  pose proof (buffer_end_ge_start M) as Hge.
  change (2 ^ 40) with 1099511627776 in M1.
  change (2 ^ 64) with 18446744073709551616 in M1.
  change (2 ^ 32) with 4294967296 in Hc.
  unfold read_optional_header in H. cbv zeta in H.
  rewrite (wrap_ptr_small (BufferStart M + cur)) in H
    by (change (2 ^ 64) with 18446744073709551616; lia).
  bind_ok H hp Ehp.
  apply getObject_ok in Ehp;
    [| lia | unfold sizeof_pe32_header; lia
     | unfold sizeof_pe32_header;
       change (2 ^ 64) with 18446744073709551616; lia].
  destruct Ehp as [-> Ehp]. split; [exact Ehp|].
  unfold sizeof_pe32_header in Ehp.
  bind_ok H magic Em.
  destruct (magic =? 267) eqn:E32.
  - apply Z.eqb_eq in E32. bind_ok H ib Eib. bind_ok H n En.
    pose proof (load32_range _ _ _ Eib) as Rib.
    pose proof (load32_range _ _ _ En) as Rn.
    change (2 ^ 32) with 4294967296 in Rib, Rn.
    unfold sizeof_pe32_header, sizeof_data_directory in H.
    rewrite (wrap_ptr_small (BufferStart M + cur + 96)) in H
      by (change (2 ^ 64) with 18446744073709551616; lia).
    rewrite (wrap64_small (8 * n)) in H
      by (change (2 ^ 64) with 18446744073709551616; lia).
    bind_ok H d Ed.
    apply getObject_ok in Ed;
      [| lia | lia | change (2 ^ 64) with 18446744073709551616; lia].
    destruct Ed as [-> Ed].
    apply Ok_inj in H. injection H as <- <- <-.
    left. eexists. split; [reflexivity|].
    cbv beta iota delta [pe32_header.Magic
      pe32_header.NumberOfRvaAndSize pe32_header.ImageBase].
    unfold u32, sizeof_pe32_header, sizeof_data_directory.
    change (2 ^ 32) with 4294967296.
    repeat split; try lia; exact E32.
  - destruct (magic =? 523) eqn:E64; [|discriminate H].
    apply Z.eqb_eq in E64. bind_ok H ib Eib. bind_ok H n En.
    pose proof (load64_range _ _ _ Eib) as Rib.
    pose proof (load32_range _ _ _ En) as Rn.
    change (2 ^ 32) with 4294967296 in Rn.
    unfold sizeof_pe32plus_header, sizeof_data_directory in H.
    rewrite (wrap_ptr_small (BufferStart M + cur + 112)) in H
      by (change (2 ^ 64) with 18446744073709551616; lia).
    rewrite (wrap64_small (8 * n)) in H
      by (change (2 ^ 64) with 18446744073709551616; lia).
    bind_ok H d Ed.
    apply getObject_ok in Ed;
      [| lia | lia | change (2 ^ 64) with 18446744073709551616; lia].
    destruct Ed as [-> Ed].
    apply Ok_inj in H. injection H as <- <- <-.
    right. eexists. split; [reflexivity|].
    cbv beta iota delta [pe32plus_header.Magic
      pe32plus_header.NumberOfRvaAndSize pe32plus_header.ImageBase].
    unfold u32, sizeof_pe32plus_header, sizeof_data_directory.
    change (2 ^ 32) with 4294967296.
    change (2 ^ 64) with 18446744073709551616 in *.
    repeat split; try lia; exact E64.
Qed.

(** X9.  The constructor, when it succeeds on a buffer, leaves an object
    with at most one optional header, whose magic is [0x10b] for
    [PE32Header] and [0x20b] for [PE32PlusHeader]; [DataDirectory] is
    null exactly when there is no optional header; and the
    [NumberOfRvaAndSize] entries of the data directory lie within the
    buffer, so that [getDataDirectory] returns each of them and both of
    its fields can be read. *)
Theorem createCOFFObjectFile_data_directories : forall ndebug M I,
  low_mapped M ->
  createCOFFObjectFile ndebug M = Ok I ->
  let O := Obj I in
  (PE32Header O = None \/ PE32PlusHeader O = None) /\
  (forall h, PE32Header O = Some h -> pe32_header.Magic h = 0x10b) /\
  (forall h, PE32PlusHeader O = Some h -> pe32plus_header.Magic h = 0x20b) /\
  (DataDirectory O = 0 <-> number_of_directories O = None) /\
  (forall n Index,
     number_of_directories O = Some n -> 0 <= Index < n ->
     BufferStart M <= DataDirectory O + sizeof_data_directory * Index /\
     DataDirectory O + sizeof_data_directory * (Index + 1)
     <= getBufferEnd M /\
     getDataDirectory ndebug O Index
     = Ok (DataDirectory O + sizeof_data_directory * Index) /\
     exists rva size,
       read_data_directory M
         (DataDirectory O + sizeof_data_directory * Index)
       = Ok (rva, size)).
Proof.
  intros ndebug M I Hm H O.
  destruct (createCOFFObjectFile_inv _ _ _ Hm H)
    as [cur [pe [Eloc [Hsz [Hhdr [Ehdr [HD [Hopt _]]]]]]]].
  destruct (locate_coff_header_cursor _ _ _ Eloc) as [Rc _].
  fold O in Hopt, HD, Ehdr.
  pose proof (buffer_end_ge_start M) as Hge.
  destruct Hm as [M0 M1].
  change (2 ^ 40) with 1099511627776 in M1.
  change (2 ^ 64) with 18446744073709551616 in M1.
  unfold number_of_directories.
  destruct pe.
  - apply read_optional_header_inv in Hopt;
      [| split; assumption
       | unfold sizeof_coff_file_header; change (2 ^ 32) with 4294967296; lia].
    destruct Hopt as [Hin [[h [E1 [E2 [Emag [RN [RI [Edd Hdd]]]]]]]
                          | [h [E1 [E2 [Emag [RN [RI [Edd Hdd]]]]]]]]];
      rewrite E1, E2; cbn [option_map];
      unfold sizeof_coff_file_header, sizeof_pe32_header,
        sizeof_pe32plus_header, sizeof_data_directory, u32 in *;
      change (2 ^ 32) with 4294967296 in *.
    + split; [right; reflexivity|].
      split; [intros h' Hh'; injection Hh' as <-; exact Emag|].
      split; [intros h' Hh'; discriminate Hh'|].
      split; [split; [intros Hz; lia | intros Hn; discriminate Hn]|].
      intros n Index Hn Hi. injection Hn as <-.
      split; [lia|]. split; [lia|]. split.
      * unfold getDataDirectory.
        replace (DataDirectory O =? 0) with false
          by (symmetry; apply Z.eqb_neq; lia).
        rewrite E1. unfold assert_. 
        replace (if ndebug then Ok tt else Ok tt) with (@Ok unit tt)
          by (destruct ndebug; reflexivity).
        cbn [bind].
        replace (Index >? pe32_header.NumberOfRvaAndSize h) with false
          by (symmetry; rewrite Z.gtb_ltb; apply Z.ltb_ge; lia).
        unfold sizeof_data_directory.
        rewrite wrap_ptr_small
          by (change (2 ^ 64) with 18446744073709551616; lia).
        reflexivity.
      * unfold read_data_directory.
        destruct (load32_inside M (DataDirectory O + 8 * Index)
                    ltac:(lia) ltac:(lia)) as [rva Er].
        destruct (load32_inside M (DataDirectory O + 8 * Index + 4)
                    ltac:(lia) ltac:(lia)) as [sz Es].
        rewrite Er. cbn [bind].
        rewrite wrap_ptr_small
          by (change (2 ^ 64) with 18446744073709551616; lia).
        rewrite Es. cbn [bind]. exists rva, sz. reflexivity.
    + split; [left; reflexivity|].
      split; [intros h' Hh'; discriminate Hh'|].
      split; [intros h' Hh'; injection Hh' as <-; exact Emag|].
      split; [split; [intros Hz; lia | intros Hn; discriminate Hn]|].
      intros n Index Hn Hi. injection Hn as <-.
      split; [lia|]. split; [lia|]. split.
      * unfold getDataDirectory.
        replace (DataDirectory O =? 0) with false
          by (symmetry; apply Z.eqb_neq; lia).
        rewrite E1, E2. unfold assert_. 
        replace (if ndebug then Ok tt else Ok tt) with (@Ok unit tt)
          by (destruct ndebug; reflexivity).
        cbn [bind].
        replace (Index >? pe32plus_header.NumberOfRvaAndSize h) with false
          by (symmetry; rewrite Z.gtb_ltb; apply Z.ltb_ge; lia).
        unfold sizeof_data_directory.
        rewrite wrap_ptr_small
          by (change (2 ^ 64) with 18446744073709551616; lia).
        reflexivity.
      * unfold read_data_directory.
        destruct (load32_inside M (DataDirectory O + 8 * Index)
                    ltac:(lia) ltac:(lia)) as [rva Er].
        destruct (load32_inside M (DataDirectory O + 8 * Index + 4)
                    ltac:(lia) ltac:(lia)) as [sz Es].
        rewrite Er. cbn [bind].
        rewrite wrap_ptr_small
          by (change (2 ^ 64) with 18446744073709551616; lia).
        rewrite Es. cbn [bind]. exists rva, sz. reflexivity.
  - destruct Hopt as [E1 [E2 E3]]. rewrite E1, E2, E3. cbn [option_map].
    split; [left; reflexivity|].
    split; [intros h' Hh'; discriminate Hh'|].
    split; [intros h' Hh'; discriminate Hh'|].
    split; [split; reflexivity|].
    intros n Index Hn. discriminate Hn.
Qed.

Lemma createCOFFObjectFile_data_directories_witness :
  getDataDirectory false (Obj pe32_image_file) 15
  = Ok (DataDirectory (Obj pe32_image_file) + sizeof_data_directory * 15).
Proof.
  assert (L : low_mapped pe32_image) by (split; vm_compute; discriminate).
  assert (E : createCOFFObjectFile false pe32_image = Ok pe32_image_file)
    by (vm_compute; reflexivity).
  assert (R : 0 <= 15 < 16) by lia.
  exact (proj1 (proj2 (proj2
           (proj2 (proj2 (proj2 (proj2
              (createCOFFObjectFile_data_directories false pe32_image
                 pe32_image_file L E))))
              16 15 eq_refl R)))).
Defined.

Lemma read_chars_in_buffer : forall M n p chars,
  read_chars M p (S n) = Ok chars -> BufferStart M <= p < getBufferEnd M.
Proof.
  intros M n p chars H. cbn [read_chars] in H.
  destruct (_ && _) eqn:E; [|discriminate H].
  apply andb_true_iff in E. destruct E as [E0 E1].
  apply Z.leb_le in E0. apply Z.ltb_lt in E1. lia.
Qed.





(** X11.  The constructor, when it succeeds on an object that announces a
    symbol table, leaves [SymbolTable] at the announced file offset,
    every one of the [NumberOfSymbols] entries within the buffer,
    returned by [getSymbol] and accepted by [toSymb] in either build,
    and the string table right behind the last entry, at least 4 bytes
    long and within the buffer. *)
Theorem createCOFFObjectFile_symbol_table : forall ndebug M I,
  low_mapped M ->
  createCOFFObjectFile ndebug M = Ok I ->
  let O := Obj I in
  let N := coff_file_header.NumberOfSymbols (COFFHeader O) in
  coff_file_header.isImportLibrary (COFFHeader O) = false ->
  coff_file_header.PointerToSymbolTable (COFFHeader O) <> 0 ->
  (forall k, 0 <= k < N ->
     getSymbol O k = Ok (symbol_addr O k) /\
     toSymb ndebug O (symbol_addr O k) = Ok (symbol_addr O k) /\
     BufferStart M <= symbol_addr O k /\
     symbol_addr O k + sizeof_coff_symbol <= getBufferEnd M) /\
  SymbolTable O = symbol_addr O 0 /\
  StringTable O = symbol_addr O N /\
  4 <= StringTableSize O /\
  StringTable O + StringTableSize O <= getBufferEnd M.
Proof.
  intros ndebug M I Hm H O N Elib HP.
  destruct (createCOFFObjectFile_inv _ _ _ Hm H)
    as [cur [pe [Eloc [Hsz [Hhdr [Ehdr [HD [Hopt Hsec]]]]]]]].
  pose proof (read_coff_file_header_fields _ _ _ Ehdr) as [RN [RP [RS RO]]].
  fold O in Hsec, RP, RS, HD. fold N in RS.
  rewrite Elib in Hsec. cbv zeta in Hsec. destruct Hsec as [_ [_ Hsym]].
  replace (coff_file_header.PointerToSymbolTable (COFFHeader O) =? 0)
    with false in Hsym by (symmetry; apply Z.eqb_neq; exact HP).
  apply initSymbolTablePtr_success in Hsym;
    [| exact Hm | exact RP | exact RS].
  cbn [Data COFFHeader PE32Header PE32PlusHeader DataDirectory SectionTable]
    in Hsym.
  destruct Hsym as [declared [Hdecl [Hend [HO _]]]].
  unfold string_table_addr, base in Hend, HO.
  cbn [Data COFFHeader] in Hend, HO.
  assert (Hm' : low_mapped (Data O)) by (rewrite HD; exact Hm).
  assert (Hst : SymbolTable O = symbol_addr O 0
                /\ StringTable O = symbol_addr O N
                /\ StringTableSize O = Z.max declared 4).
  { unfold symbol_addr, base. rewrite HD. fold N in HO.
    rewrite HO at 1 3 5. cbn [SymbolTable StringTable StringTableSize].
    repeat split; lia. }
  destruct Hst as [S1 [S2 S3]].
  assert (Hend' : symbol_addr O N + Z.max declared 4 <= getBufferEnd M).
  { unfold symbol_addr, base. rewrite HD. fold N in Hend. exact Hend. }
  destruct Hm as [M0 M1].
  unfold u32 in RP, RS. change (2 ^ 32) with 4294967296 in RP, RS.
  change (2 ^ 40) with 1099511627776 in M1.
  split.
  - intros k Hk.
    assert (Hk1 : BufferStart M <= symbol_addr O k
                  /\ symbol_addr O k + sizeof_coff_symbol <= getBufferEnd M).
    { unfold symbol_addr, sizeof_coff_symbol, base in *. rewrite HD in *.
      lia. }
    split.
    + unfold getSymbol. fold N.
      replace (k <? N) with true by (symmetry; apply Z.ltb_lt; lia).
      rewrite S1. unfold symbol_addr at 1.
      replace (base O + coff_file_header.PointerToSymbolTable (COFFHeader O)
               + sizeof_coff_symbol * 0 + sizeof_coff_symbol * k)
        with (symbol_addr O k) by (unfold symbol_addr; lia).
      f_equal. apply wrap_ptr_small.
      change (2 ^ 64) with 18446744073709551616 in *.
      unfold sizeof_coff_symbol in *. lia.
    + split; [|exact Hk1].
      apply toSymb_table_entry; [exact Hm' | | | exact Hk];
        unfold u32; change (2 ^ 32) with 4294967296; [exact RP | exact RS].
  - rewrite S1, S2, S3. repeat split; try lia.
Qed.

Lemma createCOFFObjectFile_symbol_table_witness :
  getSymbol (Obj coff_object_image) 2
  = Ok (symbol_addr (Obj coff_object_image) 2) /\
  StringTable (Obj coff_object_image) = symbol_addr (Obj coff_object_image) 3.
Proof.
  assert (L : low_mapped coff_object) by (split; vm_compute; discriminate).
  assert (E : createCOFFObjectFile false coff_object = Ok coff_object_image)
    by (vm_compute; reflexivity).
  assert (P : 64 <> 0) by discriminate.
  assert (K : 0 <= 2 < 3) by lia.
  pose proof (createCOFFObjectFile_symbol_table false coff_object
                coff_object_image L E eq_refl P) as W.
  exact (conj (proj1 (proj1 W 2 K)) (proj1 (proj2 (proj2 W)))).
Defined.

(* ----------------------------------------------------------------- *)
(** *** Reads the constructor does not check *)

Lemma load8_outside : forall M a,
  getBufferEnd M <= a -> load8 M a = Fault.
Proof.
  intros M a H. unfold load8.
  replace (a <? getBufferEnd M) with false by (symmetry; apply Z.ltb_ge; lia).
  rewrite andb_false_r. reflexivity.
Qed.

Lemma load8_cases : forall M a,
  load8 M a = Fault \/ exists v, load8 M a = Ok v.
Proof.
  intros M a. unfold load8. destruct (_ && _); [|left; reflexivity].
  destruct (nth_error _ _); [right; eexists; reflexivity | left; reflexivity].
Qed.

Lemma load16_outside : forall M a,
  getBufferEnd M < a + 2 -> load16 M a = Fault.
Proof.
  intros M a H. unfold load16.
  destruct (load8_cases M a) as [-> | [v ->]]; [reflexivity|]. cbn [bind].
  rewrite load8_outside by lia. reflexivity.
Qed.

Lemma load16_cases : forall M a,
  load16 M a = Fault \/ exists v, load16 M a = Ok v.
Proof.
  intros M a. unfold load16.
  destruct (load8_cases M a) as [-> | [v ->]]; [left; reflexivity|].
  cbn [bind].
  destruct (load8_cases M (a + 1)) as [-> | [w ->]];
    [left; reflexivity | right; eexists; reflexivity].
Qed.

Lemma load32_outside : forall M a,
  getBufferEnd M < a + 4 -> load32 M a = Fault.
Proof.
  intros M a H. unfold load32.
  destruct (load16_cases M a) as [-> | [v ->]]; [reflexivity|]. cbn [bind].
  rewrite load16_outside by lia. reflexivity.
Qed.

Lemma load64_inside : forall M a,
  BufferStart M <= a -> a + 8 <= getBufferEnd M ->
  exists v, load64 M a = Ok v.
Proof.
  intros M a H0 H1. unfold load64.
  destruct (load32_inside M a ltac:(lia) ltac:(lia)) as [lo E0].
  destruct (load32_inside M (a + 4) ltac:(lia) ltac:(lia)) as [hi E1].
  rewrite E0, E1. cbn [bind]. eexists. reflexivity.
Qed.

Lemma read_coff_file_header_inside : forall M p,
  0 <= BufferStart M <= p -> p + sizeof_coff_file_header <= getBufferEnd M ->
  getBufferEnd M < 2 ^ 64 ->
  exists H, read_coff_file_header M p = Ok H.
Proof.
  intros M p H0 H1 H2. unfold sizeof_coff_file_header in H1.
  unfold read_coff_file_header.
  rewrite !wrap_ptr_small by lia.
  destruct (load16_inside M p ltac:(lia) ltac:(lia)) as [f1 ->].
  destruct (load16_inside M (p + 2) ltac:(lia) ltac:(lia)) as [f2 ->].
  destruct (load32_inside M (p + 4) ltac:(lia) ltac:(lia)) as [f3 ->].
  destruct (load32_inside M (p + 8) ltac:(lia) ltac:(lia)) as [f4 ->].
  destruct (load32_inside M (p + 12) ltac:(lia) ltac:(lia)) as [f5 ->].
  destruct (load16_inside M (p + 16) ltac:(lia) ltac:(lia)) as [f6 ->].
  destruct (load16_inside M (p + 18) ltac:(lia) ltac:(lia)) as [f7 ->].
  cbn [bind]. eexists. reflexivity.
Qed.

(** X12.  The constructor compares the four bytes at the file offset stored
    at [0x3c] with the PE signature without comparing that offset with
    the size of the buffer: on a file that starts with [MZ], has the 68
    bytes [checkSize] asks for and stores there an offset at or beyond
    its end, the constructor reaches the comparison, and the bytes it
    compares start at or beyond the end of the buffer: that read is
    outside the buffer. *)
Theorem createCOFFObjectFile_signature_offset_unchecked : forall ndebug M p,
  low_mapped M ->
  0x3c + 8 <= getBufferSize M ->
  load8 M (BufferStart M) = Ok 0x4d ->
  load8 M (BufferStart M + 1) = Ok 0x5a ->
  load16 M (BufferStart M + 0x3c) = Ok p ->
  getBufferSize M <= p ->
  getBufferEnd M <= BufferStart M + p /\
  read_bytes M (BufferStart M + p) 4 = Fault /\
  createCOFFObjectFile ndebug M = Fault.
Proof.
  intros ndebug M p [M0 M1] Hsz Hb0 Hb1 Hp Hout.
  change (2 ^ 40) with 1099511627776 in M1.
  change (2 ^ 64) with 18446744073709551616 in M1.
  pose proof (load16_range _ _ _ Hp) as Rp.
  assert (Hend : getBufferEnd M <= BufferStart M + p)
    by (unfold getBufferEnd; lia).
  assert (Hread : read_bytes M (BufferStart M + p) 4 = Fault).
  { cbn [read_bytes]. rewrite load8_outside by exact Hend. reflexivity. }
  split; [exact Hend|]. split; [exact Hread|].
  assert (Eloc : locate_coff_header M = Fault).
  { unfold locate_coff_header. cbv zeta. rewrite Hb0. cbn [bind].
    change (77 =? 77) with true. cbv iota.
    rewrite (wrap_ptr_small (BufferStart M + 1))
      by (change (2 ^ 64) with 18446744073709551616;
          unfold getBufferEnd in M1; lia).
    rewrite Hb1. cbn [bind]. change (90 =? 90) with true. cbn [andb].
    cbv iota. unfold checkSize.
    replace (getBufferSize M <? 60 + 8) with false
      by (symmetry; apply Z.ltb_ge; lia).
    cbn [bind].
    rewrite (wrap_ptr_small (BufferStart M + 60))
      by (change (2 ^ 64) with 18446744073709551616;
          unfold getBufferEnd in M1; lia).
    rewrite Hp. cbn [bind].
    rewrite (wrap_ptr_small (BufferStart M + p))
      by (change (2 ^ 64) with 18446744073709551616;
          unfold getBufferEnd in M1; lia).
    rewrite Hread. reflexivity. }
  unfold createCOFFObjectFile. cbv zeta. unfold checkSize.
  replace (getBufferSize M <? sizeof_coff_file_header) with false
    by (symmetry; apply Z.ltb_ge; unfold sizeof_coff_file_header; lia).
  cbn [bind]. rewrite Eloc. reflexivity.
Qed.

Lemma createCOFFObjectFile_signature_offset_unchecked_witness :
  getBufferEnd mz_stub_only <= BufferStart mz_stub_only + 0x80 /\
  read_bytes mz_stub_only (BufferStart mz_stub_only + 0x80) 4 = Fault /\
  createCOFFObjectFile true mz_stub_only = Fault.
Proof.
  assert (L : low_mapped mz_stub_only) by (split; vm_compute; discriminate).
  assert (S : 0x3c + 8 <= getBufferSize mz_stub_only)
    by (vm_compute; discriminate).
  assert (P : getBufferSize mz_stub_only <= 0x80)
    by (vm_compute; discriminate).
  exact (createCOFFObjectFile_signature_offset_unchecked true mz_stub_only
           0x80 L S eq_refl eq_refl eq_refl P).
Defined.

Lemma read_optional_header_truncated : forall M cur,
  low_mapped M -> 0 <= cur <= 2 ^ 32 ->
  load16 M (BufferStart M + cur) = Ok 0x20b ->
  BufferStart M + cur + sizeof_pe32_header <= getBufferEnd M ->
  getBufferEnd M < BufferStart M + cur + sizeof_pe32plus_header ->
  read_optional_header M cur = Fault.
Proof.
  intros M cur [M0 M1] Hc Hmag Hin Hout.
  change (2 ^ 40) with 1099511627776 in M1.
  change (2 ^ 64) with 18446744073709551616 in M1.
  change (2 ^ 32) with 4294967296 in Hc.
  unfold sizeof_pe32_header in Hin. unfold sizeof_pe32plus_header in Hout.
  unfold read_optional_header. cbv zeta.
  rewrite (wrap_ptr_small (BufferStart M + cur))
    by (change (2 ^ 64) with 18446744073709551616; lia).
  rewrite getObject_in_range;
    [| lia | unfold sizeof_pe32_header; lia | unfold sizeof_pe32_header; lia
     | change (2 ^ 64) with 18446744073709551616; lia].
  cbn [bind]. rewrite Hmag. cbn [bind].
  change (523 =? 267) with false. change (523 =? 523) with true. cbv iota.
  rewrite (wrap_ptr_small (BufferStart M + cur + 24))
    by (change (2 ^ 64) with 18446744073709551616; lia).
  destruct (load64_inside M (BufferStart M + cur + 24) ltac:(lia) ltac:(lia))
    as [ib ->].
  cbn [bind].
  rewrite (wrap_ptr_small (BufferStart M + cur + 108))
    by (change (2 ^ 64) with 18446744073709551616; lia).
  rewrite load32_outside by lia. reflexivity.
Qed.

(** X13.  The constructor checks that the [sizeof(pe32_header)] = 96 bytes of
    an optional header lie in the buffer, and for magic [0x20b] reads
    [NumberOfRvaAndSize] at offset 108 of it: on a PE32+ image that
    ends between 96 and 112 bytes after the start of its optional
    header, that read is outside the buffer. *)
Theorem createCOFFObjectFile_pe32plus_header_size_unchecked :
  forall ndebug M cur,
  low_mapped M ->
  locate_coff_header M = Ok (cur, true) ->
  let Header := BufferStart M + cur + sizeof_coff_file_header in
  load16 M Header = Ok 0x20b ->
  Header + sizeof_pe32_header <= getBufferEnd M ->
  getBufferEnd M < Header + sizeof_pe32plus_header ->
  createCOFFObjectFile ndebug M = Fault.
Proof.
  intros ndebug M cur Hm Eloc Header Hmag Hin Hout.
  destruct (locate_coff_header_cursor _ _ _ Eloc) as [Rc [_ Rt]].
  specialize (Rt eq_refl).
  pose proof Hm as [M0 M1].
  change (2 ^ 40) with 1099511627776 in M1.
  change (2 ^ 64) with 18446744073709551616 in M1.
  unfold Header, sizeof_coff_file_header, sizeof_pe32_header,
    sizeof_pe32plus_header in *.
  unfold createCOFFObjectFile. cbv zeta. unfold checkSize.
  replace (getBufferSize M <? sizeof_coff_file_header) with false
    by (symmetry; apply Z.ltb_ge; unfold sizeof_coff_file_header; lia).
  cbn [bind]. rewrite Eloc. cbn [bind]. cbv beta iota.
  rewrite (wrap_ptr_small (BufferStart M + cur))
    by (change (2 ^ 64) with 18446744073709551616; lia).
  rewrite getObject_in_range;
    [| lia | unfold sizeof_coff_file_header; lia
     | unfold sizeof_coff_file_header; lia
     | change (2 ^ 64) with 18446744073709551616; lia].
  cbn [bind].
  destruct (read_coff_file_header_inside M (BufferStart M + cur))
    as [H EH];
    [ lia | unfold sizeof_coff_file_header; lia
    | change (2 ^ 64) with 18446744073709551616; lia |].
  rewrite EH. cbn [bind].
  rewrite (wrap64_small (cur + sizeof_coff_file_header))
    by (unfold sizeof_coff_file_header;
        change (2 ^ 64) with 18446744073709551616; lia).
  rewrite (read_optional_header_truncated M (cur + sizeof_coff_file_header));
    [ reflexivity | exact Hm
    | unfold sizeof_coff_file_header; change (2 ^ 32) with 4294967296; lia
    | unfold sizeof_coff_file_header;
      replace (BufferStart M + (cur + 20)) with (BufferStart M + cur + 20)
        by lia; exact Hmag
    | unfold sizeof_coff_file_header, sizeof_pe32_header; lia
    | unfold sizeof_coff_file_header, sizeof_pe32plus_header; lia ].
Qed.

Lemma createCOFFObjectFile_pe32plus_header_size_unchecked_witness :
  createCOFFObjectFile true pe32plus_truncated = Fault.
Proof.
  assert (L : low_mapped pe32plus_truncated)
    by (split; vm_compute; discriminate).
  assert (E : locate_coff_header pe32plus_truncated = Ok (0x44, true))
    by (vm_compute; reflexivity).
  assert (A : BufferStart pe32plus_truncated + 0x44 + sizeof_coff_file_header
              + sizeof_pe32_header <= getBufferEnd pe32plus_truncated)
    by (vm_compute; discriminate).
  assert (B : getBufferEnd pe32plus_truncated
              < BufferStart pe32plus_truncated + 0x44
                + sizeof_coff_file_header + sizeof_pe32plus_header)
    by (vm_compute; reflexivity).
  exact (createCOFFObjectFile_pe32plus_header_size_unchecked true
           pe32plus_truncated 0x44 L E eq_refl A B).
Defined.

(* ----------------------------------------------------------------- *)
(** *** Import, export and CLI directories *)

Lemma getRvaPtr_loop_error : forall b secs Rva e,
  getRvaPtr_loop b secs Rva = Err e ->
  e = parse_failed /\ forall s, In s secs -> ~ covers s Rva.
Proof.
  induction secs as [|s rest IH]; intros Rva e H; cbn [getRvaPtr_loop] in H.
  - injection H as <-. split; [reflexivity | intros s []].
  - cbv zeta in H.
    destruct ((coff_section.VirtualAddress s <=? Rva)
              && (Rva <? wrap32 (coff_section.VirtualAddress s
                                 + coff_section.VirtualSize s))) eqn:E;
      [discriminate H|].
    destruct (IH _ _ H) as [He Hrest]. split; [exact He|].
    intros s' [<- | Hin]; [|apply Hrest; exact Hin].
    intros Hc. apply covers_dec in Hc. rewrite Hc in E. discriminate E.
Qed.

Lemma load32_not_error : forall M a e, load32 M a <> Err e.
Proof.
  intros M a e H. pose proof (load32_no_error true M a) as N.
  rewrite H in N. exact N.
Qed.

(** The lookup that opens the three initialisers never reports an
    error code, and it hands on a directory only with a nonzero RVA. *)
Lemma directory_entry_cases : forall ndebug O Index r,
  directory_entry ndebug O Index = r ->
  (forall e, r <> Err e) /\
  (forall entry rva, r = Ok (Some (entry, rva)) ->
     getDataDirectory ndebug O Index = Ok entry /\
     load32 (Data O) entry = Ok rva /\ rva <> 0).
Proof.
  intros ndebug O Index r <-. unfold directory_entry.
  destruct (getDataDirectory ndebug O Index) as [entry|e'| |msg].
  - destruct (load32 (Data O) entry) as [rva|e'| |msg] eqn:El; cbn [bind].
    + destruct (rva =? 0) eqn:Ez.
      * split; [intros e H; discriminate H | intros a b H; discriminate H].
      * split; [intros e H; discriminate H|].
        intros a b H. injection H as <- <-.
        apply Z.eqb_neq in Ez. repeat split; assumption.
    + exfalso. exact (load32_not_error _ _ _ El).
    + split; [intros e H; discriminate H | intros a b H; discriminate H].
    + split; [intros e H; discriminate H | intros a b H; discriminate H].
  - split; [intros e H; discriminate H | intros a b H; discriminate H].
  - split; [intros e H; discriminate H | intros a b H; discriminate H].
  - split; [intros e H; discriminate H | intros a b H; discriminate H].
Qed.

Lemma bind_err_inv : forall (A B : Type) (m : outcome A) (k : A -> outcome B) e,
  bind m k = Err e -> m = Err e \/ exists a, m = Ok a /\ k a = Err e.
Proof.
  intros A B m k e H. destruct m as [a|e'| |msg]; cbn [bind] in H;
    try discriminate H.
  - right. exists a. split; [reflexivity | exact H].
  - left. injection H as <-. reflexivity.
Qed.

Lemma getRvaPtr_error_iff : forall O rva e,
  getRvaPtr O rva = Err e <-> e = parse_failed /\ unmapped O rva.
Proof.
  intros O rva e. unfold getRvaPtr, unmapped. split.
  - apply getRvaPtr_loop_error.
  - intros [-> H]. apply getRvaPtr_loop_miss. exact H.
Qed.

Lemma directory_entry_some : forall ndebug O Index entry rva,
  directory_entry ndebug O Index = Ok (Some (entry, rva))
  <-> directory_rva ndebug O Index entry rva.
Proof.
  intros ndebug O Index entry rva. unfold directory_rva. split.
  - intros H. exact (proj2 (directory_entry_cases _ _ _ _ eq_refl) _ _ H).
  - intros [Hd [Hl Hnz]]. unfold directory_entry. rewrite Hd, Hl.
    cbn [bind].
    replace (rva =? 0) with false by (symmetry; apply Z.eqb_neq; exact Hnz).
    reflexivity.
Qed.

(** X14.  [initImportTablePtr], [initExportTablePtr] and [initCLRHeaderPtr]:
    none of them reports the error of [getDataDirectory], so that on an
    object without data directories each returns success and changes
    nothing.  Each returns an error code exactly when [getDataDirectory]
    gives its directory entry, the RVA stored there is not zero, and no
    section covers that RVA; [initCLRHeaderPtr] also when that RVA
    resolves and the nonzero [MetadataRVA] of the CLI header found
    there is covered by no section.  The code is [parse_failed] in
    every case. *)
Theorem directory_initialisers_errors : forall ndebug I,
  let O := Obj I in
  (DataDirectory O = 0 ->
     initImportTablePtr ndebug I = Ok I /\
     initExportTablePtr ndebug I = Ok I /\
     initCLRHeaderPtr ndebug I = Ok I) /\
  (forall e,
     initImportTablePtr ndebug I = Err e <->
     e = parse_failed /\
     exists entry rva size,
       directory_rva ndebug O IMPORT_TABLE entry rva /\
       load32 (Data O) (wrap_ptr (entry + 4)) = Ok size /\
       unmapped O rva) /\
  (forall e,
     initExportTablePtr ndebug I = Err e <->
     e = parse_failed /\
     exists entry rva,
       directory_rva ndebug O EXPORT_TABLE entry rva /\ unmapped O rva) /\
  (forall e,
     initCLRHeaderPtr ndebug I = Err e <->
     e = parse_failed /\
     exists entry rva,
       directory_rva ndebug O CLR_RUNTIME_HEADER entry rva /\
       (unmapped O rva \/
        exists header MetadataRva,
          getRvaPtr O rva = Ok header /\
          load32 (Data O) (wrap_ptr (header + 8)) = Ok MetadataRva /\
          MetadataRva <> 0 /\ unmapped O MetadataRva)).
Proof.
  intros ndebug I O. split; [|split; [|split]].
  - intros Hdd.
    unfold initImportTablePtr, initExportTablePtr, initCLRHeaderPtr,
      directory_entry. fold O.
    rewrite !(getDataDirectory_absent ndebug O _ Hdd).
    cbn [bind]. repeat split.
  - intros e. split.
    + intros H. unfold initImportTablePtr in H. fold O in H.
      apply bind_err_inv in H. destruct H as [H | [d [Ed H]]].
      { exfalso. exact (proj1 (directory_entry_cases _ _ _ _ eq_refl) e H). }
      destruct d as [[entry rva]|]; [|discriminate H].
      apply directory_entry_some in Ed.
      apply bind_err_inv in H. destruct H as [H | [sz [Esz H]]].
      { exfalso. exact (load32_not_error _ _ _ H). }
      apply bind_err_inv in H. destruct H as [H | [p [_ H]]];
        [|discriminate H].
      apply getRvaPtr_error_iff in H. destruct H as [-> Hun].
      split; [reflexivity|]. exists entry, rva, sz.
      split; [exact Ed | split; [exact Esz | exact Hun]].
    + intros [-> [entry [rva [sz [Hd [Hsz Hun]]]]]].
      unfold initImportTablePtr. fold O.
      rewrite (proj2 (directory_entry_some _ _ _ _ _) Hd). cbn [bind].
      rewrite Hsz. cbn [bind].
      rewrite (proj2 (getRvaPtr_error_iff O rva parse_failed)
                 (conj eq_refl Hun)).
      reflexivity.
  - intros e. split.
    + intros H. unfold initExportTablePtr in H. fold O in H.
      apply bind_err_inv in H. destruct H as [H | [d [Ed H]]].
      { exfalso. exact (proj1 (directory_entry_cases _ _ _ _ eq_refl) e H). }
      destruct d as [[entry rva]|]; [|discriminate H].
      apply directory_entry_some in Ed.
      apply bind_err_inv in H. destruct H as [H | [p [_ H]]];
        [|discriminate H].
      apply getRvaPtr_error_iff in H. destruct H as [-> Hun].
      split; [reflexivity|]. exists entry, rva. split; assumption.
    + intros [-> [entry [rva [Hd Hun]]]].
      unfold initExportTablePtr. fold O.
      rewrite (proj2 (directory_entry_some _ _ _ _ _) Hd). cbn [bind].
      rewrite (proj2 (getRvaPtr_error_iff O rva parse_failed)
                 (conj eq_refl Hun)).
      reflexivity.
  - intros e. split.
    + intros H. unfold initCLRHeaderPtr in H. fold O in H.
      apply bind_err_inv in H. destruct H as [H | [d [Ed H]]].
      { exfalso. exact (proj1 (directory_entry_cases _ _ _ _ eq_refl) e H). }
      destruct d as [[entry rva]|]; [|discriminate H].
      apply directory_entry_some in Ed.
      apply bind_err_inv in H. destruct H as [H | [p [Ep H]]].
      { apply getRvaPtr_error_iff in H. destruct H as [-> Hun].
        split; [reflexivity|]. exists entry, rva.
        split; [exact Ed | left; exact Hun]. }
      cbv beta iota zeta in H.
      apply bind_err_inv in H. destruct H as [H | [mrva [Em H]]].
      { exfalso. exact (load32_not_error _ _ _ H). }
      destruct (mrva =? 0) eqn:Ez; [discriminate H|].
      apply Z.eqb_neq in Ez.
      apply bind_err_inv in H. destruct H as [H | [mp [_ H]]].
      { apply getRvaPtr_error_iff in H. destruct H as [-> Hun].
        split; [reflexivity|]. exists entry, rva.
        split; [exact Ed|]. right. exists p, mrva.
        split; [exact Ep | split; [exact Em | split; [exact Ez | exact Hun]]]. }
      destruct (initMetadataPtr _ _ _); discriminate H.
    + intros [-> [entry [rva [Hd Hcase]]]].
      unfold initCLRHeaderPtr. fold O.
      rewrite (proj2 (directory_entry_some _ _ _ _ _) Hd). cbn [bind].
      destruct Hcase as [Hun | [p [mrva [Ep [Em [Hnz Hun]]]]]].
      * rewrite (proj2 (getRvaPtr_error_iff O rva parse_failed)
                   (conj eq_refl Hun)).
        reflexivity.
      * rewrite Ep. cbn [bind]. cbv beta iota zeta.
        rewrite Em. cbn [bind].
        replace (mrva =? 0) with false
          by (symmetry; apply Z.eqb_neq; exact Hnz).
        rewrite (proj2 (getRvaPtr_error_iff O mrva parse_failed)
                   (conj eq_refl Hun)).
        reflexivity.
Qed.

Lemma directory_initialisers_errors_witness :
  exists entry rva size,
    directory_rva false (Obj unmapped_import_image) IMPORT_TABLE entry rva /\
    load32 (Data (Obj unmapped_import_image)) (wrap_ptr (entry + 4))
    = Ok size /\
    unmapped (Obj unmapped_import_image) rva.
Proof.
  assert (E : initImportTablePtr false unmapped_import_image
              = Err parse_failed) by (vm_compute; reflexivity).
  exact (proj2 (proj1 (proj1 (proj2 (directory_initialisers_errors false
                                       unmapped_import_image))
                         parse_failed) E)).
Defined.

(** X15.  [ExportDirectoryEntryRef::getSymbolName] compares the 16-bit
    entries of the ordinal table with the 32-bit index of the entry: an
    entry whose index is [65536] or more has the empty name, whatever a
    readable ordinal table holds. *)
Theorem export_getSymbolName_index_beyond_16_bits : forall R Start,
  let Obj := ExportDirectoryEntryRef.OwningObject R in
  let N := export_directory_table_entry.NumberOfNamePointers
             (ExportDirectoryEntryRef.ExportTable R) in
  getRvaPtr Obj (export_directory_table_entry.OrdinalTableRVA
                   (ExportDirectoryEntryRef.ExportTable R)) = Ok Start ->
  0 <= N -> Start + 2 * N < 2 ^ 64 ->
  (forall q, 0 <= q < N ->
     exists v, load16 (Data Obj) (Start + 2 * q) = Ok v) ->
  65536 <= ExportDirectoryEntryRef.Index R ->
  ExportDirectoryEntryRef.getSymbolName R = Ok [].
Proof.
  intros R Start Obj0 N HS HN Hsp Hread Hidx.
  unfold ExportDirectoryEntryRef.getSymbolName. fold Obj0. rewrite HS.
  cbn [bind]. cbv zeta. fold N.
  pose proof (getRvaPtr_range _ _ _ HS) as RS.
  rewrite wrap_ptr_small by lia.
  replace Start with (Start + 2 * 0) at 1 by lia.
  apply (getSymbolName_loop_none R Start (proj1 RS) Hsp (Z.to_nat N));
    try lia.
  intros q Hq. destruct (Hread q Hq) as [v Ev]. exists v.
  split; [exact Ev|]. pose proof (load16_range _ _ _ Ev). lia.
Qed.

Lemma export_getSymbolName_index_beyond_16_bits_witness :
  ExportDirectoryEntryRef.getSymbolName (export_entry 65638) = Ok [].
Proof.
  assert (N0 : 0 <= 2) by lia.
  assert (S : 0x20000 + 2 * 2 < 2 ^ 64) by lia.
  assert (I0 : 65536 <= 65638) by lia.
  refine (export_getSymbolName_index_beyond_16_bits (export_entry 65638)
            0x20000 eq_refl N0 S _ I0).
  intros q Hq. cbn in Hq.
  assert (Hc : q = 0 \/ q = 1) by lia.
  destruct Hc as [-> | ->]; eexists; reflexivity.
Defined.

(* ----------------------------------------------------------------- *)
(** *** Auxiliary symbol records *)

(** X16.  [COFFObjectFile::getSymbolAuxData] of entry [k] of the symbol table:
    without auxiliary records it is the empty array at the null
    pointer; otherwise it is the [18 * NumberOfAuxSymbols] bytes that
    start at entry [k + 1], which are the records [moveSymbolNext]
    skips.  The debug build checks the first of them only, and stops
    the program when entry [k] is the last of the table. *)
Theorem getSymbolAuxData_records : forall ndebug O k aux,
  low_mapped (Data O) ->
  u32 (coff_file_header.PointerToSymbolTable (COFFHeader O)) ->
  u32 (coff_file_header.NumberOfSymbols (COFFHeader O)) ->
  0 <= k < coff_file_header.NumberOfSymbols (COFFHeader O) ->
  load8 (Data O) (symbol_addr O k + 17) = Ok aux ->
  (aux = 0 -> getSymbolAuxData ndebug O (symbol_addr O k) = Ok (0, 0)) /\
  (0 < aux ->
   ndebug = true
   \/ k + 1 < coff_file_header.NumberOfSymbols (COFFHeader O) ->
     getSymbolAuxData ndebug O (symbol_addr O k)
     = Ok (symbol_addr O (k + 1), sizeof_coff_symbol * aux) /\
     moveSymbolNext ndebug O (symbol_addr O k)
     = Ok (symbol_addr O (k + 1) + sizeof_coff_symbol * aux)) /\
  (0 < aux ->
   k + 1 = coff_file_header.NumberOfSymbols (COFFHeader O) ->
     getSymbolAuxData false O (symbol_addr O k)
     = Abort "Aux Symbol data was outside of symbol table.").
Proof.
  intros ndebug O k aux Hm HP HN Hk Haux.
  pose proof (load8_range _ _ _ Haux) as Ra.
  pose proof (symbol_addr_range O Hm HP k) as R1.
  pose proof (symbol_addr_range O Hm HP (k + 1)) as R2.
  pose proof (toSymb_table_entry O Hm HP HN ndebug k Hk) as Hsymb.
  apply load8_in_buffer in Haux as Hin.
  pose proof Hm as [M0 M1].
  unfold u32 in HP, HN, R1, R2.
  change (2 ^ 32) with 4294967296 in *.
  change (2 ^ 40) with 1099511627776 in M1.
  change (2 ^ 64) with 18446744073709551616 in *.
  specialize (R1 ltac:(lia)). specialize (R2 ltac:(lia)).
  set (P := coff_file_header.PointerToSymbolTable (COFFHeader O)) in *.
  set (N := coff_file_header.NumberOfSymbols (COFFHeader O)) in *.
  assert (W17 : wrap_ptr (symbol_addr O k + 17) = symbol_addr O k + 17)
    by (apply wrap_ptr_small; change (2 ^ 64) with 18446744073709551616;
        unfold base in *; lia).
  assert (Wlen : wrap64 (aux * sizeof_coff_symbol) = sizeof_coff_symbol * aux)
    by (unfold sizeof_coff_symbol; rewrite wrap64_small;
        [lia | change (2 ^ 64) with 18446744073709551616; lia]).
  assert (Wnext : wrap_ptr (symbol_addr O k + sizeof_coff_symbol)
                  = symbol_addr O (k + 1)).
  { rewrite wrap_ptr_small.
    - unfold symbol_addr, sizeof_coff_symbol. lia.
    - change (2 ^ 64) with 18446744073709551616.
      unfold symbol_addr, sizeof_coff_symbol in *. lia. }
  assert (Woff : wrap_ptr (symbol_addr O (k + 1) - base O) = P + 18 * (k + 1)).
  { rewrite wrap_ptr_small.
    - unfold symbol_addr, sizeof_coff_symbol. fold P. lia.
    - change (2 ^ 64) with 18446744073709551616. unfold base in *. lia. }
  assert (WN : wrap64 (P + wrap64 (N * sizeof_coff_symbol)) = P + 18 * N).
  { unfold sizeof_coff_symbol.
    rewrite (wrap64_small (N * 18))
      by (change (2 ^ 64) with 18446744073709551616; lia).
    rewrite wrap64_small
      by (change (2 ^ 64) with 18446744073709551616; lia).
    lia. }
  split; [|split].
  - intros ->. unfold getSymbolAuxData. rewrite W17, Haux. cbn [bind].
    reflexivity.
  - intros Hpos Hcheck. split.
    + unfold getSymbolAuxData. rewrite W17, Haux. cbn [bind].
      replace (aux >? 0) with true
        by (symmetry; rewrite Z.gtb_ltb; apply Z.ltb_lt; lia).
      cbv zeta. rewrite Wnext, Wlen.
      destruct ndebug; [reflexivity|].
      destruct Hcheck as [Hc | Hc]; [discriminate Hc|].
      rewrite Woff. fold P N. rewrite WN.
      replace (P + 18 * (k + 1) <? P) with false
        by (symmetry; apply Z.ltb_ge; lia).
      replace (P + 18 * (k + 1) >=? P + 18 * N) with false
        by (symmetry; rewrite Z.geb_leb; apply Z.leb_gt; lia).
      cbn [orb].
      replace (P + 18 * (k + 1) - P) with ((k + 1) * 18) by lia.
      rewrite (wrap64_small ((k + 1) * 18))
        by (change (2 ^ 64) with 18446744073709551616; lia).
      unfold sizeof_coff_symbol. rewrite Z.mod_mul by lia. reflexivity.
    + unfold moveSymbolNext. rewrite Hsymb. cbn [bind].
      rewrite W17, Haux. cbn [bind]. f_equal.
      replace (symbol_addr O k + sizeof_coff_symbol * (1 + aux))
        with (symbol_addr O (k + 1) + sizeof_coff_symbol * aux)
        by (unfold symbol_addr, sizeof_coff_symbol; lia).
      apply wrap_ptr_small. change (2 ^ 64) with 18446744073709551616.
      unfold symbol_addr, sizeof_coff_symbol, base in *. lia.
  - intros Hpos Hlast. unfold getSymbolAuxData. rewrite W17, Haux.
    cbn [bind].
    replace (aux >? 0) with true
      by (symmetry; rewrite Z.gtb_ltb; apply Z.ltb_lt; lia).
    cbv zeta. rewrite Wnext. rewrite Woff. fold P N. rewrite WN.
    replace (P + 18 * (k + 1) >=? P + 18 * N) with true
      by (symmetry; rewrite Z.geb_leb; apply Z.leb_le; lia).
    rewrite orb_true_r. reflexivity.
Qed.

Lemma getSymbolAuxData_records_witness :
  getSymbolAuxData false coff_object_file (symbol_addr coff_object_file 0)
  = Ok (symbol_addr coff_object_file 1, sizeof_coff_symbol * 1).
Proof.
  assert (L : low_mapped (Data coff_object_file))
    by (split; vm_compute; discriminate).
  assert (P : u32 64) by (unfold u32; lia).
  assert (N : u32 3) by (unfold u32; lia).
  assert (K : 0 <= 0 < 3) by lia.
  assert (A : 0 < 1) by lia.
  assert (C : false = true \/ 0 + 1 < 3) by (right; lia).
  exact (proj1 (proj1 (proj2 (getSymbolAuxData_records false coff_object_file
                                0 1 L P N K eq_refl)) A C)).
Defined.

(* ----------------------------------------------------------------- *)
(** *** The metadata root and its stream headers *)

Lemma cstring_of_shorter : forall bs s,
  cstring_of bs = Ok s -> (List.length s < List.length bs)%nat.
Proof.
  induction bs as [|c rest IH]; intros s H; cbn [cstring_of] in H;
    [discriminate H|].
  destruct (byte_val c =? 0).
  - apply Ok_inj in H. subst s. cbn. lia.
  - bind_ok H r Er. apply Ok_inj in H. subst s. apply IH in Er. cbn. lia.
Qed.

Lemma strlen_in_buffer : forall M a len,
  strlen M a = Ok len ->
  BufferStart M <= a /\ 0 <= len /\ a + len < getBufferEnd M.
Proof.
  intros M a len H. unfold strlen in H. bind_ok H s Es.
  apply Ok_inj in H. subst len. unfold cstring in Es.
  destruct (_ && _) eqn:E; [|discriminate Es].
  apply andb_true_iff in E. destruct E as [E0 E1].
  apply Z.leb_le in E0. apply Z.ltb_lt in E1.
  apply cstring_of_shorter in Es. rewrite length_skipn in Es.
  unfold getBufferEnd, getBufferSize in *. lia.
Qed.

Lemma fixsize_range : forall v, 0 <= fixsize (wrap32 v) < 2 ^ 32.
Proof.
  intros v. pose proof (wrap32_range v) as R.
  unfold fixsize. cbn [fixsize_loop].
  pose proof (wrap32_range (wrap32 v + 1)).
  pose proof (wrap32_range (wrap32 (wrap32 v + 1) + 1)).
  pose proof (wrap32_range (wrap32 (wrap32 (wrap32 v + 1) + 1) + 1)).
  destruct (_ =? 0); [exact R|].
  destruct (_ =? 0); [assumption|].
  destruct (_ =? 0); [assumption|].
  destruct (_ =? 0); assumption.
Qed.

Lemma mod4_shift : forall a f k,
  a mod 4 = 0 -> f mod 4 = 0 -> (a + (f + 4 * k)) mod 4 = 0.
Proof.
  intros a f k Ha Hf.
  apply Z.mod_divide in Ha; [|lia]. apply Z.mod_divide in Hf; [|lia].
  destruct Ha as [x ->]. destruct Hf as [y ->].
  apply Z.mod_divide; [lia|]. exists (x + y + k). lia.
Qed.

(** The loop of [initMetadataPtr] over the stream headers keeps its
    cursor 4-aligned relative to where it starts. *)
Lemma read_stream_headers_layout : forall M n p hs q,
  low_mapped M -> 0 <= p < 2 ^ 64 ->
  read_stream_headers M n p = Ok (hs, q) ->
  List.length hs = n /\
  p + 8 * Z.of_nat n <= q /\ q < 2 ^ 64 /\
  (q - p) mod 4 = 0 /\
  forall h, In h hs ->
    (clrstream_header.name h - p) mod 4 = 0 /\
    BufferStart M <= clrstream_header.name h < getBufferEnd M /\
    u32 (clrstream_header.offset h).
Proof.
  intros M n. induction n as [|n IH]; intros p hs q Hm Hp H;
    cbn [read_stream_headers] in H.
  - apply Ok_inj in H. injection H as <- <-.
    replace (p - p) with 0 by lia.
    split; [reflexivity|]. split; [lia|]. split; [lia|].
    split; [reflexivity | intros h []].
  - pose proof Hm as [M0 M1].
    change (2 ^ 40) with 1099511627776 in M1.
    change (2 ^ 64) with 18446744073709551616 in M1, Hp.
    bind_ok H off Eoff.
    pose proof (load32_in_buffer _ _ _ Eoff) as [I0 I1].
    pose proof (load32_range _ _ _ Eoff) as Roff.
    rewrite (wrap_ptr_small (p + 4)) in H
      by (change (2 ^ 64) with 18446744073709551616; lia).
    bind_ok H sz Esz.
    pose proof (load32_in_buffer _ _ _ Esz) as [I2 I3].
    rewrite (wrap_ptr_small (p + 4 + 4)) in H
      by (change (2 ^ 64) with 18446744073709551616; lia).
    bind_ok H len Elen.
    pose proof (strlen_in_buffer _ _ _ Elen) as [I4 [I5 I6]].
    pose proof (fixsize_range (len + 1)) as Rf.
    pose proof (fixsize_multiple_of_4 (wrap32 (len + 1))) as Hf4.
    change (2 ^ 32) with 4294967296 in Rf.
    set (f := fixsize (wrap32 (len + 1))) in *.
    rewrite (wrap_ptr_small (p + 4 + 4 + f)) in H
      by (change (2 ^ 64) with 18446744073709551616; lia).
    bind_ok H r Er. destruct r as [rest q']. cbv beta iota zeta in H.
    apply Ok_inj in H. injection H as <- <-.
    apply IH in Er;
      [| exact Hm | change (2 ^ 64) with 18446744073709551616; lia].
    destruct Er as [Hlen [Hq [Hq64 [Hal Hnames]]]].
    split; [cbn [List.length]; f_equal; exact Hlen|].
    split; [lia|]. split; [exact Hq64|].
    split.
    + replace (q' - p) with ((q' - (p + 4 + 4 + f)) + (f + 4 * 2)) by lia.
      apply mod4_shift; assumption.
    + intros h [<- | Hin].
      * cbn [clrstream_header.name clrstream_header.offset].
        replace (p + 4 + 4 - p) with (4 * 2) by lia.
        rewrite Z.mul_comm, Z.mod_mul by lia.
        split; [reflexivity|]. split; [lia | exact Roff].
      * destruct (Hnames h Hin) as [Hn4 [Hnb Hno]].
        split; [|split; assumption].
        replace (clrstream_header.name h - p)
          with ((clrstream_header.name h - (p + 4 + 4 + f)) + (f + 4 * 2))
          by lia.
        apply mod4_shift; assumption.
Qed.

Lemma initMetadataTablesSetup_fields : forall ndebug M MHeader h,
  initMetadataTablesSetup ndebug M MHeader = Ok h ->
  exists tabs, h = clrmeta_header.with_MetaTables MHeader tabs.
Proof.
  intros ndebug M MHeader h H. unfold initMetadataTablesSetup in H.
  bind_ok H r Er. destruct r as [h' c]. cbv beta iota zeta in H.
  apply Ok_inj in H. subst h'.
  unfold initMetadataTablesSetup_cursors in Er. cbv zeta in Er.
  bind_ok Er p Ep.
  destruct (p =? clrmeta_header.MetadataInitPtr MHeader).
  - apply Ok_inj in Er. injection Er as <- _. eexists. reflexivity.
  - bind_ok Er a1 E1. bind_ok Er a2 E2. bind_ok Er a3 E3.
    bind_ok Er a4 E4. bind_ok Er a5 E5. bind_ok Er a6 E6.
    destruct a6 as [rows p6]. cbv beta iota zeta in Er.
    bind_ok Er a7 E7. destruct a7 as [tabs q]. cbv beta iota zeta in Er.
    apply Ok_inj in Er. injection Er as <- _. eexists. reflexivity.
Qed.

(** X17.  [initMetadataPtr], when it returns a header for the metadata root
    at [p0]: the runtime version fields are the constant 1, not what
    the file holds; the version string starts 16 bytes into the root;
    there is one stream header for each of the [Streams] the root
    announces; and every stream name lies in the buffer at a multiple
    of 4 bytes from the root. *)
Theorem initMetadataPtr_header_layout : forall ndebug M p0 h,
  low_mapped M ->
  initMetadataPtr ndebug M p0 = Ok h ->
  clrmeta_header.MetadataInitPtr h = p0 /\
  clrmeta_header.MajorRuntimeVersion h = 1 /\
  clrmeta_header.MinorRuntimeVersion h = 1 /\
  clrmeta_header.Version h = p0 + 16 /\
  Z.of_nat (List.length (clrmeta_header.StreamHeaders h))
  = clrmeta_header.Streams h /\
  forall s, In s (clrmeta_header.StreamHeaders h) ->
    (clrstream_header.name s - p0) mod 4 = 0 /\
    BufferStart M <= clrstream_header.name s < getBufferEnd M.
Proof.
  intros ndebug M p0 h Hm H.
  pose proof Hm as [M0 M1].
  change (2 ^ 40) with 1099511627776 in M1.
  change (2 ^ 64) with 18446744073709551616 in M1.
  unfold initMetadataPtr in H. cbv zeta in H.
  bind_ok H sg Esig.
  pose proof (load32_in_buffer _ _ _ Esig) as [I0 I1].
  rewrite (wrap_ptr_small (p0 + 4)) in H
    by (change (2 ^ 64) with 18446744073709551616; lia).
  rewrite (wrap_ptr_small (p0 + 4 + 2)) in H
    by (change (2 ^ 64) with 18446744073709551616; lia).
  rewrite (wrap_ptr_small (p0 + 4 + 2 + 2)) in H
    by (change (2 ^ 64) with 18446744073709551616; lia).
  rewrite (wrap_ptr_small (p0 + 4 + 2 + 2 + 4)) in H
    by (change (2 ^ 64) with 18446744073709551616; lia).
  bind_ok H len Elen.
  pose proof (load16_in_buffer _ _ _ Elen) as [I2 I3].
  pose proof (load16_range _ _ _ Elen) as Rlen.
  rewrite (wrap_ptr_small (p0 + 4 + 2 + 2 + 4 + 4)) in H
    by (change (2 ^ 64) with 18446744073709551616; lia).
  assert (Rf : 0 <= fixsize len < 2 ^ 32).
  { rewrite <- (wrap32_small len) by lia. apply fixsize_range. }
  pose proof (fixsize_multiple_of_4 len) as Hf4.
  change (2 ^ 32) with 4294967296 in Rf.
  set (f := fixsize len) in *.
  rewrite (wrap_ptr_small (p0 + 4 + 2 + 2 + 4 + 4 + f)) in H
    by (change (2 ^ 64) with 18446744073709551616; lia).
  bind_ok H flags Eflags.
  pose proof (load16_in_buffer _ _ _ Eflags) as [I4 I5].
  rewrite (wrap_ptr_small (p0 + 4 + 2 + 2 + 4 + 4 + f + 2)) in H
    by (change (2 ^ 64) with 18446744073709551616; lia).
  bind_ok H streams Estreams.
  pose proof (load16_in_buffer _ _ _ Estreams) as [I6 I7].
  pose proof (load16_range _ _ _ Estreams) as Rs.
  rewrite (wrap_ptr_small (p0 + 4 + 2 + 2 + 4 + 4 + f + 2 + 2)) in H
    by (change (2 ^ 64) with 18446744073709551616; lia).
  bind_ok H r Er. destruct r as [hs q]. cbv beta iota zeta in H.
  apply read_stream_headers_layout in Er;
    [| exact Hm | change (2 ^ 64) with 18446744073709551616; lia].
  destruct Er as [Hlen [_ [_ [_ Hnames]]]].
  set (MHeader := clrmeta_header.mk p0 sg 1 1 0 len
                    (p0 + 4 + 2 + 2 + 4 + 4) flags streams hs None) in *.
  assert (Hh : h = MHeader
               \/ exists tabs, h = clrmeta_header.with_MetaTables MHeader tabs).
  { destruct (initMetadataTablesSetup ndebug M MHeader) as [h'|e| |msg] eqn:Es;
      try discriminate H.
    - apply Ok_inj in H. subst h'. right.
      exact (initMetadataTablesSetup_fields _ _ _ _ Es).
    - apply Ok_inj in H. left. symmetry. exact H. }
  assert (Hfields :
    clrmeta_header.MetadataInitPtr h = p0 /\
    clrmeta_header.MajorRuntimeVersion h = 1 /\
    clrmeta_header.MinorRuntimeVersion h = 1 /\
    clrmeta_header.Version h = p0 + 4 + 2 + 2 + 4 + 4 /\
    clrmeta_header.StreamHeaders h = hs /\
    clrmeta_header.Streams h = streams).
  { destruct Hh as [-> | [tabs ->]]; repeat split. }
  destruct Hfields as [F1 [F2 [F3 [F4 [F5 F6]]]]].
  rewrite F1, F2, F3, F4, F5, F6.
  repeat split; try lia.
  - destruct (Hnames s H0) as [Hn4 _].
    replace (clrstream_header.name s - p0)
      with ((clrstream_header.name s
             - (p0 + 4 + 2 + 2 + 4 + 4 + f + 2 + 2)) + (f + 4 * 5)) by lia.
    apply mod4_shift; assumption.
  - apply (Hnames s H0).
  - apply (Hnames s H0).
Qed.

Lemma initMetadataPtr_header_layout_witness :
  match initMetadataPtr false metadata_image 0x30000 with
  | Ok h =>
      clrmeta_header.MajorRuntimeVersion h = 1 /\
      Z.of_nat (List.length (clrmeta_header.StreamHeaders h))
      = clrmeta_header.Streams h
  | _ => False
  end.
Proof.
  assert (L : low_mapped metadata_image) by (split; vm_compute; discriminate).
  destruct (initMetadataPtr false metadata_image 0x30000) as [h| | |] eqn:E;
    try (vm_compute in E; discriminate E).
  pose proof (initMetadataPtr_header_layout false metadata_image 0x30000 h
                L E) as W.
  exact (conj (proj1 (proj2 W)) (proj1 (proj2 (proj2 (proj2 (proj2 W)))))).
Defined.

(* ----------------------------------------------------------------- *)
(** *** Metadata without a tables stream *)

Lemma find_tables_stream_first : forall M hs init k n i h,
  (k < n)%nat ->
  nth_error hs (i + k) = Some h ->
  (forall j, (j < k)%nat ->
     exists x, nth_error hs (i + j) = Some x /\
               strcmp_eq M (clrstream_header.name x) tilde_stream = Ok false) ->
  strcmp_eq M (clrstream_header.name h) tilde_stream = Ok true ->
  find_tables_stream M hs n i init
  = Ok (wrap_ptr (init + clrstream_header.offset h)).
Proof.
  intros M hs init. induction k as [|k IH]; intros n i h Hk Hh Hpre Hhit;
    (destruct n as [|n]; [lia|]); cbn [find_tables_stream].
  - rewrite Nat.add_0_r in Hh. rewrite Hh, Hhit. reflexivity.
  - destruct (Hpre O ltac:(lia)) as [x [Hx Hmiss]].
    rewrite Nat.add_0_r in Hx. rewrite Hx, Hmiss. cbn [bind].
    apply (IH n (S i) h); [lia | | | exact Hhit].
    + replace (S i + k)%nat with (i + S k)%nat by lia. exact Hh.
    + intros j Hj. destruct (Hpre (S j) ltac:(lia)) as [y [Hy Hm]].
      exists y. split; [|exact Hm].
      replace (S i + j)%nat with (i + S j)%nat by lia. exact Hy.
Qed.

Lemma find_tables_stream_none : forall M hs init n i,
  (forall j, (j < n)%nat ->
     exists x, nth_error hs (i + j) = Some x /\
               strcmp_eq M (clrstream_header.name x) tilde_stream = Ok false) ->
  find_tables_stream M hs n i init = Ok init.
Proof.
  intros M hs init. induction n as [|n IH]; intros i Hall;
    cbn [find_tables_stream]; [reflexivity|].
  destruct (Hall O ltac:(lia)) as [x [Hx Hmiss]].
  rewrite Nat.add_0_r in Hx. rewrite Hx, Hmiss. cbn [bind].
  apply IH. intros j Hj. destruct (Hall (S j) ltac:(lia)) as [y [Hy Hm]].
  exists y. split; [|exact Hm].
  replace (S i + j)%nat with (i + S j)%nat by lia. exact Hy.
Qed.

(** X18.  [initMetadataTablesSetup] decides that there are no metadata tables
    by comparing its cursor with the start of the metadata root: it
    returns success with the zeroed tables head not only when none of
    the [Streams] headers is named ["#~"], but also when the first one
    so named has offset 0. *)
Theorem initMetadataTablesSetup_without_tables : forall ndebug M MHeader,
  let hs := clrmeta_header.StreamHeaders MHeader in
  let n := Z.to_nat (clrmeta_header.Streams MHeader) in
  let absent :=
    Ok (clrmeta_header.with_MetaTables MHeader clrmeta_tables_head.zero) in
  ((forall j, (j < n)%nat ->
      exists x, nth_error hs j = Some x /\
                strcmp_eq M (clrstream_header.name x) tilde_stream
                = Ok false) ->
   initMetadataTablesSetup ndebug M MHeader = absent) /\
  (forall k h,
     (k < n)%nat -> nth_error hs k = Some h ->
     (forall j, (j < k)%nat ->
        exists x, nth_error hs j = Some x /\
                  strcmp_eq M (clrstream_header.name x) tilde_stream
                  = Ok false) ->
     strcmp_eq M (clrstream_header.name h) tilde_stream = Ok true ->
     clrstream_header.offset h = 0 ->
     0 <= clrmeta_header.MetadataInitPtr MHeader < 2 ^ 64 ->
     initMetadataTablesSetup ndebug M MHeader = absent).
Proof.
  intros ndebug M MHeader hs n absent. split.
  - intros Hall. unfold initMetadataTablesSetup,
      initMetadataTablesSetup_cursors. cbv zeta. fold hs n.
    rewrite (find_tables_stream_none M hs _ n O Hall). cbn [bind].
    rewrite Z.eqb_refl. reflexivity.
  - intros k h Hk Hh Hpre Hhit Hoff Hinit.
    unfold initMetadataTablesSetup, initMetadataTablesSetup_cursors.
    cbv zeta. fold hs n.
    rewrite (find_tables_stream_first M hs _ k n O h Hk Hh Hpre Hhit).
    cbn [bind]. rewrite Hoff, Z.add_0_r, wrap_ptr_small by exact Hinit.
    rewrite Z.eqb_refl. reflexivity.
Qed.

Lemma initMetadataTablesSetup_without_tables_witness :
  initMetadataTablesSetup false metadata_image tables_stream_at_root
  = Ok (clrmeta_header.with_MetaTables tables_stream_at_root
          clrmeta_tables_head.zero).
Proof.
  assert (K : (0 < Z.to_nat 1)%nat) by (vm_compute; constructor).
  assert (R : 0 <= 0x30000 < 2 ^ 64) by lia.
  refine (proj2 (initMetadataTablesSetup_without_tables false metadata_image
                   tables_stream_at_root)
            O (clrstream_header.mk 0 78 0x30028) K eq_refl _ eq_refl eq_refl R).
  intros j Hj. inversion Hj.
Defined.

(* ----------------------------------------------------------------- *)
(** *** The CLI header *)

Lemma getRvaPtr_loop_positive : forall b secs Rva p,
  0 < b -> b + 2 ^ 40 <= 2 ^ 64 ->
  (forall s, In s secs -> section_wf s) ->
  getRvaPtr_loop b secs Rva = Ok p -> 0 < p.
Proof.
  intros b secs Rva p Hb0 Hb1.
  change (2 ^ 40) with 1099511627776 in Hb1.
  change (2 ^ 64) with 18446744073709551616 in Hb1.
  induction secs as [|s rest IH]; intros Hwf H; cbn [getRvaPtr_loop] in H;
    [discriminate H|].
  cbv zeta in H.
  destruct ((coff_section.VirtualAddress s <=? Rva)
            && (Rva <? wrap32 (coff_section.VirtualAddress s
                               + coff_section.VirtualSize s))).
  - apply Ok_inj in H. subst p.
    destruct (Hwf s (or_introl eq_refl)) as [_ [_ [P0 P1]]].
    pose proof (wrap32_range (Rva - coff_section.VirtualAddress s)) as R.
    change (2 ^ 32) with 4294967296 in P1, R.
    rewrite wrap_ptr_small
      by (change (2 ^ 64) with 18446744073709551616; lia).
    lia.
  - apply IH; [|exact H]. intros s' Hin. apply Hwf. right. exact Hin.
Qed.

(** X19.  [initCLRHeaderPtr] on an image whose [CLRHeader] is still null, when
    it succeeds: [isPureCil] then answers true exactly when the data
    directory has an entry for the CLI header with a nonzero RVA,
    whatever the flags of the CLI header and whether or not the
    metadata could be read. *)
Theorem isPureCil_iff_clr_directory : forall ndebug I I',
  low_mapped (Data (Obj I)) ->
  0 < base (Obj I) ->
  (forall s, In s (sections (Obj I)) -> section_wf s) ->
  CLRHeader I = 0 ->
  initCLRHeaderPtr ndebug I = Ok I' ->
  (isPureCil I' = true <->
   exists entry rva,
     getDataDirectory ndebug (Obj I) CLR_RUNTIME_HEADER = Ok entry /\
     load32 (Data (Obj I)) entry = Ok rva /\ rva <> 0).
Proof.
  intros ndebug I I' Hm Hb Hwf Hnull H.
  pose proof Hm as [M0 M1].
  pose proof (buffer_end_ge_start (Data (Obj I))) as Hge.
  unfold initCLRHeaderPtr in H. bind_ok H e Ee.
  destruct e as [[entry rva]|].
  - destruct (proj2 (directory_entry_cases _ _ _ _ eq_refl) _ _ Ee)
      as [Hd [Hl Hnz]].
    bind_ok H p Ep.
    assert (Hp : 0 < p).
    { unfold getRvaPtr in Ep.
      apply (getRvaPtr_loop_positive _ _ _ _ Hb) in Ep;
        [exact Ep | unfold base; lia | exact Hwf]. }
    assert (HI : CLRHeader I' = p).
    { bind_ok H mrva Em. destruct (mrva =? 0).
      - apply Ok_inj in H. subst I'. reflexivity.
      - bind_ok H mp Emp.
        destruct (initMetadataPtr _ _ _); try discriminate H;
          apply Ok_inj in H; subst I'; reflexivity. }
    unfold isPureCil. rewrite HI.
    replace (p =? 0) with false by (symmetry; apply Z.eqb_neq; lia).
    split; [intros _ | reflexivity].
    exists entry, rva. repeat split; assumption.
  - apply Ok_inj in H. subst I'. unfold isPureCil. rewrite Hnull.
    split; [intros Hf; discriminate Hf|].
    intros [entry [rva [Hd [Hl Hnz]]]]. exfalso.
    unfold directory_entry in Ee. rewrite Hd in Ee. rewrite Hl in Ee.
    cbn [bind] in Ee.
    replace (rva =? 0) with false in Ee
      by (symmetry; apply Z.eqb_neq; exact Hnz).
    discriminate Ee.
Qed.

Lemma isPureCil_iff_clr_directory_witness :
  match initCLRHeaderPtr false clr_image with
  | Ok img => isPureCil img = true
  | _ => False
  end.
Proof.
  assert (L : low_mapped (Data (Obj clr_image)))
    by (split; vm_compute; discriminate).
  assert (B : 0 < base (Obj clr_image)) by (vm_compute; reflexivity).
  assert (W : forall s, In s (sections (Obj clr_image)) -> section_wf s).
  { intros s [<- | []]. unfold section_wf, u32. cbn. lia. }
  destruct (initCLRHeaderPtr false clr_image) as [img| | |] eqn:E;
    try (vm_compute in E; discriminate E).
  apply (proj2 (isPureCil_iff_clr_directory false clr_image img
                  L B W eq_refl E)).
  exists 0x90070, 0x1078. repeat split; try reflexivity. discriminate.
Defined.

(* ----------------------------------------------------------------- *)
(** *** Accessors of COFF.h *)

(** X20.  [coff_symbol::getBaseType] and [getComplexType] split the low byte
    of [Type] into its two nibbles; the high byte is in neither. *)
Theorem symbol_type_nibbles : forall Type_,
  0 <= Type_ < 65536 ->
  0 <= getBaseType Type_ < 16 /\
  0 <= getComplexType Type_ < 16 /\
  getBaseType Type_ + 16 * getComplexType Type_ = Type_ mod 256.
Proof.
  intros T HT. unfold getBaseType, getComplexType.
  change 15 with (Z.ones 4). rewrite Z.land_ones by lia.
  rewrite Z.shiftr_land. change (Z.shiftr 240 4) with (Z.ones 4).
  rewrite Z.land_ones by lia. rewrite Z.shiftr_div_pow2 by lia.
  change (2 ^ 4) with 16.
  pose proof (Z.mod_pos_bound T 16 ltac:(lia)) as R0.
  pose proof (Z.mod_pos_bound (T / 16) 16 ltac:(lia)) as R1.
  rewrite !wrap_small by (change (2 ^ 8) with 256; lia).
  split; [exact R0|]. split; [exact R1|].
  change 256 with (16 * 16). rewrite Z.rem_mul_r by lia. reflexivity.
Qed.

Lemma symbol_type_nibbles_witness :
  getBaseType 0x1234 + 16 * getComplexType 0x1234 = 0x1234 mod 256.
Proof.
  assert (R : 0 <= 0x1234 < 65536) by lia.
  exact (proj2 (proj2 (symbol_type_nibbles 0x1234 R))).
Defined.

(** X21.  An [import_lookup_table_entry32] is an ordinal exactly when its top
    bit is set.  In a debug build exactly one of [getOrdinal] and
    [getHintNameRVA] returns, the other stops at its [assert]:
    [getOrdinal] for an ordinal, with the low 16 bits, and
    [getHintNameRVA] otherwise, with a value below [2^31].  A release
    build returns from both. *)
Theorem import_lookup_entry_accessors : forall data,
  u32 data ->
  (import_lookup_table_entry32.isOrdinal data = true <-> 2 ^ 31 <= data) /\
  import_lookup_table_entry32.getOrdinal true data = Ok (data mod 65536) /\
  import_lookup_table_entry32.getHintNameRVA true data = Ok data /\
  (2 ^ 31 <= data ->
     import_lookup_table_entry32.getOrdinal false data
     = Ok (data mod 65536) /\
     is_abort (import_lookup_table_entry32.getHintNameRVA false data)
     = true) /\
  (data < 2 ^ 31 ->
     import_lookup_table_entry32.getHintNameRVA false data = Ok data /\
     is_abort (import_lookup_table_entry32.getOrdinal false data) = true).
Proof.
  intros data [H0 H1].
  change (2 ^ 32) with 4294967296 in H1.
  assert (Hord : import_lookup_table_entry32.isOrdinal data
                 = (2 ^ 31 <=? data)).
  { unfold import_lookup_table_entry32.isOrdinal.
    change 2147483648 with (2 ^ 31). rewrite land_pow2 by lia.
    destruct (Z.testbit data 31) eqn:Eb.
    - apply Z.testbit_true in Eb; [|lia].
      change (2 ^ 31) with 2147483648 in *.
      symmetry. apply Z.leb_le.
      destruct (Z_lt_le_dec data 2147483648) as [Hlt|Hge]; [|exact Hge].
      rewrite Z.div_small in Eb by lia. discriminate Eb.
    - apply Z.testbit_false in Eb; [|lia].
      change (2 ^ 31) with 2147483648 in *.
      symmetry. apply Z.leb_gt.
      destruct (Z_lt_le_dec data 2147483648) as [Hlt|Hge]; [exact Hlt|].
      assert (Hd : data / 2147483648 = 1).
      { symmetry. apply Z.div_unique with (r := data - 2147483648); lia. }
      rewrite Hd in Eb. discriminate Eb. }
  assert (Hlow : wrap 16 (Z.land data 65535) = data mod 65536).
  { change 65535 with (Z.ones 16). rewrite Z.land_ones by lia.
    change (2 ^ 16) with 65536.
    apply wrap_small. change (2 ^ 16) with 65536.
    apply Z.mod_pos_bound. lia. }
  unfold import_lookup_table_entry32.getOrdinal,
    import_lookup_table_entry32.getHintNameRVA, assert_.
  rewrite Hord, Hlow. cbn [bind].
  split; [rewrite Z.leb_le; reflexivity|].
  split; [reflexivity|]. split; [reflexivity|].
  split; intros Hc.
  - replace (2 ^ 31 <=? data) with true by (symmetry; apply Z.leb_le; lia).
    split; reflexivity.
  - replace (2 ^ 31 <=? data) with false by (symmetry; apply Z.leb_gt; lia).
    split; reflexivity.
Qed.

Lemma import_lookup_entry_accessors_witness :
  import_lookup_table_entry32.getOrdinal false 0x80000007 = Ok 7 /\
  import_lookup_table_entry32.getHintNameRVA false 0x2040 = Ok 0x2040.
Proof.
  assert (A : u32 0x80000007) by (unfold u32; lia).
  assert (B : u32 0x2040) by (unfold u32; lia).
  assert (C : 2 ^ 31 <= 0x80000007) by lia.
  assert (D : 0x2040 < 2 ^ 31) by lia.
  exact (conj
    (proj1 (proj1 (proj2 (proj2 (proj2
       (import_lookup_entry_accessors 0x80000007 A)))) C))
    (proj1 (proj2 (proj2 (proj2 (proj2
       (import_lookup_entry_accessors 0x2040 B)))) D))).
Defined.

(* ----------------------------------------------------------------- *)
(** *** Outcomes of metadata parsing *)

Lemma bind_Ok : forall (A B : Type) (a : A) (k : A -> outcome B),
  bind (Ok a) k = k a.
Proof. reflexivity. Qed.

Lemma is_abort_bind : forall (A B : Type) (m : outcome A) (k : A -> outcome B),
  is_abort m = true -> is_abort (bind m k) = true.
Proof.
  intros A B m k H. destruct m; try discriminate H. reflexivity.
Qed.

Lemma read_rows_inside : forall M n q,
  BufferStart M <= q -> q + 4 * Z.of_nat n <= getBufferEnd M ->
  getBufferEnd M < 2 ^ 64 -> 0 <= q ->
  exists rows, read_rows M n q = Ok (rows, q + 4 * Z.of_nat n).
Proof.
  intros M n. induction n as [|n IH]; intros q H0 H1 H2 H3;
    cbn [read_rows].
  - exists []. do 2 f_equal. lia.
  - destruct (load32_inside M q ltac:(lia) ltac:(lia)) as [r Er].
    rewrite Er, bind_Ok. rewrite wrap_ptr_small by lia.
    destruct (IH (q + 4) ltac:(lia) ltac:(lia) H2 ltac:(lia)) as [rows Erows].
    rewrite Erows, bind_Ok. exists (r :: rows). do 2 f_equal. lia.
Qed.

(** [setupTablePointers] on the row array of [popcount(Valid)] entries
    returns in a release build, and in a debug build when no asserted
    table is present. *)
Lemma setupTablePointers_returns : forall ndebug p tabs,
  Z.of_nat (List.length (clrmeta_tables_head.Rows tabs))
  = popcount (clrmeta_tables_head.Valid tabs) ->
  ndebug = true
  \/ existsb (Z.testbit (clrmeta_tables_head.Valid tabs)) asserted_tables
     = false ->
  exists tabs' q,
    setupTablePointers ndebug p tabs = Ok (tabs', q) /\
    clrmeta_tables_head.Valid tabs' = clrmeta_tables_head.Valid tabs /\
    clrmeta_tables_head.Rows tabs' = clrmeta_tables_head.Rows tabs.
Proof.
  intros ndebug p tabs Hrows Hok.
  assert (Hrun : exists st,
            setup_entries ndebug (clrmeta_tables_head.Valid tabs)
              (clrmeta_tables_head.Rows tabs) table_layout
              (clrmeta_tables_head.tablePtr tabs, p, O) = Ok st).
  { eexists. apply setup_entries_run.
    - destruct Hok as [Hr | Hn]; [left; exact Hr | right].
      rewrite some_asserted_testbit by exact layout_bits_in_range.
      rewrite asserted_of_layout. exact Hn.
    - pose proof (taken_kinds_popcount (clrmeta_tables_head.Valid tabs)).
      cbn [Nat.add]. lia. }
  destruct Hrun as [[[ptr cur] tb] Hrun].
  unfold setupTablePointers. cbv zeta. rewrite Hrun, bind_Ok.
  cbv beta iota. eexists. eexists. split; [reflexivity|].
  split; reflexivity.
Qed.

Lemma setupTablePointers_stops : forall p tabs,
  Z.of_nat (List.length (clrmeta_tables_head.Rows tabs))
  = popcount (clrmeta_tables_head.Valid tabs) ->
  existsb (Z.testbit (clrmeta_tables_head.Valid tabs)) asserted_tables
  = true ->
  is_abort (setupTablePointers false p tabs) = true.
Proof.
  intros p tabs Hrows Hex.
  rewrite setupTablePointers_is_abort, setup_entries_abort.
  - rewrite some_asserted_testbit by exact layout_bits_in_range.
    rewrite asserted_of_layout. exact Hex.
  - pose proof (taken_kinds_popcount (clrmeta_tables_head.Valid tabs)).
    cbn [Nat.add]. lia.
Qed.

(** The outcome of [initMetadataTablesSetup] once its first loop has
    left the cursor at [t]. *)
Lemma initMetadataTablesSetup_outcome : forall ndebug M MHeader t Valid,
  low_mapped M ->
  find_tables_stream M (clrmeta_header.StreamHeaders MHeader)
    (Z.to_nat (clrmeta_header.Streams MHeader)) O
    (clrmeta_header.MetadataInitPtr MHeader) = Ok t ->
  (t = clrmeta_header.MetadataInitPtr MHeader ->
     initMetadataTablesSetup ndebug M MHeader
     = Ok (clrmeta_header.with_MetaTables MHeader clrmeta_tables_head.zero))
  /\
  (t <> clrmeta_header.MetadataInitPtr MHeader ->
   BufferStart M <= t ->
   t + 24 + 4 * popcount Valid <= getBufferEnd M ->
   load64 M (t + 8) = Ok Valid ->
     if ndebug || negb (existsb (Z.testbit Valid) asserted_tables)
     then exists tabs,
            initMetadataTablesSetup ndebug M MHeader
            = Ok (clrmeta_header.with_MetaTables MHeader tabs) /\
            clrmeta_tables_head.Valid tabs = Valid /\
            Z.of_nat (List.length (clrmeta_tables_head.Rows tabs))
            = popcount Valid
     else is_abort (initMetadataTablesSetup ndebug M MHeader) = true).
Proof.
  intros ndebug M MHeader t Valid [M0 M1] Hfind.
  pose proof (buffer_end_ge_start M) as Hge.
  change (2 ^ 40) with 1099511627776 in M1.
  change (2 ^ 64) with 18446744073709551616 in M1.
  unfold initMetadataTablesSetup, initMetadataTablesSetup_cursors.
  cbv zeta. rewrite Hfind, bind_Ok. cbv beta.
  split.
  - intros ->. rewrite Z.eqb_refl. rewrite bind_Ok. reflexivity.
  - intros Hne Ht0 Ht1 HValid.
    pose proof (popcount_range Valid) as Rpop.
    replace (t =? clrmeta_header.MetadataInitPtr MHeader) with false
      by (symmetry; apply Z.eqb_neq; exact Hne).
    rewrite (wrap_ptr_small (t + 4))
      by (change (2 ^ 64) with 18446744073709551616; lia).
    rewrite (wrap_ptr_small (t + 4 + 1))
      by (change (2 ^ 64) with 18446744073709551616; lia).
    rewrite (wrap_ptr_small (t + 4 + 1 + 1))
      by (change (2 ^ 64) with 18446744073709551616; lia).
    rewrite (wrap_ptr_small (t + 4 + 1 + 1 + 1))
      by (change (2 ^ 64) with 18446744073709551616; lia).
    rewrite (wrap_ptr_small (t + 4 + 1 + 1 + 1 + 1))
      by (change (2 ^ 64) with 18446744073709551616; lia).
    rewrite (wrap_ptr_small (t + 4 + 1 + 1 + 1 + 1 + 8))
      by (change (2 ^ 64) with 18446744073709551616; lia).
    rewrite (wrap_ptr_small (t + 4 + 1 + 1 + 1 + 1 + 8 + 8))
      by (change (2 ^ 64) with 18446744073709551616; lia).
    replace (t + 4 + 1 + 1 + 1 + 1) with (t + 8) by lia.
    replace (t + 8 + 8 + 8) with (t + 24) by lia.
    destruct (load8_inside M (t + 4) ltac:(lia)) as [major ->].
    rewrite bind_Ok.
    destruct (load8_inside M (t + 4 + 1) ltac:(lia)) as [minor ->].
    rewrite bind_Ok.
    destruct (load8_inside M (t + 4 + 1 + 1) ltac:(lia)) as [heap ->].
    rewrite bind_Ok. rewrite HValid, bind_Ok.
    destruct (load64_inside M (t + 8 + 8) ltac:(lia) ltac:(lia))
      as [sorted ->].
    rewrite bind_Ok. rewrite countbits_popcount.
    destruct (read_rows_inside M (Z.to_nat (popcount Valid)) (t + 24))
      as [rows Erows];
      [ lia | lia | change (2 ^ 64) with 18446744073709551616; lia | lia |].
    pose proof (read_rows_length _ _ _ _ _ Erows) as [Hlen _].
    rewrite Erows, bind_Ok. cbv beta iota.
    set (tabs0 := clrmeta_tables_head.mk 0 major minor heap 0 Valid sorted 0
                    rows clrTablePtr.zero).
    assert (Hrows0 : Z.of_nat (List.length (clrmeta_tables_head.Rows tabs0))
                     = popcount (clrmeta_tables_head.Valid tabs0))
      by (cbn [clrmeta_tables_head.Rows clrmeta_tables_head.Valid tabs0];
          lia).
    destruct (ndebug || negb (existsb (Z.testbit Valid) asserted_tables))
      eqn:Ecase.
    + assert (Hok : ndebug = true
                    \/ existsb (Z.testbit (clrmeta_tables_head.Valid tabs0))
                         asserted_tables = false).
      { apply orb_true_iff in Ecase. destruct Ecase as [E | E];
          [left; exact E | right].
        apply negb_true_iff in E. exact E. }
      destruct (setupTablePointers_returns ndebug
                  (t + 24 + 4 * Z.of_nat (Z.to_nat (popcount Valid)))
                  tabs0 Hrows0 Hok) as [tabs' [q [Erun [HV HR]]]].
      rewrite Erun, bind_Ok. cbv beta iota. rewrite bind_Ok.
      exists tabs'. split; [reflexivity|]. split; [exact HV|].
      rewrite HR. exact Hrows0.
    + apply orb_false_iff in Ecase. destruct Ecase as [-> E].
      apply negb_false_iff in E.
      apply is_abort_bind. apply is_abort_bind.
      apply setupTablePointers_stops; [exact Hrows0 | exact E].
Qed.

(** The outcome of [initMetadataPtr] on a readable metadata root and
    stream directory. *)
Lemma initMetadataPtr_outcome :
  forall ndebug M p sg len flags streams hs q t Valid,
  low_mapped M ->
  load32 M p = Ok sg ->
  load16 M (p + 12) = Ok len ->
  load16 M (p + 16 + fixsize len) = Ok flags ->
  load16 M (p + 18 + fixsize len) = Ok streams ->
  read_stream_headers M (Z.to_nat streams) (p + 20 + fixsize len)
  = Ok (hs, q) ->
  find_tables_stream M hs (Z.to_nat streams) O p = Ok t ->
  let MHeader :=
    clrmeta_header.mk p sg 1 1 0 len (p + 16) flags streams hs None in
  (t = p ->
     initMetadataPtr ndebug M p
     = Ok (clrmeta_header.with_MetaTables MHeader clrmeta_tables_head.zero))
  /\
  (t <> p ->
   BufferStart M <= t ->
   t + 24 + 4 * popcount Valid <= getBufferEnd M ->
   load64 M (t + 8) = Ok Valid ->
     if ndebug || negb (existsb (Z.testbit Valid) asserted_tables)
     then exists tabs,
            initMetadataPtr ndebug M p
            = Ok (clrmeta_header.with_MetaTables MHeader tabs) /\
            clrmeta_tables_head.Valid tabs = Valid /\
            Z.of_nat (List.length (clrmeta_tables_head.Rows tabs))
            = popcount Valid
     else is_abort (initMetadataPtr ndebug M p) = true).
Proof.
  intros ndebug M p sg len flags streams hs q t Valid Hm Hsig Hlen Hflags
    Hstreams Hhs Hfind MHeader.
  pose proof Hm as [M0 M1].
  change (2 ^ 40) with 1099511627776 in M1.
  change (2 ^ 64) with 18446744073709551616 in M1.
  pose proof (load32_in_buffer _ _ _ Hsig) as [I0 I1].
  pose proof (load16_in_buffer _ _ _ Hlen) as [I2 I3].
  pose proof (load16_in_buffer _ _ _ Hflags) as [I4 I5].
  pose proof (load16_in_buffer _ _ _ Hstreams) as [I6 I7].
  pose proof (load16_range _ _ _ Hlen) as Rlen.
  assert (Rf : 0 <= fixsize len < 2 ^ 32).
  { rewrite <- (wrap32_small len) by lia. apply fixsize_range. }
  change (2 ^ 32) with 4294967296 in Rf.
  assert (Hpre : initMetadataPtr ndebug M p
                 = match initMetadataTablesSetup ndebug M MHeader with
                   | Ok h => Ok h
                   | Err _ => Ok MHeader
                   | Fault => Fault
                   | Abort msg => Abort msg
                   end).
  { unfold initMetadataPtr. cbv zeta.
    rewrite Hsig, bind_Ok.
    rewrite (wrap_ptr_small (p + 4))
      by (change (2 ^ 64) with 18446744073709551616; lia).
    rewrite (wrap_ptr_small (p + 4 + 2))
      by (change (2 ^ 64) with 18446744073709551616; lia).
    rewrite (wrap_ptr_small (p + 4 + 2 + 2))
      by (change (2 ^ 64) with 18446744073709551616; lia).
    rewrite (wrap_ptr_small (p + 4 + 2 + 2 + 4))
      by (change (2 ^ 64) with 18446744073709551616; lia).
    replace (p + 4 + 2 + 2 + 4) with (p + 12) by lia.
    rewrite Hlen, bind_Ok.
    rewrite (wrap_ptr_small (p + 12 + 4))
      by (change (2 ^ 64) with 18446744073709551616; lia).
    rewrite (wrap_ptr_small (p + 12 + 4 + fixsize len))
      by (change (2 ^ 64) with 18446744073709551616; lia).
    replace (p + 12 + 4 + fixsize len) with (p + 16 + fixsize len) by lia.
    rewrite Hflags, bind_Ok.
    rewrite (wrap_ptr_small (p + 16 + fixsize len + 2))
      by (change (2 ^ 64) with 18446744073709551616; lia).
    replace (p + 16 + fixsize len + 2) with (p + 18 + fixsize len) by lia.
    rewrite Hstreams, bind_Ok.
    rewrite (wrap_ptr_small (p + 18 + fixsize len + 2))
      by (change (2 ^ 64) with 18446744073709551616; lia).
    replace (p + 18 + fixsize len + 2) with (p + 20 + fixsize len) by lia.
    rewrite Hhs, bind_Ok. cbv beta iota.
    replace (p + 12 + 4) with (p + 16) by lia.
    reflexivity. }
  destruct (initMetadataTablesSetup_outcome ndebug M MHeader t Valid Hm Hfind)
    as [Hnone Hsome].
  cbn [clrmeta_header.MetadataInitPtr MHeader] in Hnone, Hsome.
  split.
  - intros Ht. rewrite Hpre, (Hnone Ht). reflexivity.
  - intros Hne Ht0 Ht1 HValid. specialize (Hsome Hne Ht0 Ht1 HValid).
    destruct (ndebug || negb (existsb (Z.testbit Valid) asserted_tables)).
    + destruct Hsome as [tabs [Erun [HV HR]]]. exists tabs.
      rewrite Hpre, Erun. repeat split; assumption.
    + rewrite Hpre.
      destruct (initMetadataTablesSetup ndebug M MHeader);
        try discriminate Hsome. reflexivity.
Qed.

(** C10, as the code has it.  [initMetadataPtr] and
    [initMetadataTablesSetup] never return an error code, in either
    build and whatever the signature, which is stored and not compared;
    but they do not return success on every input: no read is checked
    against the end of the buffer, and a build with assertions stops in
    [setupTablePointers].  A release build never stops at an assertion.
    When the metadata root and the stream directory are readable and
    the first loop of [initMetadataTablesSetup] leaves the cursor at
    [t]: with no [#~] stream ([t] is the root) both functions return
    success with the zeroed tables head; with the head of the [#~]
    stream and its [popcount(Valid)] row counts inside the buffer, a
    release build returns success, and a debug build returns success
    when [Valid] has none of the 31 asserted tables and stops at the
    assertion when it has one. *)
Theorem metadata_parsing_outcomes :
  (forall ndebug M MetadataIntPtr e,
     initMetadataPtr ndebug M MetadataIntPtr <> Err e) /\
  (forall ndebug M MHeader e,
     initMetadataTablesSetup ndebug M MHeader <> Err e) /\
  (forall M MetadataIntPtr msg,
     initMetadataPtr true M MetadataIntPtr <> Abort msg) /\
  (forall M MHeader msg,
     initMetadataTablesSetup true M MHeader <> Abort msg) /\
  (forall ndebug M MHeader t Valid,
     low_mapped M ->
     find_tables_stream M (clrmeta_header.StreamHeaders MHeader)
       (Z.to_nat (clrmeta_header.Streams MHeader)) O
       (clrmeta_header.MetadataInitPtr MHeader) = Ok t ->
     (t = clrmeta_header.MetadataInitPtr MHeader ->
        initMetadataTablesSetup ndebug M MHeader
        = Ok (clrmeta_header.with_MetaTables MHeader
                clrmeta_tables_head.zero)) /\
     (t <> clrmeta_header.MetadataInitPtr MHeader ->
      BufferStart M <= t ->
      t + 24 + 4 * popcount Valid <= getBufferEnd M ->
      load64 M (t + 8) = Ok Valid ->
        if ndebug || negb (existsb (Z.testbit Valid) asserted_tables)
        then exists tabs,
               initMetadataTablesSetup ndebug M MHeader
               = Ok (clrmeta_header.with_MetaTables MHeader tabs) /\
               clrmeta_tables_head.Valid tabs = Valid /\
               Z.of_nat (List.length (clrmeta_tables_head.Rows tabs))
               = popcount Valid
        else is_abort (initMetadataTablesSetup ndebug M MHeader) = true)) /\
  (forall ndebug M p Signature Length Flags Streams StreamHeaders q t Valid,
     low_mapped M ->
     load32 M p = Ok Signature ->
     load16 M (p + 12) = Ok Length ->
     load16 M (p + 16 + fixsize Length) = Ok Flags ->
     load16 M (p + 18 + fixsize Length) = Ok Streams ->
     read_stream_headers M (Z.to_nat Streams) (p + 20 + fixsize Length)
     = Ok (StreamHeaders, q) ->
     find_tables_stream M StreamHeaders (Z.to_nat Streams) O p = Ok t ->
     let MHeader :=
       clrmeta_header.mk p Signature 1 1 0 Length (p + 16) Flags Streams
         StreamHeaders None in
     (t = p ->
        initMetadataPtr ndebug M p
        = Ok (clrmeta_header.with_MetaTables MHeader
                clrmeta_tables_head.zero)) /\
     (t <> p ->
      BufferStart M <= t ->
      t + 24 + 4 * popcount Valid <= getBufferEnd M ->
      load64 M (t + 8) = Ok Valid ->
        if ndebug || negb (existsb (Z.testbit Valid) asserted_tables)
        then exists tabs,
               initMetadataPtr ndebug M p
               = Ok (clrmeta_header.with_MetaTables MHeader tabs) /\
               clrmeta_tables_head.Valid tabs = Valid /\
               Z.of_nat (List.length (clrmeta_tables_head.Rows tabs))
               = popcount Valid
        else is_abort (initMetadataPtr ndebug M p) = true)).
Proof.
  split; [|split; [|split; [|split; [|split]]]].
  - intros ndebug M p e H.
    pose proof (proj1 (metadata_parsing_no_error_code ndebug M) p) as N.
    rewrite H in N. exact N.
  - intros ndebug M MHeader e H.
    pose proof (proj1 (proj2 (metadata_parsing_no_error_code ndebug M))
                  MHeader) as N.
    rewrite H in N. exact N.
  - intros M p msg H.
    pose proof (proj1 (metadata_parsing_no_error_code true M) p) as N.
    rewrite H in N. discriminate N.
  - intros M MHeader msg H.
    pose proof (proj1 (proj2 (metadata_parsing_no_error_code true M))
                  MHeader) as N.
    rewrite H in N. discriminate N.
  - exact initMetadataTablesSetup_outcome.
  - exact initMetadataPtr_outcome.
Qed.

Lemma metadata_parsing_outcomes_witness :
  (exists tabs,
     initMetadataPtr false metadata_image 0x30000
     = Ok (clrmeta_header.with_MetaTables
             (clrmeta_header.mk 0x30000 0x424a5342 1 1 0 12 (0x30000 + 16)
                0 1 [clrstream_header.mk 44 78 0x30028] None) tabs) /\
     clrmeta_tables_head.Valid tabs = 0x800000003 /\
     Z.of_nat (List.length (clrmeta_tables_head.Rows tabs))
     = popcount 0x800000003) /\
  is_abort (initMetadataPtr false metadata_image_field_table 0x30000) = true.
Proof.
  assert (L : low_mapped metadata_image) by (split; vm_compute; discriminate).
  assert (L' : low_mapped metadata_image_field_table)
    by (split; vm_compute; discriminate).
  assert (Hs : read_stream_headers metadata_image (Z.to_nat 1)
                 (0x30000 + 20 + fixsize 12)
               = Ok ([clrstream_header.mk 44 78 0x30028], 0x3002c))
    by (vm_compute; reflexivity).
  assert (Hf : find_tables_stream metadata_image
                 [clrstream_header.mk 44 78 0x30028] (Z.to_nat 1) O 0x30000
               = Ok 0x3002c) by (vm_compute; reflexivity).
  assert (Hs' : read_stream_headers metadata_image_field_table (Z.to_nat 1)
                  (0x30000 + 20 + fixsize 12)
                = Ok ([clrstream_header.mk 44 78 0x30028], 0x3002c))
    by (vm_compute; reflexivity).
  assert (Hf' : find_tables_stream metadata_image_field_table
                  [clrstream_header.mk 44 78 0x30028] (Z.to_nat 1) O 0x30000
                = Ok 0x3002c) by (vm_compute; reflexivity).
  assert (Hne : 0x3002c <> 0x30000) by discriminate.
  assert (H0 : BufferStart metadata_image <= 0x3002c)
    by (vm_compute; discriminate).
  assert (H1 : 0x3002c + 24 + 4 * popcount 0x800000003
               <= getBufferEnd metadata_image)
    by (vm_compute; discriminate).
  assert (H0' : BufferStart metadata_image_field_table <= 0x3002c)
    by (vm_compute; discriminate).
  assert (H1' : 0x3002c + 24 + 4 * popcount 0x11
                <= getBufferEnd metadata_image_field_table)
    by (vm_compute; discriminate).
  exact (conj
    (proj2 (proj2 (proj2 (proj2 (proj2 (proj2 metadata_parsing_outcomes))))
              false metadata_image 0x30000 0x424a5342 12 0 1
              [clrstream_header.mk 44 78 0x30028] 0x3002c 0x3002c
              0x800000003 L eq_refl eq_refl eq_refl eq_refl Hs Hf)
       Hne H0 H1 eq_refl)
    (proj2 (proj2 (proj2 (proj2 (proj2 (proj2 metadata_parsing_outcomes))))
              false metadata_image_field_table 0x30000 0x424a5342 12 0 1
              [clrstream_header.mk 44 78 0x30028] 0x3002c 0x3002c
              0x11 L' eq_refl eq_refl eq_refl eq_refl Hs' Hf')
       Hne H0' H1' eq_refl)).
Defined.

(** The statement that the two functions return success for every
    buffer and pointer fails: with assertions, the image whose [Valid]
    has the bit of the Field table stops at the assertion of
    [setupTablePointers], and on an empty buffer the first read is
    already outside the buffer. *)
Lemma metadata_parsing_not_always_success :
  initMetadataPtr false metadata_image_field_table 0x30000
  = Abort "Field -- 0x04" /\
  initMetadataPtr true (mkBuffer 0x30000 []) 0x30000 = Fault /\
  ~ (forall ndebug M MetadataIntPtr,
       exists h, initMetadataPtr ndebug M MetadataIntPtr = Ok h).
Proof.
  split; [vm_compute; reflexivity|]. split; [vm_compute; reflexivity|].
  intros H. destruct (H false metadata_image_field_table 0x30000) as [h Hh].
  vm_compute in Hh. discriminate Hh.
Qed.
